(** * Benchmark-log analysis scripts (rsx207-wasm-bench): shallow embedding

    The scripts under [scripts/] parse benchmark logs with regular
    expressions, aggregate the samples with Python's [statistics] module and
    print summaries.  This development embeds the functions the
    specification talks about and proves, or refutes, its statements.

    Conventions of the embedding.
    - A Python [float] is modelled by an exact rational [Q]; float equality
      is [Qeq] ([==]).  The one irrational operation, the square root taken
      by [statistics.stdev], is kept symbolic ([PyRoot]).
    - A raised exception is a value of [result]; [print] appends to an
      output log of [line]s, an f-string being the list of its fragments.
    - A [dict] keyed by strings or integers whose iteration order does not
      matter is a [gmap]; one that is iterated in insertion order is an
      association list. *)

From stdpp Require Import gmap strings list sorting.
From Stdlib Require Import Ascii QArith Lqa.

#[local] Open Scope Q_scope.

(** ** Python runtime *)

Module Py.

(** The exceptions the embedded code can raise. *)
Inductive exn : Type :=
| StatisticsError
| ZeroDivisionError
| ValueError
| KeyError
| IndexError
| SystemExit (code : Z).

Inductive result (A : Type) : Type :=
| Ok (a : A)
| Raise (e : exn).
Arguments Ok {A} a.
Arguments Raise {A} e.

#[global] Instance result_ret : MRet result := @Ok.
#[global] Instance result_bind : MBind result :=
  λ A B f m, match m with Ok a => f a | Raise e => Raise e end.
#[global] Instance result_fmap : FMap result :=
  λ A B f m, match m with Ok a => Ok (f a) | Raise e => Raise e end.

Definition is_Ok {A} (r : result A) : Prop := ∃ a, r = Ok a.

(** Values stored in the statistics dictionaries.  [PyRoot q] is the float
    [sqrt q], with the radicand kept exact. *)
Inductive pyval : Type :=
| PyInt (z : Z)
| PyFloat (q : Q)
| PyRoot (q : Q).

#[global] Instance Qle_dec : RelDecision Qle.
Proof.
  intros x y. destruct (Qlt_le_dec y x) as [H|H]; [right|left].
  - by apply Qlt_not_le.
  - exact H.
Defined.

#[global] Instance Qlt_dec : RelDecision Qlt.
Proof.
  intros x y. destruct (Qlt_le_dec x y) as [H|H]; [left|right].
  - exact H.
  - by apply Qle_not_lt.
Defined.

#[global] Instance Qeq_dec' : RelDecision Qeq := Qeq_dec.

(** [len(l)] as a float operand. *)
Definition flen {A} (l : list A) : Q := inject_Z (Z.of_nat (length l)).

(** [x / y] on floats. *)
Definition truediv (x y : Q) : result Q :=
  if decide (y == 0) then Raise ZeroDivisionError else Ok (x / y).

(** [sorted(l)] on floats. *)
Definition sorted (l : list Q) : list Q := merge_sort Qle l.

(** [min(l)] and [max(l)]: the first smallest (largest) element, [ValueError]
    on an empty sequence. *)
Definition pymin (l : list Q) : result Q :=
  match l with
  | [] => Raise ValueError
  | x :: l' => Ok (foldl (λ m y, if decide (y < m) then y else m) x l')
  end.

Definition pymax (l : list Q) : result Q :=
  match l with
  | [] => Raise ValueError
  | x :: l' => Ok (foldl (λ m y, if decide (m < y) then y else m) x l')
  end.

(** [sum(l)] over floats. *)
Definition fsum (l : list Q) : Q := foldr Qplus 0 l.

(** Printed output.  An f-string is the list of its fragments: literal text,
    an interpolated string or integer, a string padded by a format
    specification, and a formatted float with its format specification (the
    rendering of the float itself is not modelled). *)
Inductive frag : Type :=
| FStr (s : string)
| FInt (z : Z)
| FPad (spec : string) (s : string)
| FNum (spec : string) (v : pyval).

Definition line : Type := list frag.

(** Code that prints and may raise: the lines printed so far, and the
    result. *)
Record io (A : Type) : Type := IO { out : list line; res : result A }.
Arguments IO {A} out res.
Arguments out {A} _.
Arguments res {A} _.

#[global] Instance io_ret : MRet io := λ A a, IO [] (Ok a).
#[global] Instance io_bind : MBind io :=
  λ A B f m,
    match res m with
    | Ok a => IO (out m ++ out (f a)) (res (f a))
    | Raise e => IO (out m) (Raise e)
    end.

Definition print (l : line) : io unit := IO [l] (Ok ()).

(** The line break inside a printed string. *)
Definition nl : string := String (ascii_of_nat 10) EmptyString.
Definition lift {A} (r : result A) : io A := IO [] r.

(** The string [c * n]. *)
Definition rule (c : string) (n : nat) : frag :=
  FStr (String.concat "" (replicate n c)).

(** [sys.exit(code)]. *)
Definition sys_exit {A} (code : Z) : io A := IO [] (Raise (SystemExit code)).

(** The exit status of the interpreter after running a script: 0 when it
    runs to its end, the code of [sys.exit], 1 for any other exception. *)
Definition exit_status {A} (r : io A) : Z :=
  match res r with
  | Ok _ => 0
  | Raise (SystemExit code) => code
  | Raise _ => 1
  end.

(** [for x in l: body x], for its effects. *)
Fixpoint for_each {A} (body : A → io unit) (l : list A) : io unit :=
  match l with
  | [] => mret ()
  | x :: l' => body x ≫= λ _, for_each body l'
  end.

(** A loop that threads an accumulator and may raise. *)
Fixpoint foldlM {A B} (f : B → A → result B) (b : B) (l : list A) : result B :=
  match l with
  | [] => Ok b
  | x :: l' => f b x ≫= λ b', foldlM f b' l'
  end.

(** The same for code that also prints. *)
Fixpoint foldlIO {A B} (f : B → A → io B) (b : B) (l : list A) : io B :=
  match l with
  | [] => mret b
  | x :: l' => f b x ≫= λ b', foldlIO f b' l'
  end.

(** [sorted(d.keys())] for integer keys. *)
Definition sorted_keys {V} (d : gmap Z V) : list Z :=
  merge_sort Z.le (map_to_list d).*1.

(** The loop that gathers the data of the runtimes:
    [for rt, path in RUNTIMES.items():] load the samples of [rt] in [path]; when
    there are some ([truthy]), store them under [rt] and run [then_];
    otherwise print the warning [warn rt path]. *)
Definition collect_runtimes {S} (load : string → string → result S) (truthy : S → bool)
    (then_ : string → S → io unit) (warn : string → string → line)
    (RUNTIMES : list (string * string)) : io (list (string * S)) :=
  foldlIO (λ data '(rt, path),
             samples ← lift (load rt path);
             if truthy samples then
               _ ← then_ rt samples; mret (data ++ [(rt, samples)])
             else
               _ ← print (warn rt path); mret data)
          [] RUNTIMES.

(** The truth value of a list. *)
Definition nonempty {A} (l : list A) : bool :=
  match l with [] => false | _ :: _ => true end.

(** [d[k]] on a dictionary. *)
Definition getitem `{Countable K} {V} (d : gmap K V) (k : K) : result V :=
  match d !! k with
  | Some v => Ok v
  | None => Raise KeyError
  end.

(** [l[i]] on a list: a negative index counts from the end, [IndexError]
    out of range. *)
Definition subscript {A} (l : list A) (i : Z) : result A :=
  let j := if decide (i < 0)%Z then (Z.of_nat (length l) + i)%Z else i in
  if decide (j < 0)%Z then Raise IndexError
  else match l !! Z.to_nat j with
       | Some x => Ok x
       | None => Raise IndexError
       end.

(** ASCII letters, for [str.title]. *)
Definition is_lower (c : ascii) : bool :=
  let n := nat_of_ascii c in (97 <=? n)%nat && (n <=? 122)%nat.
Definition is_upper (c : ascii) : bool :=
  let n := nat_of_ascii c in (65 <=? n)%nat && (n <=? 90)%nat.
Definition to_upper (c : ascii) : ascii :=
  if is_lower c then ascii_of_nat (nat_of_ascii c - 32) else c.
Definition to_lower (c : ascii) : ascii :=
  if is_upper c then ascii_of_nat (nat_of_ascii c + 32) else c.

(** [s.replace(a, b)] for single characters. *)
Fixpoint replace_char (a b : ascii) (s : string) : string :=
  match s with
  | EmptyString => EmptyString
  | String c s' => String (if Ascii.eqb c a then b else c) (replace_char a b s')
  end.

(** [s.title()]: a letter that follows a letter is lowered, any other letter
    is raised. *)
Fixpoint title_from (previous_is_cased : bool) (s : string) : string :=
  match s with
  | EmptyString => EmptyString
  | String c s' =>
    if is_lower c || is_upper c then
      String (if previous_is_cased then to_lower c else to_upper c)
             (title_from true s')
    else String c (title_from false s')
  end.
Definition title (s : string) : string := title_from false s.

(** [a in s] on strings. *)
Definition contains (a s : string) : bool :=
  match String.index 0 a s with Some _ => true | None => false end.

(** [s.upper()] on ASCII letters. *)
Fixpoint upper (s : string) : string :=
  match s with
  | EmptyString => EmptyString
  | String c s' => String (to_upper c) (upper s')
  end.

(** [sorted(d.keys())] for string keys of a dictionary kept as a list. *)
Definition sorted_names {V} (d : list (string * V)) : list string :=
  merge_sort String.le d.*1.

(** [d[k]] on a dictionary kept as a list of its items. *)
Definition item {V} (d : list (string * V)) (k : string) : result V :=
  match list_find (λ kv, kv.1 = k) d with
  | Some (_, (_, v)) => Ok v
  | None => Raise KeyError
  end.

End Py.
Export Py.

(** ** Strings, number literals and files *)

Module text.

(** Characters are code points below 256. *)
Definition is_digit (c : ascii) : bool :=
  let n := nat_of_ascii c in (48 <=? n)%nat && (n <=? 57)%nat.

(** [\s] and [str.strip]: the whitespace code points. *)
Definition is_space (c : ascii) : bool :=
  let n := nat_of_ascii c in
  ((9 <=? n)%nat && (n <=? 13)%nat) || ((28 <=? n)%nat && (n <=? 32)%nat) ||
  (n =? 133)%nat || (n =? 160)%nat.

Definition is_newline (c : ascii) : bool := (nat_of_ascii c =? 10)%nat.

Fixpoint all_chars (p : ascii → bool) (s : string) : bool :=
  match s with
  | EmptyString => true
  | String c s' => p c && all_chars p s'
  end.

(** The value of a string of decimal digits, most significant first. *)
Fixpoint digits_value (acc : Z) (s : string) : Z :=
  match s with
  | EmptyString => acc
  | String c s' => digits_value (10 * acc + Z.of_nat (nat_of_ascii c - 48)) s'
  end.

(** [int(s)], for the strings a [\d+] group captures: [ValueError] unless
    [s] is a non-empty string of digits. *)
Definition pyint (s : string) : result Z :=
  if all_chars is_digit s && negb (String.eqb s "") then Ok (digits_value 0 s)
  else Raise ValueError.

(** The part of [s] before the first dot, and the part after it if any. *)
Fixpoint split_dot (s : string) : string * option string :=
  match s with
  | EmptyString => (EmptyString, None)
  | String c s' =>
    if Ascii.eqb c "." then (EmptyString, Some s')
    else let '(a, b) := split_dot s' in (String c a, b)
  end.

(** [float(s)], for the strings a [[0-9.]+] group captures: digits with at
    most one dot and at least one digit, [ValueError] otherwise.  The value
    is the decimal's exact rational. *)
Definition pyfloat (s : string) : result Q :=
  let '(ip, fp) := split_dot s in
  let fp := default EmptyString fp in
  if all_chars is_digit ip && all_chars is_digit fp &&
     negb (String.eqb (ip +:+ fp) "")
  then Ok (digits_value 0 (ip +:+ fp) # Z.to_pos (10 ^ Z.of_nat (String.length fp)))
  else Raise ValueError.

Fixpoint lstrip (s : string) : string :=
  match s with
  | String c s' => if is_space c then lstrip s' else s
  | EmptyString => EmptyString
  end.

Fixpoint rstrip (s : string) : string :=
  match s with
  | String c s' =>
    match rstrip s' with
    | EmptyString => if is_space c then EmptyString else String c EmptyString
    | t => String c t
    end
  | EmptyString => EmptyString
  end.

(** [s.strip()]. *)
Definition strip (s : string) : string := rstrip (lstrip s).

(** [fnmatch(name, "*" + suffix)]. *)
Definition ends_with (suffix name : string) : bool :=
  let n := String.length name in
  let k := String.length suffix in
  (k <=? n)%nat && String.eqb (String.substring (n - k) k name) suffix.

(** A log file: its name and its lines. *)
Record file : Type := File { name : string; content : list string }.

(** The directories that exist, by path, each with its files. *)
Abbreviation filesystem := (gmap string (list file)).

(** [path.exists()]. *)
Definition exists_ (fs : filesystem) (path : string) : bool :=
  bool_decide (is_Some (fs !! path)).

(** [sorted(path.glob("*" + suffix))]: the matching files of the directory in
    the order of their names; nothing when the directory is missing. *)
Definition sorted_glob (fs : filesystem) (path suffix : string) : list file :=
  merge_sort (λ f g, String.le (name f) (name g))
             (filter (λ f, ends_with suffix (name f)) (default [] (fs !! path))).

End text.
Export text.

(** ** The [re] module of the standard library *)

Module re.

(** The regular expressions the scripts use: quantifiers apply to character
    classes only, groups are numbered as in the pattern. *)
Inductive regex : Type :=
| Lit (s : string)
| Cls (p : ascii → bool)
| Star (p : ascii → bool)
| StarLazy (p : ascii → bool)
| Opt (r : regex)
| Seq (r1 r2 : regex)
| Group (n : nat) (r : regex)
| Eos.

(** [p+] and [p{n}]. *)
Definition Plus (p : ascii → bool) : regex := Seq (Cls p) (Star p).
Fixpoint Rep (n : nat) (p : ascii → bool) : regex :=
  match n with
  | O => Lit ""
  | S n' => Seq (Cls p) (Rep n' p)
  end.

(** A sequence of patterns. *)
Definition seq (rs : list regex) : regex := foldr Seq (Lit "") rs.

(** Groups set so far, the latest first. *)
Definition captures : Type := list (nat * string).

Fixpoint strip_prefix (p s : string) : option string :=
  match p, s with
  | EmptyString, _ => Some s
  | String a p', String b s' => if Ascii.eqb a b then strip_prefix p' s' else None
  | String _ _, EmptyString => None
  end.

(** The text consumed between [s] and its suffix [s']. *)
Definition consumed (s s' : string) : string :=
  String.substring 0 (String.length s - String.length s') s.

(** Backtracking matcher: [run r s caps k] matches [r] at the start of [s] and
    hands the rest of the text to the continuation [k], trying the
    alternatives in the order of the [re] module (greedy first). *)
Fixpoint run {A} (r : regex) (s : string) (caps : captures)
    (k : string → captures → option A) : option A :=
  match r with
  | Lit p =>
    match strip_prefix p s with
    | Some s' => k s' caps
    | None => None
    end
  | Cls p =>
    match s with
    | String c s' => if p c then k s' caps else None
    | EmptyString => None
    end
  | Star p =>
    (fix star (s : string) : option A :=
       match s with
       | String c s' =>
         if p c then
           match star s' with
           | Some x => Some x
           | None => k s caps
           end
         else k s caps
       | EmptyString => k s caps
       end) s
  | StarLazy p =>
    (fix lazy (s : string) : option A :=
       match k s caps with
       | Some x => Some x
       | None =>
         match s with
         | String c s' => if p c then lazy s' else None
         | EmptyString => None
         end
       end) s
  | Opt r' =>
    match run r' s caps k with
    | Some x => Some x
    | None => k s caps
    end
  | Seq r1 r2 => run r1 s caps (λ s' caps', run r2 s' caps' k)
  | Group n r' => run r' s caps (λ s' caps', k s' ((n, consumed s s') :: caps'))
  | Eos =>
    match s with
    | EmptyString => k s caps
    | String c EmptyString => if is_newline c then k s caps else None
    | _ => None
    end
  end.

(** [pattern.match(s)]: a match at the start of [s]. *)
Definition match_ (r : regex) (s : string) : option captures :=
  run r s [] (λ _ caps, Some caps).

(** [pattern.search(s)]: the leftmost match. *)
Fixpoint search (r : regex) (s : string) : option captures :=
  match match_ r s with
  | Some m => Some m
  | None =>
    match s with
    | String _ s' => search r s'
    | EmptyString => None
    end
  end.

(** [m.group(n)] for a group that took part in the match. *)
Fixpoint group (m : captures) (n : nat) : string :=
  match m with
  | [] => EmptyString
  | (i, x) :: m' => if (i =? n)%nat then x else group m' n
  end.

Definition digit_or_dot (c : ascii) : bool := is_digit c || Ascii.eqb c ".".
Definition not_newline (c : ascii) : bool := negb (is_newline c).

End re.

(** ** The [statistics] module of the standard library, by its documentation *)

Module statistics.

(** [statistics.mean]: arithmetic mean, [StatisticsError] when empty. *)
Definition mean (data : list Q) : result Q :=
  match data with
  | [] => Raise StatisticsError
  | _ => Ok (fsum data / flen data)
  end.

(** [statistics.median]: middle value of the sorted data, the mean of the
    two middle values for an even count, [StatisticsError] when empty. *)
Definition median (data : list Q) : result Q :=
  let data' := sorted data in
  let n := length data' in
  match n with
  | O => Raise StatisticsError
  | _ =>
    if decide (n mod 2 = 1)%nat then Ok (nth (n / 2) data' 0)
    else let i := (n / 2)%nat in Ok ((nth (i - 1) data' 0 + nth i data' 0) / 2)
  end.

(** Sum of squared deviations from [c]. *)
Definition sum_sq_dev (c : Q) (data : list Q) : Q :=
  fsum (map (λ x, (x - c) * (x - c)) data).

(** [statistics.variance]: the sample variance, sum of squared deviations
    from the mean over [n - 1]; [StatisticsError] below two data points. *)
Definition variance (data : list Q) : result Q :=
  if decide (length data < 2)%nat then Raise StatisticsError
  else Ok (sum_sq_dev (fsum data / flen data) data / (flen data - 1)).

(** [statistics.stdev]: the square root of the sample variance. *)
Definition stdev (data : list Q) : result pyval :=
  v ← variance data; Ok (PyRoot v).

End statistics.

(** ** scripts/analyze_cold_start_comparison.py *)

Module cold_start.

(** [compute_stats(values)]: the empty dictionary for no values, otherwise
    the six statistics. *)
Definition compute_stats (values : list Q) : result (gmap string pyval) :=
  match values with
  | [] => Ok ∅
  | _ =>
    m ← statistics.mean values;
    md ← statistics.median values;
    sd ← (if decide (1 < length values)%nat then statistics.stdev values
          else Ok (PyInt 0));
    mn ← pymin values;
    mx ← pymax values;
    Ok (<["mean" := PyFloat m]> (<["median" := PyFloat md]> (<["stdev" := sd]>
        (<["min" := PyFloat mn]> (<["max" := PyFloat mx]>
        (<["count" := PyInt (Z.of_nat (length values))]> ∅))))))
  end.

(** One row of [cold_start_data.csv] after [load_data]. *)
Record entry : Type := Entry { run : Z; build_ms : Q; start_ms : Q; total_ms : Q }.

(** [data.get(key, [])]. *)
Definition get_entries (data : gmap string (list entry)) (key : string) : list entry :=
  default [] (data !! key).

Definition labels : gmap string string :=
  <["docker_full_cold" := "Docker (Full Cold - build from source)"]>
  (<["docker_runtime_cold" := "Docker (Runtime Cold - pre-built image)"]>
  (<["wasmtime_full_cold" := "Wasmtime (Full Cold - build from source)"]>
  (<["wasmtime_runtime_cold" := "Wasmtime (Runtime Cold - pre-built component)"]> ∅)))%string.

Definition scenario_keys : list string :=
  ["docker_full_cold"; "docker_runtime_cold"; "wasmtime_full_cold"; "wasmtime_runtime_cold"]%string.

(** The body of the first loop of [print_summary]: the statistics of one
    scenario, nothing for a scenario without entries. *)
Definition print_scenario (data : gmap string (list entry)) (key : string) : io unit :=
  match get_entries data key with
  | [] => mret ()
  | entries =>
    let total_times := map total_ms entries in
    stats ← lift (compute_stats total_times);
    label ← lift (getitem labels key);
    _ ← print [FStr nl; FStr label; FStr ":"];
    _ ← print [FStr "  Total time to first HTTP 200:"];
    v ← lift (getitem stats "mean");
    _ ← print [FStr "    Mean:   "; FNum ">10.2f" v; FStr " ms"];
    v ← lift (getitem stats "median");
    _ ← print [FStr "    Median: "; FNum ">10.2f" v; FStr " ms"];
    v ← lift (getitem stats "stdev");
    _ ← print [FStr "    Stdev:  "; FNum ">10.2f" v; FStr " ms"];
    v ← lift (getitem stats "min");
    _ ← print [FStr "    Min:    "; FNum ">10.2f" v; FStr " ms"];
    v ← lift (getitem stats "max");
    _ ← print [FStr "    Max:    "; FNum ">10.2f" v; FStr " ms"];
    if contains "full_cold" key then
      let build_times := map build_ms entries in
      let start_times := map start_ms entries in
      _ ← print [FStr "  Breakdown:"];
      b ← lift (statistics.mean build_times);
      _ ← print [FStr "    Build:  "; FNum ">10.2f" (PyFloat b); FStr " ms (mean)"];
      s ← lift (statistics.mean start_times);
      print [FStr "    Start:  "; FNum ">10.2f" (PyFloat s); FStr " ms (mean)"]
    else mret ()
  end.

Definition comparisons : list (string * string * string) :=
  [("docker_full_cold", "wasmtime_full_cold", "Full Cold (build from source)");
   ("docker_runtime_cold", "wasmtime_runtime_cold", "Runtime Cold (serverless cold start)");
   ("docker_full_cold", "docker_runtime_cold", "Docker: Full Cold vs Runtime Cold");
   ("wasmtime_full_cold", "wasmtime_runtime_cold", "Wasmtime: Full Cold vs Runtime Cold")]%string.

(** [key.replace("_", " ").title()]. *)
Definition winner_name (key : string) : string := title (replace_char "_" " " key).

(** The line [f"  {desc}: {winner} is {ratio:.1f}x faster"]. *)
Definition comparison_line (desc winner : string) (ratio : Q) : line :=
  [FStr "  "; FStr desc; FStr ": "; FStr winner; FStr " is ";
   FNum ".1f" (PyFloat ratio); FStr "x faster"].

(** The body of the comparison loop of [print_summary]. *)
Definition print_comparison (data : gmap string (list entry))
    (c : string * string * string) : io unit :=
  let '(key1, key2, desc) := c in
  match get_entries data key1, get_entries data key2 with
  | _ :: _, _ :: _ =>
    e1 ← lift (getitem data key1);
    mean1 ← lift (statistics.mean (map total_ms e1));
    e2 ← lift (getitem data key2);
    mean2 ← lift (statistics.mean (map total_ms e2));
    if decide (mean2 < mean1) then
      ratio ← lift (truediv mean1 mean2);
      print (comparison_line desc (winner_name key2) ratio)
    else
      ratio ← lift (truediv mean2 mean1);
      print (comparison_line desc (winner_name key1) ratio)
  | _, _ => mret ()
  end.

(** [print_summary(data)]. *)
Definition print_summary (data : gmap string (list entry)) : io unit :=
  _ ← print [FStr nl; rule "=" 70];
  _ ← print [FStr "Cold Start Comparison: Docker vs Wasmtime"];
  _ ← print [rule "=" 70];
  _ ← for_each (print_scenario data) scenario_keys;
  _ ← print [FStr nl; rule "-" 70];
  _ ← print [FStr "COMPARISONS:"];
  _ ← for_each (print_comparison data) comparisons;
  print [rule "=" 70; FStr nl].

(** A row of [cold_start_data.csv], its numeric fields converted. *)
Record csv_row : Type :=
  Row { csv_runtime : string; csv_type : string; csv_run : Z;
        csv_build_ms : Q; csv_start_ms : Q; csv_total_ms : Q }.

(** [load_data()]: [None], after an error message, when the file does not
    exist ([csv = None]); otherwise the rows by scenario, rows of other
    scenarios being ignored. *)
Definition load_data (csv : option (list csv_row)) :
    io (option (gmap string (list entry))) :=
  match csv with
  | None =>
    _ ← print [FStr "ERROR: Data file not found: ";
               FStr "results/raw/cold-start-comparison/cold_start_data.csv"];
    _ ← print [FStr "Run the measurement script first:"];
    _ ← print [FStr "  ./scripts/measure_cold_start_comparison.sh"];
    mret None
  | Some rows =>
    let data : gmap string (list entry) :=
      <["docker_full_cold" := []]> (<["docker_runtime_cold" := []]>
      (<["wasmtime_full_cold" := []]> (<["wasmtime_runtime_cold" := []]> ∅))) in
    mret (Some (foldl (λ data row,
                         let key := csv_runtime row +:+ "_" +:+ csv_type row in
                         match data !! key with
                         | Some entries =>
                           <[key := entries ++ [Entry (csv_run row) (csv_build_ms row)
                                                  (csv_start_ms row) (csv_total_ms row)]]> data
                         | None => data
                         end)
                      data rows))
  end.

Section Main.

(** The four figures, drawn and saved by matplotlib. *)
Variable plots : gmap string (list entry) → io unit.

(** [main()] *)
Definition main (csv : option (list csv_row)) : io unit :=
  data ← load_data csv;
  match data with
  | None => mret ()
  | Some data =>
    let has_data :=
      existsb (λ k, match get_entries data k with [] => false | _ => true end)
              (map_to_list data).*1 in
    if has_data then
      _ ← print_summary data;
      _ ← plots data;
      print [FStr nl; FStr "All graphs saved to: "; FStr "results/processed"]
    else print [FStr "No data found for any scenario."]
  end.

End Main.

(** The scenario of a CSV row: [f"{runtime}_{start_type}"]. *)
Definition row_key (row : csv_row) : string := csv_runtime row +:+ "_" +:+ csv_type row.

(** [statistics.mean(times) if times else 0] *)
Definition mean_or_zero (times : list Q) : result pyval :=
  match times with
  | [] => Ok (PyInt 0)
  | _ => m ← statistics.mean times; Ok (PyFloat m)
  end.

(** [statistics.stdev(times) if len(times) > 1 else 0] *)
Definition stdev_or_zero (times : list Q) : result pyval :=
  if decide (1 < length times)%nat then statistics.stdev times else Ok (PyInt 0).

(** What [plot_grouped_bar(data)] computes before it draws: for the start
    types full_cold and runtime_cold, the means and standard deviations of
    docker and of wasmtime, and the sample size shown in the corner. *)
Record grouped_bars : Type :=
  GroupedBars { docker_means : list pyval; docker_stds : list pyval;
                wasmtime_means : list pyval; wasmtime_stds : list pyval;
                n_samples : nat }.

Definition grouped_bar_series (data : gmap string (list entry)) : result grouped_bars :=
  '(dm, ds, wm, ws) ←
    foldlM (λ '(dm, ds, wm, ws) start_type,
              let docker_key := "docker_" +:+ start_type in
              let wasmtime_key := "wasmtime_" +:+ start_type in
              let docker_times := map total_ms (get_entries data docker_key) in
              let wasmtime_times := map total_ms (get_entries data wasmtime_key) in
              m1 ← mean_or_zero docker_times;
              s1 ← stdev_or_zero docker_times;
              m2 ← mean_or_zero wasmtime_times;
              s2 ← stdev_or_zero wasmtime_times;
              Ok (dm ++ [m1], ds ++ [s1], wm ++ [m2], ws ++ [s2]))
           ([], [], [], []) ["full_cold"; "runtime_cold"];
  Ok (GroupedBars dm ds wm ws (length (get_entries data "docker_full_cold"))).

(** What [plot_stacked_breakdown(data)] computes before it draws: the mean
    build and start times of the four scenarios. *)
Definition stacked_breakdown_series (data : gmap string (list entry)) :
    result (list pyval * list pyval) :=
  foldlM (λ '(build_means, start_means) key,
            match get_entries data key with
            | [] => Ok (build_means ++ [PyInt 0], start_means ++ [PyInt 0])
            | entries =>
              b ← statistics.mean (map build_ms entries);
              s ← statistics.mean (map start_ms entries);
              Ok (build_means ++ [PyFloat b], start_means ++ [PyFloat s])
            end)
         ([], []) scenario_keys.

(** What [plot_boxplot(data)] draws: the total times of the four scenarios,
    the single value 0 for a scenario without entries. *)
Definition boxplot_series (data : gmap string (list entry)) : list (list pyval) :=
  map (λ key, match get_entries data key with
              | [] => [PyInt 0]
              | entries => map (λ e, PyFloat (total_ms e)) entries
              end)
      scenario_keys.

(** One bar of [plot_speedup_chart]: label, speedup and colour, for a pair
    of scenarios that both have entries. *)
Definition speedup_bar (data : gmap string (list entry)) (docker_key wasmtime_key name : string) :
    result (option (string * Q * string)) :=
  match get_entries data docker_key, get_entries data wasmtime_key with
  | _ :: _, _ :: _ =>
    e1 ← getitem data docker_key;
    docker ← statistics.mean (map total_ms e1);
    e2 ← getitem data wasmtime_key;
    wasmtime ← statistics.mean (map total_ms e2);
    if decide (wasmtime < docker) then
      speedup ← truediv docker wasmtime;
      Ok (Some (name +:+ nl +:+ "(Wasmtime wins)", speedup, "#FF6B35"))
    else
      speedup ← truediv wasmtime docker;
      Ok (Some (name +:+ nl +:+ "(Docker wins)", speedup, "#2496ED"))
  | _, _ => Ok None
  end.

(** What [plot_speedup_chart(data)] computes before it draws: the bars of
    the full-cold and runtime-cold comparisons and the upper limit of the
    axis. *)
Definition speedup_chart_bars (data : gmap string (list entry)) :
    result (list (string * Q * string) * Q) :=
  full ← speedup_bar data "docker_full_cold" "wasmtime_full_cold" "Full Cold";
  runtime ← speedup_bar data "docker_runtime_cold" "wasmtime_runtime_cold" "Runtime Cold";
  let bars := option_list full ++ option_list runtime in
  ylim ← match bars with
         | [] => Ok 2
         | _ => m ← pymax (map (λ b, b.1.2) bars); Ok (m * (12 # 10))
         end;
  Ok (bars, ylim).

End cold_start.

(** ** scripts/generate_summary.py (aggregation) *)

Module generate_summary.
Import re.

Record benchmark : Type :=
  Benchmark { bench_key : string; bench_name : string; bench_unit : string;
              bench_runtimes : list (string * string); bench_pattern : regex;
              bench_convert : option (Q → Q) }.

Definition http_hello_dirs : list (string * string) :=
  [("native", "results/raw/native/http-hello");
   ("docker", "results/raw/docker/http-hello");
   ("wasmtime", "results/raw/wasmtime/http-hello")].

(** A pattern [name=( [0-9.]+ )]. *)
Definition field (name : string) : regex :=
  seq [Lit (name +:+ "="); Group 1 (Plus digit_or_dot)].

Definition BENCHMARKS : list benchmark :=
  [Benchmark "cold_start" "Cold Start" "ms" http_hello_dirs (field "cold_start_ms") None;
   Benchmark "http_latency" "HTTP Latency (p50)" "ms" http_hello_dirs (field "latency_ms") None;
   Benchmark "http_throughput" "HTTP Throughput" "req/s" http_hello_dirs
     (field "throughput_rps") None;
   Benchmark "memory_usage" "Memory Usage" "MB" http_hello_dirs (field "rss_kb")
     (Some (λ x, x / 1024));
   Benchmark "cpu_hash" "CPU Hash Performance" "ms"
     [("native", "results/raw/native/cpu-hash");
      ("docker", "results/raw/docker/cpu-hash");
      ("wasmtime", "results/raw/wasm/cpu-hash");
      ("wasmedge", "results/raw/wasmedge/cpu-hash")]
     (field "outer_ms") None].

(** [load_samples(log_dir, pattern, convert_func)] *)
Definition load_samples (fs : filesystem) (log_dir : string) (pattern : regex)
    (convert_func : option (Q → Q)) : result (list Q) :=
  if negb (exists_ fs log_dir) then Ok []
  else
    foldlM (λ samples log,
              foldlM (λ samples line,
                        match search pattern line with
                        | Some m =>
                          value ← pyfloat (group m 1);
                          let value := match convert_func with
                                       | Some f => f value
                                       | None => value
                                       end in
                          Ok (samples ++ [value])
                        | None => Ok samples
                        end)
                     samples (content log))
           [] (sorted_glob fs log_dir "_run.log").

Definition samples_line (benchmark_key rt : string) (n : nat) : line :=
  [FStr "  "; FStr benchmark_key; FStr " / "; FStr rt; FStr ": ";
   FInt (Z.of_nat n); FStr " samples"].

(** The loop of [main] over the runtimes of one benchmark. *)
Definition collect_benchmark (fs : filesystem) (b : benchmark) :
    io (list (string * list Q)) :=
  foldlIO (λ bench_results '(rt, log_dir),
             samples ← lift (load_samples fs log_dir (bench_pattern b) (bench_convert b));
             match samples with
             | _ :: _ =>
               _ ← print (samples_line (bench_key b) rt (length samples));
               mret (bench_results ++ [(rt, samples)])
             | [] => mret bench_results
             end)
          [] (bench_runtimes b).

(** The first loop of [main]: the results by benchmark and runtime. *)
Definition collect (fs : filesystem) : io (list (string * list (string * list Q))) :=
  foldlIO (λ results b,
             bench_results ← collect_benchmark fs b;
             mret (results ++ [(bench_key b, bench_results)]))
          [] BENCHMARKS.

Section Main.

(** The three reports, rendered, written and echoed. *)
Variable reports : list (string * list (string * list Q)) → io unit.

(** [main()] *)
Definition main (fs : filesystem) : io unit :=
  _ ← print [FStr "Collecting benchmark results..."];
  results ← collect fs;
  _ ← print [FStr nl; FStr "Generating summary reports..."];
  _ ← reports results;
  _ ← print [FStr nl; rule "=" 80];
  _ ← print [FStr "Summary generation complete!"];
  print [rule "=" 80].

End Main.

(** The table row [f"| {rt} | {mean_val:.2f} {unit} | ... | {n} |"]. *)
Definition row_line (rt unit : string) (mean_val median_val stdev_val min_val max_val : pyval)
    (n : nat) : line :=
  [FStr "| "; FStr rt; FStr " | "; FNum ".2f" mean_val; FStr " "; FStr unit;
   FStr " | "; FNum ".2f" median_val; FStr " "; FStr unit; FStr " | ";
   FNum ".2f" stdev_val; FStr " | "; FNum ".2f" min_val; FStr " | ";
   FNum ".2f" max_val; FStr " | "; FInt (Z.of_nat n); FStr " |"].

(** The body of the per-runtime loop of [generate_markdown_table]: no row
    ([continue]) for a runtime without samples. *)
Definition table_row (rt : string) (samples : list Q) (unit : string) : result (option line) :=
  match samples with
  | [] => Ok None
  | _ =>
    mean_val ← statistics.mean samples;
    median_val ← statistics.median samples;
    stdev_val ← (if decide (1 < length samples)%nat then statistics.stdev samples
                 else Ok (PyInt 0));
    min_val ← pymin samples;
    max_val ← pymax samples;
    let n := length samples in
    Ok (Some (row_line rt unit (PyFloat mean_val) (PyFloat median_val) stdev_val
                (PyFloat min_val) (PyFloat max_val) n))
  end.

(** [calculate_percentile(samples, percentile)].  [int(x)] truncates towards
    zero; the quotient [len * percentile / 100] is taken exactly. *)
Definition calculate_percentile (samples : list Q) (percentile : Z) : result Q :=
  match samples with
  | [] => Ok 0
  | _ =>
    let sorted_samples := sorted samples in
    let index := Z.quot (Z.of_nat (length sorted_samples) * percentile) 100 in
    subscript sorted_samples (Z.min index (Z.of_nat (length sorted_samples) - 1))
  end.

End generate_summary.

(** ** scripts/analyze_http_hello_scaling.py *)

Module http_hello_scaling.

(** The samples of one concurrency level: the inner [defaultdict(list)] with
    its three keys. *)
Record series : Type :=
  Series { throughput_rps : list Q; total_rss_kb : list Z; avg_rss_kb : list Z }.

Record efficiency_entry : Type :=
  Efficiency { actual_speedup : Q; ideal_speedup : Z; efficiency_pct : Q }.

(** The body of the loop of [calculate_scaling_efficiency]: the entry of
    one concurrency level. *)
Definition efficiency_at (conc_map : gmap Z series) (baseline_throughput : Q) (conc : Z) :
    result efficiency_entry :=
  s ← getitem conc_map conc;
  actual_throughput ← statistics.mean (throughput_rps s);
  actual_speedup ← truediv actual_throughput baseline_throughput;
  let ideal_speedup := conc in
  r ← truediv actual_speedup (inject_Z ideal_speedup);
  let eff := r * 100 in
  Ok (Efficiency actual_speedup ideal_speedup eff).

(** [calculate_scaling_efficiency(data, runtime)]. *)
Definition calculate_scaling_efficiency (data : gmap string (gmap Z series))
    (runtime : string) : result (gmap Z efficiency_entry) :=
  conc_map ← getitem data runtime;
  let concs := sorted_keys conc_map in
  if bool_decide (concs = []) || negb (bool_decide (1%Z ∈ concs)) then Ok ∅
  else
    s1 ← getitem conc_map 1%Z;
    baseline_throughput ← statistics.mean (throughput_rps s1);
    foldlM (λ efficiency conc,
              e ← efficiency_at conc_map baseline_throughput conc;
              Ok (<[conc := e]> efficiency))
           ∅ concs.

Definition RUNTIMES : list (string * string) :=
  [("native", "results/raw/native/http-hello-scaling");
   ("docker", "results/raw/docker/http-hello-scaling");
   ("wasmtime", "results/raw/wasmtime/http-hello-scaling")].

(** The pattern [.* _run\.log $]. *)
Definition RUN_LOG_PATTERN : re.regex :=
  re.seq [re.Star re.not_newline; re.Lit "_run.log"; re.Eos].

(** The pattern
    [run=( \d+ ) \s+ conc=( \d+ ) \s+ total_requests=( \d+ ) \s+ elapsed_ms=( [0-9.]+ ) \s+
     throughput_rps=( [0-9.]+ ) .* total_rss_kb=( \d+ ) .* avg_rss_kb=( \d+ )]. *)
Definition SCALE_LINE_PATTERN : re.regex :=
  re.seq [re.Lit "run="; re.Group 1 (re.Plus is_digit); re.Plus is_space;
          re.Lit "conc="; re.Group 2 (re.Plus is_digit); re.Plus is_space;
          re.Lit "total_requests="; re.Group 3 (re.Plus is_digit); re.Plus is_space;
          re.Lit "elapsed_ms="; re.Group 4 (re.Plus re.digit_or_dot); re.Plus is_space;
          re.Lit "throughput_rps="; re.Group 5 (re.Plus re.digit_or_dot);
          re.Star re.not_newline; re.Lit "total_rss_kb="; re.Group 6 (re.Plus is_digit);
          re.Star re.not_newline; re.Lit "avg_rss_kb="; re.Group 7 (re.Plus is_digit)].

(** The three [append]s on [samples[conc]]. *)
Definition append_at (samples : gmap Z series) (conc : Z) (throughput : Q)
    (total_rss avg_rss : Z) : gmap Z series :=
  let s := default (Series [] [] []) (samples !! conc) in
  <[conc := Series (throughput_rps s ++ [throughput]) (total_rss_kb s ++ [total_rss])
                   (avg_rss_kb s ++ [avg_rss])]> samples.

(** [load_samples(path)] *)
Definition load_samples (fs : filesystem) (path : string) : result (gmap Z series) :=
  foldlM (λ samples log,
            match re.match_ RUN_LOG_PATTERN (name log) with
            | None => Ok samples
            | Some _ =>
              foldlM (λ samples line,
                        match re.search SCALE_LINE_PATTERN line with
                        | Some m =>
                          conc ← pyint (re.group m 2);
                          throughput ← pyfloat (re.group m 5);
                          total_rss ← pyint (re.group m 6);
                          avg_rss ← pyint (re.group m 7);
                          Ok (append_at samples conc throughput total_rss avg_rss)
                        | None => Ok samples
                        end)
                     samples (content log)
            end)
         ∅ (sorted_glob fs path "_run.log").

Definition no_samples_line (rt path : string) : line :=
  [FStr "[WARN] No http-hello scaling samples for "; FStr rt; FStr " in "; FStr path].

(** The first loop of [main]. *)
Definition collect (fs : filesystem) : io (list (string * gmap Z series)) :=
  collect_runtimes (λ _, load_samples fs) (λ samples, negb (bool_decide (samples = ∅)))
    (λ _ _, mret ()) no_samples_line RUNTIMES.

Section Main.

(** The text summary and the four figures. *)
Variable report : list (string * gmap Z series) → io unit.

(** [main()] *)
Definition main (fs : filesystem) : io unit :=
  data ← collect fs;
  match data with
  | [] =>
    _ ← print [FStr "ERROR: No http-hello scaling data found."];
    _ ← print [FStr nl; FStr "Run the scaling benchmark first:"];
    _ ← print [FStr "  RUNTIME=native ./scripts/measure_http_hello_scaling.sh"];
    _ ← print [FStr "  RUNTIME=docker ./scripts/measure_http_hello_scaling.sh"];
    _ ← print [FStr "  RUNTIME=wasmtime ./scripts/measure_http_hello_scaling.sh"];
    sys_exit 1
  | _ =>
    _ ← report data;
    _ ← print [FStr nl; rule "=" 80];
    _ ← print [FStr "Analysis complete! Check results/processed/ for plots."];
    print [rule "=" 80]
  end.

End Main.

End http_hello_scaling.

(** ** scripts/analyze_cpu_hash_comparison.py (loading) *)

Module cpu_hash_comparison.
Import re.

Definition RUNTIMES : list (string * string) :=
  [("native", "results/raw/native/cpu-hash");
   ("docker", "results/raw/docker/cpu-hash");
   ("wasmtime", "results/raw/wasm/cpu-hash");
   ("wasmedge", "results/raw/wasmedge/cpu-hash")].

(** The pattern [.* _run\.log $]. *)
Definition RUN_LOG_PATTERN : regex :=
  seq [Star not_newline; Lit "_run.log"; Eos].

(** The pattern [outer_ms=( [0-9.]+ )]. *)
Definition OUTER_MS_PATTERN : regex :=
  seq [Lit "outer_ms="; Group 1 (Plus digit_or_dot)].

(** [load_samples(path)] *)
Definition load_samples (fs : filesystem) (path : string) : result (list Q) :=
  foldlM (λ samples log,
            match match_ RUN_LOG_PATTERN (name log) with
            | None => Ok samples
            | Some _ =>
              foldlM (λ samples line,
                        match search OUTER_MS_PATTERN line with
                        | Some m => v ← pyfloat (group m 1); Ok (samples ++ [v])
                        | None => Ok samples
                        end)
                     samples (content log)
            end)
         [] (sorted_glob fs path "_run.log").

(** What the script uses of [scipy.stats]: the bounds of the confidence
    interval of the mean (from [sem] and [t.ppf]) and the p-value of
    [mannwhitneyu]. *)
Record scipy_stats : Type :=
  Scipy { t_interval : list Q → Q * Q; mannwhitneyu : list Q → list Q → Q }.

Section Main.

(** [None] when the import of scipy failed ([SCIPY_AVAILABLE = False]). *)
Variable scipy : option scipy_stats.

(** The figures, drawn and saved by matplotlib, with what is printed on the
    way. *)
Variable plots : list (string * list Q) → io unit.

(** Printed when the module is loaded without scipy. *)
Definition import_scipy : io unit :=
  match scipy with
  | Some _ => mret ()
  | None =>
    _ ← print [FStr "[WARN] scipy not available. Statistical significance tests will be skipped."];
    print [FStr "  Install with: pip install scipy"]
  end.

(** [compute_confidence_interval(samples)] *)
Definition compute_confidence_interval (samples : list Q) : option (Q * Q) :=
  match scipy with
  | None => None
  | Some sp => if decide (length samples < 2)%nat then None else Some (t_interval sp samples)
  end.

Definition significance (p_value : Q) : string :=
  if decide (p_value < 1 # 1000) then "***"
  else if decide (p_value < 1 # 100) then "**"
  else if decide (p_value < 5 # 100) then "*"
  else "ns".

Definition skipped_line (rt1 rt2 : string) : line :=
  [FStr nl; FStr rt1; FStr " vs "; FStr rt2; FStr ": SKIPPED (insufficient samples)"].

(** The body of the inner loop of [compare_runtimes_statistically]. *)
Definition compare_pair (sp : scipy_stats) (d1 d2 : string * list Q) : io unit :=
  let '(rt1, samples1) := d1 in
  let '(rt2, samples2) := d2 in
  if bool_decide (length samples1 < 3)%nat || bool_decide (length samples2 < 3)%nat then
    print (skipped_line rt1 rt2)
  else
    let p_value := mannwhitneyu sp samples1 samples2 in
    mean1 ← lift (statistics.mean samples1);
    mean2 ← lift (statistics.mean samples2);
    d ← lift (truediv (mean2 - mean1) mean1);
    let diff_pct := d * 100 in
    _ ← print [FStr nl; FStr rt1; FStr " vs "; FStr rt2; FStr ":"];
    _ ← print [FStr "  Mean: "; FNum ".3f" (PyFloat mean1); FStr " ms vs ";
               FNum ".3f" (PyFloat mean2); FStr " ms (diff: ";
               FNum "+.1f" (PyFloat diff_pct); FStr "%)"];
    _ ← print [FStr "  p-value: "; FNum ".6f" (PyFloat p_value); FStr " ";
               FStr (significance p_value)];
    if decide (p_value < 5 # 100)
    then print [FStr "  Result: Statistically significant difference"]
    else print [FStr "  Result: No significant difference"].

(** The two nested loops: every runtime against the later ones. *)
Fixpoint compare_all (sp : scipy_stats) (data : list (string * list Q)) : io unit :=
  match data with
  | [] => mret ()
  | d1 :: rest => _ ← for_each (compare_pair sp d1) rest; compare_all sp rest
  end.

(** [compare_runtimes_statistically(data)] *)
Definition compare_runtimes_statistically (data : list (string * list Q)) : io unit :=
  match scipy with
  | None => mret ()
  | Some sp =>
    _ ← print [FStr nl; rule "=" 80];
    _ ← print [FStr "STATISTICAL SIGNIFICANCE TESTS (Mann-Whitney U)"];
    _ ← print [rule "=" 80];
    compare_all sp data
  end.

Definition few_samples_line (n : nat) (rt : string) : line :=
  [FStr "[WARN] Only "; FInt (Z.of_nat n); FStr " samples for "; FStr rt;
   FStr ". Recommend at least 5 for statistical validity."].

Definition no_samples_line (rt path : string) : line :=
  [FStr "[WARN] No cpu-hash samples for "; FStr rt; FStr " in "; FStr path].

(** The first loop of [main]: the samples of each runtime, with a warning
    for a runtime that has none or fewer than three. *)
Definition collect (fs : filesystem) : io (list (string * list Q)) :=
  collect_runtimes (λ _, load_samples fs) nonempty
    (λ rt samples,
       if decide (length samples < 3)%nat
       then print (few_samples_line (length samples) rt)
       else mret ())
    no_samples_line RUNTIMES.

(** The summary line of one runtime. *)
Definition summary_line (d : string * list Q) : io unit :=
  let '(rt, samples) := d in
  mean_val ← lift (statistics.mean samples);
  median_val ← lift (statistics.median samples);
  stdev_val ← lift (if decide (1 < length samples)%nat then statistics.stdev samples
                    else Ok (PyInt 0));
  let ci_str :=
    match compute_confidence_interval samples with
    | Some (ci_low, ci_high) =>
      [FStr ", 95% CI=["; FNum ".3f" (PyFloat ci_low); FStr ", ";
       FNum ".3f" (PyFloat ci_high); FStr "]"]
    | None => [FStr ""]
    end in
  mn ← lift (pymin samples);
  mx ← lift (pymax samples);
  print ([FStr "- "; FPad "10s" rt; FStr ": mean="; FNum "7.3f" (PyFloat mean_val);
          FStr " ± "; FNum "6.3f" stdev_val; FStr " ms, median=";
          FNum "7.3f" (PyFloat median_val); FStr " ms, range=[";
          FNum ".3f" (PyFloat mn); FStr ", "; FNum ".3f" (PyFloat mx);
          FStr "], n="; FInt (Z.of_nat (length samples))] ++ ci_str).

(** [main()] *)
Definition main (fs : filesystem) : io unit :=
  data ← collect fs;
  match data with
  | [] => print [FStr "No cpu-hash data found."]
  | _ =>
    _ ← print [FStr nl; rule "=" 80];
    _ ← print [FStr "CPU-HASH SUMMARY (execution time)"];
    _ ← print [rule "=" 80];
    _ ← for_each summary_line data;
    _ ← compare_runtimes_statistically data;
    plots data
  end.

End Main.

(** The script: the module is loaded, then [main] runs, once for each of its
    two definitions, which differ in their figures only. *)
Definition script (scipy : option scipy_stats)
    (plots plots' : list (string * list Q) → io unit) (fs : filesystem) : io unit :=
  _ ← import_scipy scipy;
  _ ← main scipy plots fs;
  main scipy plots' fs.

End cpu_hash_comparison.

(** ** scripts/analyze_cpu_hash_scaling.py (loading) *)

Module cpu_hash_scaling.
Import re.

Definition RUNTIMES : list (string * string) :=
  [("native", "results/raw/native/cpu-hash-scaling");
   ("docker", "results/raw/docker/cpu-hash-scaling");
   ("wasmtime", "results/raw/wasm/cpu-hash-scaling");
   ("wasmedge", "results/raw/wasmedge/cpu-hash-scaling")].

(** The pattern [.* _run\.log $]. *)
Definition RUN_LOG_PATTERN : regex :=
  seq [Star not_newline; Lit "_run.log"; Eos].

(** The pattern [conc=( \d+ ) .* throughput_iter_s=( [0-9.]+ )]. *)
Definition SCALE_LINE_PATTERN : regex :=
  seq [Lit "conc="; Group 1 (Plus is_digit); Star not_newline;
       Lit "throughput_iter_s="; Group 2 (Plus digit_or_dot)].

(** [samples[conc].append(throughput)] on a [defaultdict(list)]. *)
Definition append_at (samples : gmap Z (list Q)) (conc : Z) (throughput : Q) :
    gmap Z (list Q) :=
  <[conc := default [] (samples !! conc) ++ [throughput]]> samples.

(** [load_samples(path)] *)
Definition load_samples (fs : filesystem) (path : string) : result (gmap Z (list Q)) :=
  foldlM (λ samples log,
            match match_ RUN_LOG_PATTERN (name log) with
            | None => Ok samples
            | Some _ =>
              foldlM (λ samples line,
                        match search SCALE_LINE_PATTERN line with
                        | Some m =>
                          conc ← pyint (group m 1);
                          throughput ← pyfloat (group m 2);
                          Ok (append_at samples conc throughput)
                        | None => Ok samples
                        end)
                     samples (content log)
            end)
         ∅ (sorted_glob fs path "_run.log").

Definition no_samples_line (rt path : string) : line :=
  [FStr "[WARN] No cpu-hash scaling samples for "; FStr rt; FStr " in "; FStr path].

(** The first loop of [main]. *)
Definition collect (fs : filesystem) : io (list (string * gmap Z (list Q))) :=
  collect_runtimes (λ _, load_samples fs) (λ samples, negb (bool_decide (samples = ∅)))
    (λ _ _, mret ()) no_samples_line RUNTIMES.

Section Main.

(** The text summary and the figure. *)
Variable report : list (string * gmap Z (list Q)) → io unit.

(** [main()] *)
Definition main (fs : filesystem) : io unit :=
  data ← collect fs;
  match data with
  | [] => print [FStr "No cpu-hash scaling data found."]
  | _ => report data
  end.

End Main.

(** The line of one runtime and concurrency in the text summary of [main]. *)
Definition summary_line (rt : string) (conc_map : gmap Z (list Q)) (conc : Z) : io unit :=
  vals ← lift (getitem conc_map conc);
  m ← lift (statistics.mean vals);
  mn ← lift (pymin vals);
  mx ← lift (pymax vals);
  print [FStr "- "; FStr rt; FStr " conc="; FInt conc; FStr ": mean=";
         FNum ".3f" (PyFloat m); FStr " min="; FNum ".3f" (PyFloat mn);
         FStr " max="; FNum ".3f" (PyFloat mx); FStr " n="; FInt (Z.of_nat (length vals))].

(** The points of the figure for one runtime: the mean throughput at each
    concurrency, in ascending order of the concurrency. *)
Definition throughput_means (conc_map : gmap Z (list Q)) : result (list (Z * Q)) :=
  mapM (λ c, vals ← getitem conc_map c; m ← statistics.mean vals; Ok (c, m))
       (sorted_keys conc_map).

(** The rest of [main] once some runtime has data: the text summary, the
    points of the figure and the line that names the saved file (the
    drawing itself is matplotlib's). *)
Definition report (data : list (string * gmap Z (list Q))) : io unit :=
  _ ← print [FStr "CPU-hash scaling summary (throughput_iter_s):"];
  _ ← for_each (λ '(rt, conc_map),
                  for_each (summary_line rt conc_map) (sorted_keys conc_map)) data;
  _ ← lift (mapM (λ '(rt, conc_map), throughput_means conc_map) data);
  print [FStr "Saved scaling plot to ";
         FStr "results/processed/cpu_hash_scaling_throughput.png"].

(** The script. *)
Definition script (fs : filesystem) : io unit := main report fs.

End cpu_hash_scaling.

(** ** scripts/analyze_wasm_hello_comparison.py *)

Module wasm_hello_comparison.
Import re.

Definition RUNTIMES : list (string * string) :=
  [("wasmtime", "results/raw/wasm/hello-wasm");
   ("wasmedge", "results/raw/wasmedge/hello-wasm")].

(** The pattern [.* _run\.log $]. *)
Definition RUN_LOG_PATTERN : regex :=
  seq [Star not_newline; Lit "_run.log"; Eos].

(** The pattern [elapsed_ms=( [0-9.]+ )]. *)
Definition ELAPSED_MS_PATTERN : regex :=
  seq [Lit "elapsed_ms="; Group 1 (Plus digit_or_dot)].

(** [load_samples(path)] *)
Definition load_samples (fs : filesystem) (path : string) : result (list Q) :=
  foldlM (λ samples log,
            match match_ RUN_LOG_PATTERN (name log) with
            | None => Ok samples
            | Some _ =>
              foldlM (λ samples line,
                        match search ELAPSED_MS_PATTERN line with
                        | Some m => v ← pyfloat (group m 1); Ok (samples ++ [v])
                        | None => Ok samples
                        end)
                     samples (content log)
            end)
         [] (sorted_glob fs path "_run.log").

Definition no_samples_line (rt path : string) : line :=
  [FStr "[WARN] No hello-wasm samples for "; FStr rt; FStr " in "; FStr path].

(** The first loop of [main]. *)
Definition collect (fs : filesystem) : io (list (string * list Q)) :=
  collect_runtimes (λ _, load_samples fs) nonempty (λ _ _, mret ()) no_samples_line RUNTIMES.

Section Main.

(** The text summary and the two figures. *)
Variable report : list (string * list Q) → io unit.

(** [main()] *)
Definition main (fs : filesystem) : io unit :=
  data ← collect fs;
  match data with
  | [] => print [FStr "No hello-wasm data found."]
  | _ => report data
  end.

End Main.

(** The line of one runtime in the text summary of [main]. *)
Definition summary_line (d : string * list Q) : io unit :=
  let '(rt, samples) := d in
  m ← lift (statistics.mean samples);
  md ← lift (statistics.median samples);
  mn ← lift (pymin samples);
  mx ← lift (pymax samples);
  print [FStr "- "; FStr rt; FStr ": mean="; FNum ".3f" (PyFloat m); FStr " ms, p50=";
         FNum ".3f" (PyFloat md); FStr " ms, min="; FNum ".3f" (PyFloat mn);
         FStr ", max="; FNum ".3f" (PyFloat mx); FStr ", n=";
         FInt (Z.of_nat (length samples))].

(** The rest of [main] once some runtime has data: the text summary, the
    means of the bar chart and the lines that name the saved files (the
    drawing itself is matplotlib's). *)
Definition report (data : list (string * list Q)) : io unit :=
  _ ← print [FStr "hello-wasm summary (elapsed_ms):"];
  _ ← for_each summary_line data;
  _ ← print [FStr "Saved boxplot to ";
             FStr "results/processed/hello_wasm_elapsed_ms_boxplot.png"];
  _ ← lift (mapM (λ d, statistics.mean d.2) data);
  print [FStr "Saved bar chart to ";
         FStr "results/processed/hello_wasm_elapsed_ms_bar.png"].

(** The script. *)
Definition script (fs : filesystem) : io unit := main report fs.

End wasm_hello_comparison.

(** ** scripts/analyze_native_http_hello.py and scripts/analyze_http_hello_all.py
       (parsing one run log) *)

Module http_hello.
Import re.

(** The pattern [( \d{4}-\d{2}-\d{2}T\d{2}-\d{2}-\d{2}Z ) _run\.log $]. *)
Definition RUN_LOG_PATTERN : regex :=
  seq [Group 1 (seq [Rep 4 is_digit; Lit "-"; Rep 2 is_digit; Lit "-"; Rep 2 is_digit;
                     Lit "T"; Rep 2 is_digit; Lit "-"; Rep 2 is_digit; Lit "-";
                     Rep 2 is_digit; Lit "Z"]);
       Lit "_run.log"; Eos].

(** The pattern [cold_start_ms=( \d+ \.? \d* )]. *)
Definition COLD_START_PATTERN : regex :=
  seq [Lit "cold_start_ms=";
       Group 1 (seq [Plus is_digit; Opt (Lit "."); Star is_digit])].

(** The pattern
    [req=( \d+ ) \s+ http_code=( \d{3} ) \s+ latency_ns=( \d+ ) \s+ latency_ms=( \d+ \.? \d* )]. *)
Definition LATENCY_PATTERN : regex :=
  seq [Lit "req="; Group 1 (Plus is_digit); Plus is_space;
       Lit "http_code="; Group 2 (Rep 3 is_digit); Plus is_space;
       Lit "latency_ns="; Group 3 (Plus is_digit); Plus is_space;
       Lit "latency_ms="; Group 4 (seq [Plus is_digit; Opt (Lit "."); Star is_digit])].

Record run_record : Type :=
  Run { run_id : string; cold_start_ms : Q; latencies_ms : list Q }.

(** The loop of [parse_run_log] over the lines of the file: the state is
    [(cold_start_ms, latencies_ms)]. *)
Definition scan_line (st : option Q * list Q) (line : string) : result (option Q * list Q) :=
  let '(cold_start_ms, latencies_ms) := st in
  let line := strip line in
  cold_start_ms ←
    match search COLD_START_PATTERN line with
    | Some m_cs => v ← pyfloat (group m_cs 1); Ok (Some v)
    | None => Ok cold_start_ms
    end;
  match search LATENCY_PATTERN line with
  | Some m_lat =>
    http_code ← pyint (group m_lat 2);
    latency_ms ← pyfloat (group m_lat 4);
    if decide (http_code = 200%Z) then Ok (cold_start_ms, latencies_ms ++ [latency_ms])
    else Ok (cold_start_ms, latencies_ms)
  | None => Ok (cold_start_ms, latencies_ms)
  end.

(** [parse_run_log(path)] of analyze_http_hello_all.py: [None] for a file to
    skip. *)
Definition parse_run_log (log : file) : result (option run_record) :=
  match search RUN_LOG_PATTERN (name log) with
  | None => Ok None
  | Some m =>
    let run_id := group m 1 in
    st ← foldlM scan_line (None, []) (content log);
    match st with
    | (Some cold_start_ms, x :: l) => Ok (Some (Run run_id cold_start_ms (x :: l)))
    | _ => Ok None
    end
  end.

(** [parse_run_log(path)] of analyze_native_http_hello.py: the same, with a
    warning for each reason to skip the file; it also converts the request
    index. *)
Definition scan_line_native (st : option Q * list Q) (line : string) :
    result (option Q * list Q) :=
  let '(cold_start_ms, latencies_ms) := st in
  let line := strip line in
  cold_start_ms ←
    match search COLD_START_PATTERN line with
    | Some m_cs => v ← pyfloat (group m_cs 1); Ok (Some v)
    | None => Ok cold_start_ms
    end;
  match search LATENCY_PATTERN line with
  | Some m_lat =>
    req_idx ← pyint (group m_lat 1);
    http_code ← pyint (group m_lat 2);
    latency_ms ← pyfloat (group m_lat 4);
    if decide (http_code = 200%Z) then Ok (cold_start_ms, latencies_ms ++ [latency_ms])
    else Ok (cold_start_ms, latencies_ms)
  | None => Ok (cold_start_ms, latencies_ms)
  end.

Definition parse_run_log_native (path : string) (log : file) : io (option run_record) :=
  match search RUN_LOG_PATTERN (name log) with
  | None => mret None
  | Some m =>
    let run_id := group m 1 in
    st ← lift (foldlM scan_line_native (None, []) (content log));
    match st with
    | (None, _) =>
      _ ← print [FStr "[WARN] No cold_start_ms found in "; FStr path; FStr "/"; FStr (name log)];
      mret None
    | (Some _, []) =>
      _ ← print [FStr "[WARN] No latency lines found in "; FStr path; FStr "/"; FStr (name log)];
      mret None
    | (Some cold_start_ms, x :: l) => mret (Some (Run run_id cold_start_ms (x :: l)))
    end
  end.

End http_hello.

(** ** scripts/analyze_http_hello_all.py *)

Module http_hello_all.
Import http_hello.

Definition RUNTIMES : list (string * string) :=
  [("native", "results/raw/native/http-hello");
   ("docker", "results/raw/docker/http-hello");
   ("wasmcloud_full", "results/raw/wasmcloud/http-hello");
   ("wasmcloud_comp", "results/raw/wasmcloud-component/http-hello")].

(** [load_runtime(runtime, dir_path)] *)
Definition load_runtime (fs : filesystem) (runtime dir_path : string) :
    result (list run_record) :=
  foldlM (λ runs p,
            parsed ← parse_run_log p;
            match parsed with
            | Some r => Ok (runs ++ [r])
            | None => Ok runs
            end)
         [] (sorted_glob fs dir_path "_run.log").

Definition no_runs_line (rt path : string) : line :=
  [FStr "[WARN] No runs found for runtime '"; FStr rt; FStr "' in "; FStr path].

(** The first loop of [main]. *)
Definition collect (fs : filesystem) : io (list (string * list run_record)) :=
  collect_runtimes (load_runtime fs) nonempty (λ _ _, mret ()) no_runs_line RUNTIMES.

Section Main.

(** The text summary and the two figures. *)
Variable report : list (string * list run_record) → io unit.

(** [main()] *)
Definition main (fs : filesystem) : io unit :=
  data ← collect fs;
  match data with
  | [] => print [FStr "No data found for any runtime."]
  | _ => report data
  end.

End Main.

(** [agg_latencies(latencies)] *)
Definition agg_latencies (latencies : list Q) : result (gmap string pyval) :=
  m ← statistics.mean latencies;
  md ← statistics.median latencies;
  mn ← pymin latencies;
  mx ← pymax latencies;
  Ok (<["mean" := PyFloat m]> (<["median" := PyFloat md]>
      (<["min" := PyFloat mn]> (<["max" := PyFloat mx]> ∅)))).

(** The line of one runtime in the text summary of [main]. *)
Definition summary_line (d : string * list run_record) : io unit :=
  let '(rt, runs) := d in
  let cs := map cold_start_ms runs in
  let all_lat := concat (map latencies_ms runs) in
  lat_stats ← lift (agg_latencies all_lat);
  cs_mean ← lift (statistics.mean cs);
  cs_min ← lift (pymin cs);
  cs_max ← lift (pymax cs);
  lat_mean ← lift (getitem lat_stats "mean");
  lat_median ← lift (getitem lat_stats "median");
  lat_min ← lift (getitem lat_stats "min");
  lat_max ← lift (getitem lat_stats "max");
  print [FStr "- "; FStr rt; FStr ": cold_start_ms mean="; FNum ".3f" (PyFloat cs_mean);
         FStr ", min="; FNum ".3f" (PyFloat cs_min); FStr ", max="; FNum ".3f" (PyFloat cs_max);
         FStr "; latency_ms mean="; FNum ".3f" lat_mean; FStr ", p50="; FNum ".3f" lat_median;
         FStr ", min="; FNum ".3f" lat_min; FStr ", max="; FNum ".3f" lat_max].

(** The bars of the cold-start chart: mean, minimum and maximum cold start
    of one runtime. *)
Definition cold_start_bar (d : string * list run_record) : result (string * Q * Q * Q) :=
  let '(rt, runs) := d in
  let cs := map cold_start_ms runs in
  m ← statistics.mean cs;
  mn ← pymin cs;
  mx ← pymax cs;
  Ok (rt, m, mn, mx).

(** The rest of [main] once some runtime has data: the text summary, the
    series of the two figures and the lines that name the saved files (the
    drawing itself is matplotlib's). *)
Definition report (data : list (string * list run_record)) : io unit :=
  _ ← print [FStr "Summary per runtime:"];
  _ ← for_each summary_line data;
  _ ← lift (mapM cold_start_bar data);
  _ ← print [FStr "Saved cold start comparison to ";
             FStr "results/processed/http_hello_cold_start_mean_by_runtime.png"];
  print [FStr "Saved latency comparison to ";
         FStr "results/processed/http_hello_latency_boxplot_by_runtime.png"].

(** The script. *)
Definition script (fs : filesystem) : io unit := main report fs.

End http_hello_all.

(** ** scripts/analyze_native_http_hello.py *)

Module native_http_hello.
Import http_hello.

Definition RAW_DIR : string := "results/raw/native/http-hello".

Section Main.

(** The text summary and the three figures. *)
Variable report : list run_record → io unit.

(** [main()] *)
Definition main (fs : filesystem) : io unit :=
  match sorted_glob fs RAW_DIR "_run.log" with
  | [] => print [FStr "No run logs found in "; FStr RAW_DIR]
  | run_logs =>
    runs ← foldlIO (λ runs p,
                      parsed ← parse_run_log_native RAW_DIR p;
                      match parsed with
                      | Some r => mret (runs ++ [r])
                      | None => mret runs
                      end)
                   [] run_logs;
    match runs with
    | [] => print [FStr "No valid runs parsed."]
    | _ => report runs
    end
  end.

End Main.

(** The line of run number [i] in the text summary of [main]. *)
Definition run_line (i : nat) (r : run_record) : io unit :=
  let lat := latencies_ms r in
  m ← lift (statistics.mean lat);
  md ← lift (statistics.median lat);
  mn ← lift (pymin lat);
  mx ← lift (pymax lat);
  print [FStr "Run "; FNum "02d" (PyInt (Z.of_nat i)); FStr " ("; FStr (run_id r);
         FStr "): cold_start_ms="; FNum ".3f" (PyFloat (cold_start_ms r));
         FStr ", latency_ms mean="; FNum ".3f" (PyFloat m); FStr ", p50=";
         FNum ".3f" (PyFloat md); FStr ", min="; FNum ".3f" (PyFloat mn);
         FStr ", max="; FNum ".3f" (PyFloat mx)].

(** [for i, r in enumerate(runs, start=i): ...] *)
Fixpoint run_lines (i : nat) (runs : list run_record) : io unit :=
  match runs with
  | [] => mret ()
  | r :: runs' => _ ← run_line i r; run_lines (S i) runs'
  end.

(** The rest of [main] once some run was parsed: the text summary and the
    lines that name the three saved figures (the drawing itself is
    matplotlib's). *)
Definition report (runs : list run_record) : io unit :=
  _ ← print [FStr "Parsed runs:"];
  _ ← run_lines 1 runs;
  _ ← print [FStr "Saved cold start plot to ";
             FStr "results/processed/native_http_hello_cold_start_ms.png"];
  _ ← print [FStr "Saved latency boxplot to ";
             FStr "results/processed/native_http_hello_latency_boxplot_ms.png"];
  print [FStr "Saved latency scatter to ";
         FStr "results/processed/native_http_hello_latency_scatter_ms.png"].

(** The script. *)
Definition script (fs : filesystem) : io unit := main report fs.

End native_http_hello.

(** ** scripts/analyze_http_hello_stateful.py *)

Module http_hello_stateful.
Import re.

Definition RUNTIMES : list (string * string) :=
  [("native", "results/raw/native/http-hello");
   ("docker", "results/raw/docker/http-hello");
   ("wasmtime", "results/raw/wasmtime/http-hello")].

Definition not_space (c : ascii) : bool := negb (is_space c).

(** The pattern [req=\d+ (?: \s+ path=( [^\s]+ ) )? \s+ .*? latency_ms=( [0-9.]+ )]. *)
Definition LAT_PATTERN : regex :=
  seq [Lit "req="; Plus is_digit;
       Opt (seq [Plus is_space; Lit "path="; Group 1 (Plus not_space)]);
       Plus is_space; StarLazy not_newline; Lit "latency_ms=";
       Group 2 (Plus digit_or_dot)].

(** [by_path[path].append(latency_ms)] on a [defaultdict(list)]. *)
Definition append_at (by_path : gmap string (list Q)) (path : string) (latency_ms : Q) :
    gmap string (list Q) :=
  <[path := default [] (by_path !! path) ++ [latency_ms]]> by_path.

(** [load_samples_by_path(log_dir)] *)
Definition load_samples_by_path (fs : filesystem) (log_dir : string) :
    result (gmap string (list Q)) :=
  foldlM (λ by_path log,
            foldlM (λ by_path line,
                      match search LAT_PATTERN line with
                      | Some m =>
                        let path := if String.eqb (group m 1) "" then "/" else group m 1 in
                        latency_ms ← pyfloat (group m 2);
                        Ok (append_at by_path path latency_ms)
                      | None => Ok by_path
                      end)
                   by_path (content log))
         ∅ (sorted_glob fs log_dir "_run.log").

Definition no_samples_line (rt path : string) : line :=
  [FStr "[WARN] No http-hello samples for "; FStr rt; FStr " in "; FStr path].

(** The first loop of [main]. *)
Definition collect (fs : filesystem) : io (list (string * gmap string (list Q))) :=
  collect_runtimes (λ _, load_samples_by_path fs)
    (λ path_data, negb (bool_decide (path_data = ∅)))
    (λ _ _, mret ()) no_samples_line RUNTIMES.

Section Main.

(** The text summary and the two figures. *)
Variable report : list (string * gmap string (list Q)) → io unit.

(** [main()] *)
Definition main (fs : filesystem) : io unit :=
  data ← collect fs;
  match data with
  | [] =>
    _ ← print [FStr "ERROR: No http-hello data found."];
    _ ← print [FStr nl; FStr "Make sure to run benchmarks for both endpoints:"];
    _ ← print [FStr "  ./scripts/measure_native_http_hello.sh  # stateless"];
    _ ← print [FStr "  PATH_SUFFIX=/state ./scripts/measure_native_http_hello.sh  # stateful"];
    sys_exit 1
  | _ =>
    let has_stateful :=
      existsb (λ d, bool_decide (is_Some (d.2 !! "/state"))) data in
    _ ← (if has_stateful then mret ()
         else
           _ ← print [FStr "[WARN] No /state endpoint data found in any runtime."];
           _ ← print [FStr "Run benchmarks with PATH_SUFFIX=/state to collect stateful data:"];
           _ ← print [FStr "  PATH_SUFFIX=/state ./scripts/measure_native_http_hello.sh"];
           _ ← print [FStr "  PATH_SUFFIX=/state ./scripts/measure_docker_http_hello.sh"];
           print [FStr "  PATH_SUFFIX=/state ./scripts/measure_wasmtime_http_hello.sh"]);
    _ ← report data;
    _ ← print [FStr nl; rule "=" 80];
    _ ← print [FStr "Analysis complete! Check results/processed/ for plots."];
    print [rule "=" 80]
  end.

End Main.

(** [calculate_overhead_pct(stateless_latency, stateful_latency)] *)
Definition calculate_overhead_pct (stateless_latency stateful_latency : Q) : result pyval :=
  if decide (stateless_latency == 0) then Ok (PyInt 0)
  else
    r ← truediv (stateful_latency - stateless_latency) stateless_latency;
    Ok (PyFloat (r * 100)).

(** [o > 0] on an overhead. *)
Definition positive (o : pyval) : bool :=
  match o with
  | PyInt z => bool_decide (0 < z)%Z
  | PyFloat q => bool_decide (0 < q)
  | PyRoot q => bool_decide (0 < q)
  end.

Section Report.

(** The text of [list(path_data.keys())]: the paths in the order in which
    the logs gave them. *)
Variable paths_found : gmap string (list Q) → string.

(** The body of the loop of [print_summary]: the block of one runtime. *)
Definition print_runtime (d : string * gmap string (list Q)) : io unit :=
  let '(rt, path_data) := d in
  _ ← print [FStr nl; FStr (upper rt); FStr ":"];
  _ ← print [rule "-" 80];
  match path_data !! "/", path_data !! "/state" with
  | Some stateless, Some stateful =>
    sl_mean ← lift (statistics.mean stateless);
    sl_median ← lift (statistics.median stateless);
    sl_stdev ← lift (if decide (1 < length stateless)%nat then statistics.stdev stateless
                     else Ok (PyInt 0));
    st_mean ← lift (statistics.mean stateful);
    st_median ← lift (statistics.median stateful);
    st_stdev ← lift (if decide (1 < length stateful)%nat then statistics.stdev stateful
                     else Ok (PyInt 0));
    overhead ← lift (calculate_overhead_pct sl_mean st_mean);
    _ ← print [FStr "  Stateless (/):"];
    _ ← print [FStr "    Mean:   "; FNum "7.3f" (PyFloat sl_mean); FStr " ± ";
               FNum "6.3f" sl_stdev; FStr " ms"];
    _ ← print [FStr "    Median: "; FNum "7.3f" (PyFloat sl_median); FStr " ms"];
    _ ← print [FStr "    Samples: "; FInt (Z.of_nat (length stateless))];
    _ ← print [FStr "  Stateful (/state):"];
    _ ← print [FStr "    Mean:   "; FNum "7.3f" (PyFloat st_mean); FStr " ± ";
               FNum "6.3f" st_stdev; FStr " ms"];
    _ ← print [FStr "    Median: "; FNum "7.3f" (PyFloat st_median); FStr " ms"];
    _ ← print [FStr "    Samples: "; FInt (Z.of_nat (length stateful))];
    print [FStr "  State Management Overhead: "; FNum "+.1f" overhead; FStr "%"]
  | _, state =>
    _ ← print [FStr "  Paths found: "; FStr (paths_found path_data)];
    match state with
    | None =>
      print [FStr "  [WARN] No /state endpoint data found. Run with PATH_SUFFIX=/state"]
    | Some _ => mret ()
    end
  end.

(** [print_summary(data)] *)
Definition print_summary (data : list (string * gmap string (list Q))) : io unit :=
  _ ← print [FStr nl; rule "=" 80];
  _ ← print [FStr "STATEFUL VS STATELESS ENDPOINT COMPARISON"];
  _ ← print [rule "=" 80];
  for_each print_runtime data.

(** What [plot_comparison_boxplot(data, out_path)] draws, runtime by
    runtime in the order of their names: the samples and the label of each
    endpoint that has data. *)
Definition comparison_boxes (data : list (string * gmap string (list Q))) :
    result (list (string * list Q)) :=
  foldlM (λ boxes rt,
            path_data ← item data rt;
            let boxes :=
              match path_data !! "/" with
              | Some samples => boxes ++ [(rt +:+ nl +:+ "(stateless)", samples)]
              | None => boxes
              end in
            Ok (match path_data !! "/state" with
                | Some samples => boxes ++ [(rt +:+ nl +:+ "(stateful)", samples)]
                | None => boxes
                end))
         [] (sorted_names data).

Definition plot_comparison_boxplot (data : list (string * gmap string (list Q))) : io unit :=
  _ ← lift (comparison_boxes data);
  print [FStr nl; FStr "Saved comparison boxplot to ";
         FStr "results/processed/http_hello_stateful_comparison_boxplot.png"].

(** The bars of [plot_overhead_bar_chart]: runtime, overhead and colour, for
    the runtimes that have both endpoints, in the order of their names. *)
Definition overhead_bars (data : list (string * gmap string (list Q))) :
    result (list (string * pyval * string)) :=
  foldlM (λ bars rt,
            path_data ← item data rt;
            match path_data !! "/", path_data !! "/state" with
            | Some stateless, Some stateful =>
              sl_mean ← statistics.mean stateless;
              st_mean ← statistics.mean stateful;
              overhead ← calculate_overhead_pct sl_mean st_mean;
              Ok (bars ++ [(rt, overhead, if positive overhead then "red" else "green")])
            | _, _ => Ok bars
            end)
         [] (sorted_names data).

(** [plot_overhead_bar_chart(data, out_path)]: no figure, and a warning,
    when no runtime has both endpoints. *)
Definition plot_overhead_bar_chart (data : list (string * gmap string (list Q))) : io unit :=
  bars ← lift (overhead_bars data);
  match bars with
  | [] =>
    print [FStr "[WARN] No runtime has both stateless and stateful data for overhead chart"]
  | _ =>
    print [FStr "Saved overhead bar chart to ";
           FStr "results/processed/http_hello_state_overhead.png"]
  end.

(** What [main] does with the data: the summary and the two figures. *)
Definition report (data : list (string * gmap string (list Q))) : io unit :=
  _ ← print_summary data;
  _ ← plot_comparison_boxplot data;
  plot_overhead_bar_chart data.

(** The script. *)
Definition script (fs : filesystem) : io unit := main report fs.

End Report.

End http_hello_stateful.

(** ** Concrete data used in the examples *)

Module fixtures.

Definition cold_data : gmap string (list cold_start.entry) :=
  <["docker_full_cold" := [cold_start.Entry 1 100 20 120; cold_start.Entry 2 90 30 120]]>
  (<["wasmtime_full_cold" := [cold_start.Entry 1 10 2 12]]> ∅).

Definition scaling_data : gmap string (gmap Z http_hello_scaling.series) :=
  <["native" := <[1%Z := http_hello_scaling.Series [100; 110] [2048; 2048]%Z [2048; 2048]%Z]>
               (<[4%Z := http_hello_scaling.Series [300; 330] [8192; 8192]%Z [2048; 2048]%Z]> ∅)]> ∅.

(** A run whose single-instance throughput was measured as zero. *)
Definition stalled_data : gmap string (gmap Z http_hello_scaling.series) :=
  <["native" := <[1%Z := http_hello_scaling.Series [0] [2048]%Z [2048]%Z]> ∅]> ∅.

(** A stalled baseline with a working higher level. *)
Definition stalled_baseline_data : gmap string (gmap Z http_hello_scaling.series) :=
  <["docker" := <[1%Z := http_hello_scaling.Series [0; 0] [2048; 2048]%Z [2048; 2048]%Z]>
               (<[2%Z := http_hello_scaling.Series [50] [4096]%Z [2048]%Z]> ∅)]> ∅.

Definition run_log : file :=
  File "2025-01-02T03-04-05Z_run.log"
    ["cold_start_ms=12.5";
     "req=1 http_code=200 latency_ns=1500000 latency_ms=1.5";
     "req=2 http_code=503 latency_ns=9000000 latency_ms=9.0";
     "warming up";
     "req=3 http_code=200 latency_ns=2000000 latency_ms=2"].

Definition failed_run_log : file :=
  File "2025-01-02T03-04-06Z_run.log"
    ["cold_start_ms=12.5";
     "req=1 http_code=500 latency_ns=1500000 latency_ms=1.5"].

Definition cpu_hash_fs : filesystem :=
  <["results/raw/native/cpu-hash" :=
      [File "b_run.log" ["outer_ms=30.0"; "done"];
       File "a_run.log" ["run=1 outer_ms=10.0"; "noise"; "run=2 outer_ms=20.0"];
       File "notes.txt" ["outer_ms=99"]]]> ∅.

(** A single measured run of one scenario. *)
Definition single_run_data : gmap string (list cold_start.entry) :=
  <["docker_runtime_cold" := [cold_start.Entry 1 0 250 250]]> ∅.

(** A directory whose log ends a sentence with a full stop after the number. *)
Definition sentence_fs : filesystem :=
  <["results/raw/native/cpu-hash" :=
      [File "a_run.log" ["run=1 outer_ms=10.0"; "finished, outer_ms=12.5."]]]> ∅.

(** A directory with one stateless and one stateful request. *)
Definition stateful_fs : filesystem :=
  <["results/raw/native/http-hello" :=
      [File "a_run.log" ["req=1 http_code=200 latency_ms=1.5";
                         "req=2 path=/state http_code=200 latency_ms=2.5"]]]> ∅.

(** A directory of the cpu-hash scaling benchmark with two concurrencies. *)
Definition cpu_scaling_fs : filesystem :=
  <["results/raw/native/cpu-hash-scaling" :=
      [File "a_run.log" ["conc=1 elapsed=5 throughput_iter_s=100.0";
                         "conc=2 elapsed=5 throughput_iter_s=190.0";
                         "conc=1 elapsed=5 throughput_iter_s=110.0"]]]> ∅.

(** A directory of the hello-wasm benchmark. *)
Definition wasm_hello_fs : filesystem :=
  <["results/raw/wasm/hello-wasm" :=
      [File "a_run.log" ["elapsed_ms=3.0"; "elapsed_ms=5.0"]]]> ∅.

End fixtures.

(** ** The specification's own definitions, for comparison *)

Module spec.

(** The sample variance with the [n - 1] denominator. *)
Definition sample_variance (xs : list Q) : Q :=
  let xbar := fsum xs / flen xs in
  fsum (map (λ x, (x - xbar) ^ 2) xs) / (flen xs - 1).

(** The same quantity from the sum and the sum of squares alone. *)
Definition sample_variance_sums (xs : list Q) : Q :=
  (fsum (map (λ x, x ^ 2) xs) - fsum xs ^ 2 / flen xs) / (flen xs - 1).

(** The text the group [g] of [pattern] captures on each line that matches,
    in line order; a line without a match gives nothing. *)
Definition captured (pattern : re.regex) (g : nat) (lines : list string) : list string :=
  omap (λ line, (λ m, re.group m g) <$> re.search pattern line) lines.

(** The same for two groups. *)
Definition captured2 (pattern : re.regex) (g1 g2 : nat) (lines : list string) :
    list (string * string) :=
  omap (λ line, (λ m, (re.group m g1, re.group m g2)) <$> re.search pattern line) lines.

(** The run logs of a directory: the files named [*_run.log] that the name
    pattern accepts, in the order of their names. *)
Definition run_logs (name_pattern : re.regex) (fs : filesystem) (path : string) : list file :=
  filter (λ log, is_Some (re.match_ name_pattern (name log)))
         (sorted_glob fs path "_run.log").

(** The conversion of a captured (concurrency, throughput) pair. *)
Definition convert_pair (p : string * string) : result (Z * Q) :=
  conc ← pyint p.1; throughput ← pyfloat p.2; Ok (conc, throughput).

(** The throughputs recorded for the concurrency [c], in order. *)
Definition samples_at (c : Z) (pairs : list (Z * Q)) : list Q :=
  (filter (λ p, p.1 = c) pairs).*2.

(** The cold start a line reports, if it reports one. *)
Definition cold_start_line (line : string) : option Q :=
  m ← re.search http_hello.COLD_START_PATTERN (strip line);
  match pyfloat (re.group m 1) with
  | Ok v => Some v
  | Raise _ => None
  end.

(** The status code and the latency of a per-request latency line. *)
Definition latency_line (line : string) : option (Z * Q) :=
  m ← re.search http_hello.LATENCY_PATTERN (strip line);
  match pyint (re.group m 2), pyfloat (re.group m 4) with
  | Ok http_code, Ok latency_ms => Some (http_code, latency_ms)
  | _, _ => None
  end.

(** The latencies of the latency lines whose status code is 200, in line
    order. *)
Definition ok_latencies (lines : list string) : list Q :=
  omap (λ line, '(http_code, latency_ms) ← latency_line line;
                if decide (http_code = 200%Z) then Some latency_ms else None) lines.

(** The cold start of the last line that reports one. *)
Definition last_cold_start (lines : list string) : option Q :=
  last (omap cold_start_line lines).

(** The run record of a log file, if it has one. *)
Definition run_record_of (log : file) : option http_hello.run_record :=
  match re.search http_hello.RUN_LOG_PATTERN (name log),
        last_cold_start (content log), ok_latencies (content log) with
  | Some m, Some cold_start_ms, x :: l =>
    Some (http_hello.Run (re.group m 1) cold_start_ms (x :: l))
  | _, _, _ => None
  end.

(** The lines the cold-start summary prints for one scenario. *)
Definition scenario_lines (label : string) (mean median stdev min max : pyval) : list line :=
  [[FStr nl; FStr label; FStr ":"];
   [FStr "  Total time to first HTTP 200:"];
   [FStr "    Mean:   "; FNum ">10.2f" mean; FStr " ms"];
   [FStr "    Median: "; FNum ">10.2f" median; FStr " ms"];
   [FStr "    Stdev:  "; FNum ">10.2f" stdev; FStr " ms"];
   [FStr "    Min:    "; FNum ">10.2f" min; FStr " ms"];
   [FStr "    Max:    "; FNum ">10.2f" max; FStr " ms"]].

Definition breakdown_lines (build start : Q) : list line :=
  [[FStr "  Breakdown:"];
   [FStr "    Build:  "; FNum ">10.2f" (PyFloat build); FStr " ms (mean)"];
   [FStr "    Start:  "; FNum ">10.2f" (PyFloat start); FStr " ms (mean)"]].

(** A script that loops over its runtimes: when no load raises, the loop
    keeps the runtimes that have data, in order, and prints the warning of
    every runtime that has none; the script then ends with
    [status_without_data] when nothing was kept, and otherwise with the exit
    status of its reporting stage on the data kept. *)
Definition loop_script {S} (RUNTIMES : list (string * string))
    (load : string → string → result S) (truthy : S → bool)
    (warn : string → string → line) (collect : io (list (string * S)))
    (main : (list (string * S) → io unit) → io unit) (status_without_data : Z) : Prop :=
  (∀ rt path, (rt, path) ∈ RUNTIMES → is_Ok (load rt path)) →
  ∃ o data,
    collect = IO o (Ok data) ∧
    data = flat_map (λ '(rt, path),
                       match load rt path with
                       | Ok s => if truthy s then [(rt, s)] else []
                       | Raise _ => []
                       end) RUNTIMES ∧
    (∀ rt path s, (rt, path) ∈ RUNTIMES → load rt path = Ok s → truthy s = false →
                  warn rt path ∈ o) ∧
    ∀ report,
      exit_status (main report) =
      match data with
      | [] => status_without_data
      | _ => exit_status (report data)
      end.

(** Scaling efficiency at concurrency [c]: the speedup over the
    concurrency-1 mean throughput, over [c], as a percentage. *)
Definition scaling_efficiency (mean_c mean_1 : Q) (c : Z) : Q :=
  mean_c / mean_1 / inject_Z c * 100.

End spec.

(** ** Facts about the runtime and the statistics model *)

Section StatisticsFacts.

Lemma fsum_app (l k : list Q) : fsum (l ++ k) == fsum l + fsum k.
Proof.
  induction l as [|x l IH]; simpl.
  - ring.
  - rewrite IH. ring.
Qed.

(** The one-pass formula: the sum of squared deviations from [c] from the
    sum and the sum of squares. *)
Lemma sum_sq_dev_expand (c : Q) (data : list Q) :
  statistics.sum_sq_dev c data ==
  fsum (map (λ x, x * x) data) - 2 * c * fsum data + flen data * (c * c).
Proof.
  unfold statistics.sum_sq_dev, flen.
  induction data as [|x l IH].
  - simpl. ring.
  - cbn [map fsum foldr length]. fold (fsum (map (λ x, (x - c) * (x - c)) l)).
    fold (fsum (map (λ x, x * x) l)). fold (fsum l). rewrite IH.
    rewrite Nat2Z.inj_succ, <- Z.add_1_r, inject_Z_plus. simpl (inject_Z 1).
    ring.
Qed.

End StatisticsFacts.

Section SortedFacts.

#[local] Instance Qle_total : Total Qle.
Proof. intros x y. destruct (Qlt_le_dec x y); [left|right]; auto using Qlt_le_weak. Qed.

Lemma sorted_Permutation (l : list Q) : sorted l ≡ₚ l.
Proof. apply merge_sort_Permutation. Qed.

Lemma sorted_length (l : list Q) : length (sorted l) = length l.
Proof. apply Permutation_length, sorted_Permutation. Qed.

Lemma sorted_ascending (l : list Q) : Sorted Qle (sorted l).
Proof. apply (Sorted_merge_sort Qle). Qed.

End SortedFacts.

Section StatisticsTotal.

Lemma mean_nonempty (x : Q) (l : list Q) :
  statistics.mean (x :: l) = Ok (fsum (x :: l) / flen (x :: l)).
Proof. reflexivity. Qed.

Lemma median_nonempty (x : Q) (l : list Q) : is_Ok (statistics.median (x :: l)).
Proof.
  unfold statistics.median. rewrite sorted_length. cbn [length].
  destruct (decide _); eexists; reflexivity.
Qed.

Lemma flen_cons {A} (x : A) (l : list A) : flen (x :: l) == flen l + 1.
Proof.
  unfold flen. cbn [length]. rewrite Nat2Z.inj_succ, <- Z.add_1_r, inject_Z_plus.
  reflexivity.
Qed.

Lemma flen_nonneg {A} (l : list A) : 0 <= flen l.
Proof.
  unfold flen. change 0 with (inject_Z 0). rewrite <- Zle_Qle. lia.
Qed.

Lemma fsum_map_ext (f g : Q → Q) (l : list Q) :
  (∀ x, f x == g x) → fsum (map f l) == fsum (map g l).
Proof.
  intros Hfg. induction l as [|x l IH]; [reflexivity|].
  cbn [map fsum foldr]. fold (fsum (map f l)). fold (fsum (map g l)).
  rewrite IH, Hfg. reflexivity.
Qed.

Lemma flen_nonzero {A} (l : list A) : l ≠ [] → ¬ flen l == 0.
Proof.
  destruct l as [|x l]; [done|]. intros _. rewrite flen_cons.
  pose proof (flen_nonneg l). lra.
Qed.

(** The textbook formula and the sums formula agree on non-empty data. *)
Lemma sample_variance_sums_eq (xs : list Q) :
  xs ≠ [] → spec.sample_variance xs == spec.sample_variance_sums xs.
Proof.
  intros Hne. unfold spec.sample_variance, spec.sample_variance_sums.
  pose proof (flen_nonzero xs Hne) as Hn.
  cbv zeta. set (c := fsum xs / flen xs).
  assert (E : fsum (map (λ x, (x - c) ^ 2) xs) ==
              fsum (map (λ x, x ^ 2) xs) - fsum xs ^ 2 / flen xs).
  { rewrite (fsum_map_ext _ (λ x, (x - c) * (x - c))) by (intros; simpl; ring).
    fold (statistics.sum_sq_dev c xs). rewrite sum_sq_dev_expand.
    rewrite (fsum_map_ext (λ x, x ^ 2) (λ x, x * x)) by (intros; simpl; ring).
    unfold c. simpl. field. exact Hn. }
  rewrite E. reflexivity.
Qed.

(** The library's variance is the specification's sample variance. *)
Lemma variance_sample_variance (x y : Q) (l : list Q) :
  ∃ v, statistics.variance (x :: y :: l) = Ok v ∧ v == spec.sample_variance (x :: y :: l).
Proof.
  unfold statistics.variance. destruct (decide _) as [Hlt|_].
  { cbn [length] in Hlt. lia. }
  eexists. split; [reflexivity|].
  unfold spec.sample_variance, statistics.sum_sq_dev. cbv zeta.
  rewrite (fsum_map_ext _ (λ z, (z - fsum (x :: y :: l) / flen (x :: y :: l)) ^ 2))
    by (intros; simpl; ring).
  reflexivity.
Qed.

End StatisticsTotal.

(** ** Standard deviation reported by the aggregator *)

Section StdevReported.
Import cold_start generate_summary.

Lemma stdev_two_or_more (x y : Q) (l : list Q) :
  ∃ v, statistics.stdev (x :: y :: l) = Ok (PyRoot v) ∧
       v == spec.sample_variance (x :: y :: l).
Proof.
  destruct (variance_sample_variance x y l) as (v & Hv & E).
  exists v. unfold statistics.stdev. rewrite Hv. done.
Qed.

(** [compute_stats] never raises. *)
Lemma compute_stats_total (values : list Q) : is_Ok (compute_stats values).
Proof.
  destruct values as [|x l]; [by eexists|].
  unfold compute_stats. rewrite mean_nonempty.
  destruct (median_nonempty x l) as [md ->]. cbn [mbind result_bind].
  destruct (decide _) as [Hlen|Hlen].
  - destruct l as [|y l]; [cbn [length] in Hlen; lia|].
    destruct (stdev_two_or_more x y l) as (v & -> & _). by eexists.
  - by eexists.
Qed.

(** C1, as amended.  With two samples or more the standard deviation that
    [compute_stats] stores and that the markdown table row prints is the
    square root of the sample variance with the n−1 denominator (which is
    also what the sums formula gives); with exactly one sample it is the
    integer 0; with no sample [compute_stats] returns the empty dictionary,
    which has no standard deviation, and the table prints no row. *)
Theorem stdev_reported (values : list Q) :
  match values with
  | [] =>
    compute_stats values = Ok ∅ ∧
    ∀ rt unit, table_row rt values unit = Ok None
  | [_] =>
    (∃ d, compute_stats values = Ok d ∧ d !! "stdev" = Some (PyInt 0)) ∧
    (∀ rt unit, ∃ m md mn mx,
        table_row rt values unit = Ok (Some (row_line rt unit m md (PyInt 0) mn mx 1)))
  | _ =>
    ∃ v, v == spec.sample_variance values ∧
         v == spec.sample_variance_sums values ∧
         (∃ d, compute_stats values = Ok d ∧ d !! "stdev" = Some (PyRoot v)) ∧
         (∀ rt unit, ∃ m md mn mx,
             table_row rt values unit =
             Ok (Some (row_line rt unit m md (PyRoot v) mn mx (length values))))
  end.
Proof.
  destruct values as [|x [|y l]].
  - done.
  - split.
    + eexists. split; [reflexivity|]. done.
    + intros rt unit. by do 4 eexists.
  - destruct (stdev_two_or_more x y l) as (v & Hsd & E).
    destruct (median_nonempty x (y :: l)) as [md Hmd].
    exists v. split; [exact E|]. split.
    { rewrite E. by apply sample_variance_sums_eq. }
    split.
    + unfold compute_stats. rewrite mean_nonempty, Hmd. cbn [mbind result_bind].
      destruct (decide _) as [_|Hlen]; [|cbn [length] in Hlen; lia].
      rewrite Hsd. cbn [mbind result_bind pymin pymax].
      eexists. split; [reflexivity|].
      rewrite lookup_insert_ne by done. rewrite lookup_insert_ne by done.
      by rewrite lookup_insert_eq.
    + intros rt unit. unfold table_row. rewrite mean_nonempty, Hmd.
      cbn [mbind result_bind].
      destruct (decide _) as [_|Hlen]; [|cbn [length] in Hlen; lia].
      rewrite Hsd. cbn [mbind result_bind pymin pymax].
      by do 4 eexists.
Qed.

(** With no sample [compute_stats] reports no standard deviation at all:
    the claim that it is then exactly 0 fails. *)
Lemma compute_stats_empty_no_stdev :
  compute_stats [] = Ok ∅ ∧ (∅ : gmap string pyval) !! "stdev" = None.
Proof. done. Qed.

(** The end-to-end scenario of the specification: samples 10, 20, 30 give
    the variance 100, that is the standard deviation 10. *)
Example compute_stats_10_20_30 :
  ∃ d v, compute_stats [10; 20; 30] = Ok d ∧
    d !! "stdev" = Some (PyRoot v) ∧ v == 10 * 10 ∧
    d !! "count" = Some (PyInt 3) ∧ d !! "min" = Some (PyFloat 10) ∧
    d !! "max" = Some (PyFloat 30) ∧ d !! "median" = Some (PyFloat 20).
Proof. do 2 eexists. repeat split. Qed.

End StdevReported.

(** ** Percentiles *)

Section Percentile.
Import generate_summary.

Lemma subscript_nonneg {A} (l : list A) (i : Z) (x : A) :
  (0 ≤ i)%Z → l !! Z.to_nat i = Some x → subscript l i = Ok x.
Proof.
  intros Hi Hx. unfold subscript.
  destruct (decide (i < 0)%Z); [lia|].
  destruct (decide (i < 0)%Z); [lia|]. by rewrite Hx.
Qed.

(** C3.  For a percentile [p] (a non-negative integer) and a non-empty list
    of [n] samples, [calculate_percentile] returns the element of the
    ascending-sorted list at index min(floor(n·p/100), n−1). *)
Theorem calculate_percentile_index (samples : list Q) (p : Z) :
  samples ≠ [] → (0 ≤ p)%Z →
  let n := Z.of_nat (length samples) in
  Sorted Qle (sorted samples) ∧ sorted samples ≡ₚ samples ∧
  ∃ x, calculate_percentile samples p = Ok x ∧
       sorted samples !! Z.to_nat (Z.min (n * p / 100) (n - 1)) = Some x.
Proof.
  intros Hne Hp n. split; [apply sorted_ascending|].
  split; [apply sorted_Permutation|].
  assert (Hn : (1 ≤ n)%Z).
  { unfold n. destruct samples; [done|]. cbn [length]. lia. }
  set (i := Z.min (n * p / 100) (n - 1)).
  assert (Hi : (0 ≤ i < n)%Z).
  { unfold i. split; [|lia]. apply Z.min_glb; [|lia].
    apply Z.div_pos; lia. }
  destruct (lookup_lt_is_Some_2 (sorted samples) (Z.to_nat i)) as [x Hx].
  { rewrite sorted_length. unfold n in Hi. lia. }
  exists x. split; [|exact Hx].
  unfold calculate_percentile. destruct samples as [|y l]; [done|].
  rewrite sorted_length. fold n.
  rewrite Z.quot_div_nonneg by lia. fold i.
  apply subscript_nonneg; [lia|exact Hx].
Qed.

Lemma calculate_percentile_index_witness :
  [10; 30; 20] ≠ ([] : list Q) ∧ (0 ≤ 50)%Z ∧
  ∃ x, calculate_percentile [10; 30; 20] 50 = Ok x ∧
       sorted [10; 30; 20] !! Z.to_nat (Z.min (3 * 50 / 100) (3 - 1)) = Some x.
Proof.
  split; [done|]. split; [lia|].
  apply (calculate_percentile_index [10; 30; 20] 50); [done|lia].
Defined.

Example calculate_percentile_median : calculate_percentile [10; 30; 20] 50 = Ok 20.
Proof. reflexivity. Qed.

Example calculate_percentile_clamped : calculate_percentile [10; 30; 20] 100 = Ok 30.
Proof. reflexivity. Qed.

(** No samples: the default 0.0. *)
Example calculate_percentile_empty (p : Z) : calculate_percentile [] p = Ok 0.
Proof. reflexivity. Qed.

(** Outside the percentile range, [int] truncates towards zero: a negative
    argument above −100/n still selects the smallest sample. *)
Example calculate_percentile_truncates : calculate_percentile [10; 30; 20] (-10) = Ok 10.
Proof. reflexivity. Qed.

End Percentile.

(** ** Cold-start comparisons: winner and speedup ratio *)

Section ColdStartComparison.
Import cold_start.

Lemma truediv_Ok (x y : Q) : ¬ y == 0 → truediv x y = Ok (x / y).
Proof. intros Hy. unfold truediv. by destruct (decide (y == 0)). Qed.

Lemma truediv_zero (x y : Q) : y == 0 → truediv x y = Raise ZeroDivisionError.
Proof. intros Hy. unfold truediv. by destruct (decide (y == 0)). Qed.

Lemma mean_Ok_nonempty {A} (f : A → Q) (l : list A) (m : Q) :
  statistics.mean (map f l) = Ok m → ∃ x l', l = x :: l'.
Proof. destruct l; [done|]. eauto. Qed.

Lemma lift_Ok_bind {A B} (a : A) (f : A → io B) : lift (Ok a) ≫= f = f a.
Proof. unfold lift, mbind, io_bind. simpl. by destruct (f a). Qed.

Lemma lift_Raise_bind {A B} (e : exn) (f : A → io B) :
  lift (Raise e) ≫= f = IO [] (Raise e).
Proof. reflexivity. Qed.

(** What the loop body does for a pair of scenarios that both have entries. *)
Lemma print_comparison_unfold data key1 key2 desc e1 e2 mean1 mean2 :
  data !! key1 = Some e1 → data !! key2 = Some e2 →
  statistics.mean (map total_ms e1) = Ok mean1 →
  statistics.mean (map total_ms e2) = Ok mean2 →
  print_comparison data (key1, key2, desc) =
  if decide (mean2 < mean1) then
    ratio ← lift (truediv mean1 mean2);
    print (comparison_line desc (winner_name key2) ratio)
  else
    ratio ← lift (truediv mean2 mean1);
    print (comparison_line desc (winner_name key1) ratio).
Proof.
  intros H1 H2 M1 M2.
  destruct (mean_Ok_nonempty _ _ _ M1) as (x1 & l1 & ->).
  destruct (mean_Ok_nonempty _ _ _ M2) as (x2 & l2 & ->).
  unfold print_comparison, get_entries, getitem. rewrite H1, H2. simpl default.
  rewrite lift_Ok_bind. cbv beta. rewrite M1, !lift_Ok_bind. cbv beta.
  rewrite M2, lift_Ok_bind. reflexivity.
Qed.

(** C2.  For a pair of scenarios that both have entries, with means [mean1]
    and [mean2] of [total_ms]: a printed comparison names a scenario whose
    mean is not larger than the other's, and its ratio is the slower mean
    over the faster mean; when both means are positive the comparison is
    printed and the ratio is at least 1. *)
Theorem comparison_winner data key1 key2 desc e1 e2 mean1 mean2 :
  data !! key1 = Some e1 → data !! key2 = Some e2 →
  statistics.mean (map total_ms e1) = Ok mean1 →
  statistics.mean (map total_ms e2) = Ok mean2 →
  (∀ o, print_comparison data (key1, key2, desc) = IO o (Ok ()) →
     ∃ winner faster slower ratio,
       ((winner, faster, slower) = (key1, mean1, mean2) ∨
        (winner, faster, slower) = (key2, mean2, mean1)) ∧
       faster <= slower ∧ ratio == slower / faster ∧
       o = [comparison_line desc (winner_name winner) ratio]) ∧
  (0 < mean1 → 0 < mean2 →
     ∃ winner ratio,
       print_comparison data (key1, key2, desc) =
       IO [comparison_line desc (winner_name winner) ratio] (Ok ()) ∧ 1 <= ratio).
Proof.
  intros H1 H2 M1 M2.
  rewrite (print_comparison_unfold _ _ _ _ _ _ _ _ H1 H2 M1 M2).
  split.
  - intros o Ho. destruct (decide (mean2 < mean1)) as [Hlt|Hge].
    + destruct (decide (mean2 == 0)) as [Hz|Hz].
      { rewrite (truediv_zero _ _ Hz) in Ho. done. }
      rewrite (truediv_Ok _ _ Hz) in Ho. injection Ho as <-.
      exists key2, mean2, mean1, (mean1 / mean2).
      split; [by right|]. split; [by apply Qlt_le_weak|]. done.
    + destruct (decide (mean1 == 0)) as [Hz|Hz].
      { rewrite (truediv_zero _ _ Hz) in Ho. done. }
      rewrite (truediv_Ok _ _ Hz) in Ho. injection Ho as <-.
      exists key1, mean1, mean2, (mean2 / mean1).
      split; [by left|]. split; [by apply Qnot_lt_le|]. done.
  - intros P1 P2. destruct (decide (mean2 < mean1)) as [Hlt|Hge].
    + rewrite truediv_Ok by lra. do 2 eexists. split; [reflexivity|].
      apply Qle_shift_div_l; lra.
    + rewrite truediv_Ok by lra. do 2 eexists. split; [reflexivity|].
      apply Qnot_lt_le in Hge. apply Qle_shift_div_l; lra.
Qed.

Lemma comparison_winner_witness :
  ∃ winner ratio,
    print_comparison fixtures.cold_data
      ("docker_full_cold", "wasmtime_full_cold", "Full Cold (build from source)") =
    IO [comparison_line "Full Cold (build from source)" (winner_name winner) ratio] (Ok ()) ∧
    1 <= ratio.
Proof.
  refine (proj2 (comparison_winner fixtures.cold_data "docker_full_cold" "wasmtime_full_cold"
            "Full Cold (build from source)"
            [Entry 1 100 20 120; Entry 2 90 30 120] [Entry 1 10 2 12]
            (240 # 2) 12 _ _ _ _) _ _); [reflexivity..|lra|lra].
Defined.

(** On that data Wasmtime wins the full-cold comparison, ten times faster. *)
Example full_cold_comparison :
  ∃ ratio,
    print_comparison fixtures.cold_data
      ("docker_full_cold", "wasmtime_full_cold", "Full Cold (build from source)") =
    IO [comparison_line "Full Cold (build from source)" "Wasmtime Full Cold" ratio] (Ok ()) ∧
    ratio == 10.
Proof. eexists. split; reflexivity. Qed.

(** A faster mean of zero: the division raises and nothing is printed. *)
Example comparison_zero_mean :
  print_comparison
    (<["docker_full_cold" := [Entry 1 0 5 5]]> (<["wasmtime_full_cold" := [Entry 1 0 0 0]]> ∅))
    ("docker_full_cold", "wasmtime_full_cold", "Full Cold (build from source)") =
  IO [] (Raise ZeroDivisionError).
Proof. reflexivity. Qed.

End ColdStartComparison.

(** ** Scaling efficiency *)

Section ScalingEfficiency.
Import http_hello_scaling.

Lemma sorted_keys_elem {V} (d : gmap Z V) (c : Z) :
  c ∈ sorted_keys d ↔ is_Some (d !! c).
Proof.
  unfold sorted_keys. rewrite merge_sort_Permutation, list_elem_of_fmap. split.
  - intros ([c' v] & -> & Hin). apply elem_of_map_to_list in Hin. by exists v.
  - intros [v Hv]. exists (c, v). split; [done|]. by apply elem_of_map_to_list.
Qed.

Section FoldInsert.
Context {E : Type} (g : Z → result E).

Lemma foldlM_insert_inv (l : list Z) (acc eff : gmap Z E) :
  foldlM (λ acc c, e ← g c; Ok (<[c := e]> acc)) acc l = Ok eff →
  (∀ c, c ∈ l → ∃ e, g c = Ok e ∧ eff !! c = Some e) ∧
  (∀ c, c ∉ l → eff !! c = acc !! c).
Proof.
  revert acc. induction l as [|x l IH]; intros acc Hfold.
  - injection Hfold as <-. split; [|done]. intros c Hc. by apply elem_of_nil in Hc.
  - cbn [foldlM] in Hfold.
    destruct (g x) as [e|] eqn:Hg; cbn [mbind result_bind] in Hfold; [|done].
    destruct (IH _ Hfold) as [Hin Hout]. split.
    + intros c Hc. apply elem_of_cons in Hc as [->|Hc]; [|by apply Hin].
      destruct (decide (x ∈ l)) as [Hx|Hx]; [by apply Hin|].
      exists e. split; [done|]. rewrite (Hout _ Hx). apply lookup_insert_eq.
    + intros c Hc. apply not_elem_of_cons in Hc as [Hne Hc].
      rewrite (Hout _ Hc). by apply lookup_insert_ne.
Qed.

Lemma foldlM_insert_total (l : list Z) (acc : gmap Z E) :
  (∀ c, c ∈ l → is_Ok (g c)) →
  is_Ok (foldlM (λ acc c, e ← g c; Ok (<[c := e]> acc)) acc l).
Proof.
  revert acc. induction l as [|x l IH]; intros acc Hall; [by eexists|].
  cbn [foldlM].
  destruct (Hall x) as [e ->]; [by left|]. cbn [mbind result_bind].
  apply IH. intros c Hc. apply Hall. by right.
Qed.

End FoldInsert.

(** The loop body returns exactly when the level has samples, the baseline
    is not zero and the level is not zero; its entry is then the claimed one. *)
Lemma efficiency_at_Ok conc_map mean_1 c e :
  efficiency_at conc_map mean_1 c = Ok e ↔
  ∃ s mean_c, conc_map !! c = Some s ∧
    statistics.mean (throughput_rps s) = Ok mean_c ∧
    ¬ mean_1 == 0 ∧ c ≠ 0%Z ∧
    e = Efficiency (mean_c / mean_1) c (spec.scaling_efficiency mean_c mean_1 c).
Proof.
  unfold efficiency_at, getitem, spec.scaling_efficiency, truediv. split.
  - destruct (conc_map !! c) as [s|]; cbn [mbind result_bind]; [|done].
    destruct (statistics.mean _) as [mean_c|] eqn:Hmc; cbn [mbind result_bind]; [|done].
    destruct (decide (mean_1 == 0)); cbn [mbind result_bind]; [done|].
    destruct (decide (inject_Z c == 0)) as [|Hc]; cbn [mbind result_bind]; [done|].
    intros [= <-]. exists s, mean_c. split_and!; try done.
    intros ->. by apply Hc.
  - intros (s & mean_c & Hs & Hmc & Hb & Hc & ->).
    rewrite Hs. cbn [mbind result_bind]. rewrite Hmc. cbn [mbind result_bind].
    destruct (decide (mean_1 == 0)); [done|]. cbn [mbind result_bind].
    destruct (decide (inject_Z c == 0)) as [Hz|_]; [|done].
    exfalso. apply Hc. unfold Qeq in Hz. simpl in Hz. lia.
Qed.

Lemma calculate_scaling_efficiency_absent data runtime conc_map :
  data !! runtime = Some conc_map → conc_map !! 1%Z = None →
  calculate_scaling_efficiency data runtime = Ok ∅.
Proof.
  intros Hrt H1. unfold calculate_scaling_efficiency, getitem. rewrite Hrt.
  cbn [mbind result_bind].
  assert (Hnot : 1%Z ∉ sorted_keys conc_map).
  { rewrite sorted_keys_elem, H1. by intros [? ?]. }
  rewrite (bool_decide_eq_false_2 _ Hnot). by rewrite orb_true_r.
Qed.

Lemma calculate_scaling_efficiency_present data runtime conc_map s1 :
  data !! runtime = Some conc_map → conc_map !! 1%Z = Some s1 →
  calculate_scaling_efficiency data runtime =
  baseline_throughput ← statistics.mean (throughput_rps s1);
  foldlM (λ efficiency conc,
            e ← efficiency_at conc_map baseline_throughput conc;
            Ok (<[conc := e]> efficiency))
         ∅ (sorted_keys conc_map).
Proof.
  intros Hrt H1. unfold calculate_scaling_efficiency, getitem. rewrite Hrt.
  cbn [mbind result_bind].
  assert (Hin : 1%Z ∈ sorted_keys conc_map).
  { rewrite sorted_keys_elem, H1. by eexists. }
  rewrite (bool_decide_eq_true_2 _ Hin).
  rewrite bool_decide_eq_false_2.
  2:{ intros Hnil. rewrite Hnil in Hin. by apply elem_of_nil in Hin. }
  cbn [orb negb]. by rewrite H1.
Qed.

(** Whenever the function returns for a runtime that has level 1, every
    observed level has the claimed entry and no other level has one. *)
Lemma calculate_scaling_efficiency_inv data runtime conc_map s1 eff :
  data !! runtime = Some conc_map → conc_map !! 1%Z = Some s1 →
  calculate_scaling_efficiency data runtime = Ok eff →
  ∃ mean_1, statistics.mean (throughput_rps s1) = Ok mean_1 ∧ ¬ mean_1 == 0 ∧
    (∀ c s, conc_map !! c = Some s →
       ∃ mean_c, statistics.mean (throughput_rps s) = Ok mean_c ∧ c ≠ 0%Z ∧
         eff !! c = Some (Efficiency (mean_c / mean_1) c
                            (spec.scaling_efficiency mean_c mean_1 c))) ∧
    (∀ c, conc_map !! c = None → eff !! c = None).
Proof.
  intros Hrt H1. rewrite (calculate_scaling_efficiency_present _ _ _ _ Hrt H1).
  destruct (statistics.mean (throughput_rps s1)) as [mean_1|] eqn:Hm;
    cbn [mbind result_bind]; [|done].
  intros Hfold.
  apply (foldlM_insert_inv (efficiency_at conc_map mean_1)) in Hfold as [Hin Hout].
  assert (Hall : ∀ c s, conc_map !! c = Some s →
       ∃ mean_c, statistics.mean (throughput_rps s) = Ok mean_c ∧ c ≠ 0%Z ∧
         ¬ mean_1 == 0 ∧
         eff !! c = Some (Efficiency (mean_c / mean_1) c
                            (spec.scaling_efficiency mean_c mean_1 c))).
  { intros c s Hc. destruct (Hin c) as (e & He & Hlook).
    { apply sorted_keys_elem. by eexists. }
    apply efficiency_at_Ok in He as (s' & mean_c & Hs' & Hmc & Hb & Hc0 & ->).
    rewrite Hc in Hs'. injection Hs' as <-. by exists mean_c. }
  exists mean_1. split; [done|]. split.
  { by destruct (Hall _ _ H1) as (? & _ & _ & Hb & _). }
  split.
  - intros c s Hc. destruct (Hall _ _ Hc) as (mean_c & ? & ? & _ & ?). by exists mean_c.
  - intros c Hc. rewrite Hout; [done|]. rewrite sorted_keys_elem, Hc. by intros [? ?].
Qed.

(** The function returns when the baseline mean is not zero, level 0 is not
    observed and every observed level has a throughput sample. *)
Lemma calculate_scaling_efficiency_total data runtime conc_map s1 mean_1 :
  data !! runtime = Some conc_map → conc_map !! 1%Z = Some s1 →
  statistics.mean (throughput_rps s1) = Ok mean_1 → ¬ mean_1 == 0 →
  conc_map !! 0%Z = None →
  (∀ c s, conc_map !! c = Some s → throughput_rps s ≠ []) →
  is_Ok (calculate_scaling_efficiency data runtime).
Proof.
  intros Hrt H1 Hm Hb H0 Hne.
  rewrite (calculate_scaling_efficiency_present _ _ _ _ Hrt H1), Hm.
  cbn [mbind result_bind].
  apply (foldlM_insert_total (efficiency_at conc_map mean_1)).
  intros c Hc. apply sorted_keys_elem in Hc as [s Hs].
  destruct (throughput_rps s) as [|x l] eqn:Hl; [by destruct (Hne _ _ Hs)|].
  eexists. apply efficiency_at_Ok. exists s, (fsum (x :: l) / flen (x :: l)).
  split; [done|]. split; [by rewrite Hl|]. split; [done|]. split; [|done].
  intros ->. by rewrite H0 in Hs.
Qed.

(** C4, as amended.  For a runtime of the data: without concurrency level 1
    the result is the empty mapping; with a concurrency-1 baseline whose mean
    throughput is not zero, no observed level 0 and at least one throughput
    sample per observed level, the result has an entry for exactly the
    observed levels, and the entry of level [c] has
    efficiency_pct = (mean at c / mean at 1) / c × 100. *)
Theorem scaling_efficiency_entries data runtime conc_map :
  data !! runtime = Some conc_map →
  (conc_map !! 1%Z = None → calculate_scaling_efficiency data runtime = Ok ∅) ∧
  (∀ s1 mean_1,
     conc_map !! 1%Z = Some s1 →
     statistics.mean (throughput_rps s1) = Ok mean_1 → ¬ mean_1 == 0 →
     conc_map !! 0%Z = None →
     map_Forall (λ _ s, throughput_rps s ≠ []) conc_map →
     ∃ eff, calculate_scaling_efficiency data runtime = Ok eff ∧
       dom eff = dom conc_map ∧
       ∀ c s, conc_map !! c = Some s →
         ∃ mean_c e, statistics.mean (throughput_rps s) = Ok mean_c ∧
           eff !! c = Some e ∧
           actual_speedup e = mean_c / mean_1 ∧ ideal_speedup e = c ∧
           efficiency_pct e = spec.scaling_efficiency mean_c mean_1 c).
Proof.
  intros Hrt. split; [by apply calculate_scaling_efficiency_absent|].
  intros s1 mean_1 H1 Hm Hb H0 Hne.
  destruct (calculate_scaling_efficiency_total _ _ _ _ _ Hrt H1 Hm Hb H0 Hne) as [eff Heff].
  exists eff. split; [done|].
  destruct (calculate_scaling_efficiency_inv _ _ _ _ _ Hrt H1 Heff)
    as (mean_1' & Hm' & _ & Hin & Hout).
  rewrite Hm in Hm'. injection Hm' as <-. split.
  - apply set_eq. intros c. rewrite !elem_of_dom. split.
    + intros [e He]. destruct (conc_map !! c) eqn:Hc; [by eexists|].
      rewrite (Hout _ Hc) in He. done.
    + intros [s Hs]. destruct (Hin _ _ Hs) as (? & _ & _ & ->). by eexists.
  - intros c s Hs. destruct (Hin _ _ Hs) as (mean_c & Hmc & _ & He).
    exists mean_c. eexists. split; [done|]. split; [exact He|]. done.
Qed.

Lemma scaling_efficiency_entries_witness :
  ∃ eff, calculate_scaling_efficiency fixtures.scaling_data "native" = Ok eff ∧
    dom eff = ({[1%Z; 4%Z]} : gset Z).
Proof.
  destruct (scaling_efficiency_entries fixtures.scaling_data "native"
    (<[1%Z := Series [100; 110] [2048; 2048]%Z [2048; 2048]%Z]>
      (<[4%Z := Series [300; 330] [8192; 8192]%Z [2048; 2048]%Z]> ∅))
    eq_refl) as [_ H].
  destruct (H (Series [100; 110] [2048; 2048]%Z [2048; 2048]%Z) (210 # 2))
    as (eff & Heff & Hdom & _).
  - reflexivity.
  - reflexivity.
  - unfold Qeq. simpl. lia.
  - reflexivity.
  - apply map_Forall_insert_2; [done|]. apply map_Forall_insert_2; [done|].
    apply map_Forall_empty.
  - exists eff. split; [exact Heff|]. rewrite Hdom. set_solver.
Defined.

(** A baseline of zero throughput: level 1 is present, and the function
    raises instead of returning entries. *)
Lemma scaling_efficiency_zero_baseline :
  (∃ conc_map, fixtures.stalled_baseline_data !! "docker" = Some conc_map ∧
     is_Some (conc_map !! 1%Z) ∧ is_Some (conc_map !! 2%Z)) ∧
  calculate_scaling_efficiency fixtures.stalled_baseline_data "docker" =
  Raise ZeroDivisionError.
Proof.
  split; [|reflexivity]. eexists. split; [reflexivity|]. split; by eexists.
Qed.

(** C8, as amended.  For a runtime whose data has a concurrency-1 sample
    set: whenever [calculate_scaling_efficiency] returns, the efficiency at
    level 1 is exactly 100%; and it does return when the baseline mean is
    not zero, level 0 is not observed and every observed level has a
    throughput sample. *)
Theorem baseline_efficiency data runtime conc_map s1 :
  data !! runtime = Some conc_map → conc_map !! 1%Z = Some s1 →
  (∀ eff, calculate_scaling_efficiency data runtime = Ok eff →
     ∃ e, eff !! 1%Z = Some e ∧ efficiency_pct e == 100) ∧
  (∀ mean_1,
     statistics.mean (throughput_rps s1) = Ok mean_1 → ¬ mean_1 == 0 →
     conc_map !! 0%Z = None →
     map_Forall (λ _ s, throughput_rps s ≠ []) conc_map →
     ∃ eff e, calculate_scaling_efficiency data runtime = Ok eff ∧
       eff !! 1%Z = Some e ∧ efficiency_pct e == 100).
Proof.
  intros Hrt H1.
  assert (Hpartial : ∀ eff, calculate_scaling_efficiency data runtime = Ok eff →
     ∃ e, eff !! 1%Z = Some e ∧ efficiency_pct e == 100).
  { intros eff Heff.
    destruct (calculate_scaling_efficiency_inv _ _ _ _ _ Hrt H1 Heff)
      as (mean_1 & Hm & Hb & Hin & _).
    destruct (Hin _ _ H1) as (mean_c & Hmc & _ & He).
    rewrite Hm in Hmc. injection Hmc as <-.
    eexists. split; [exact He|]. cbn [efficiency_pct].
    unfold spec.scaling_efficiency. change (inject_Z 1) with 1. by field. }
  split; [exact Hpartial|].
  intros mean_1 Hm Hb H0 Hne.
  destruct (calculate_scaling_efficiency_total _ _ _ _ _ Hrt H1 Hm Hb H0 Hne) as [eff Heff].
  destruct (Hpartial _ Heff) as (e & He & H100). by exists eff, e.
Qed.

Lemma baseline_efficiency_witness :
  ∃ eff e, calculate_scaling_efficiency fixtures.scaling_data "native" = Ok eff ∧
    eff !! 1%Z = Some e ∧ efficiency_pct e == 100.
Proof.
  destruct (baseline_efficiency fixtures.scaling_data "native"
    (<[1%Z := Series [100; 110] [2048; 2048]%Z [2048; 2048]%Z]>
      (<[4%Z := Series [300; 330] [8192; 8192]%Z [2048; 2048]%Z]> ∅))
    (Series [100; 110] [2048; 2048]%Z [2048; 2048]%Z) eq_refl eq_refl) as [_ H].
  apply (H (210 # 2)).
  - reflexivity.
  - unfold Qeq. simpl. lia.
  - reflexivity.
  - apply map_Forall_insert_2; [done|]. apply map_Forall_insert_2; [done|].
    apply map_Forall_empty.
Defined.

(** A single run at concurrency 1 with zero throughput: the sample set is
    not empty, yet no efficiency is computed, the division raises. *)
Lemma baseline_efficiency_zero_throughput :
  (∃ conc_map s1, fixtures.stalled_data !! "native" = Some conc_map ∧
     conc_map !! 1%Z = Some s1 ∧ throughput_rps s1 = [0]) ∧
  calculate_scaling_efficiency fixtures.stalled_data "native" = Raise ZeroDivisionError.
Proof. split; [|reflexivity]. do 2 eexists. split; [reflexivity|]. done. Qed.

End ScalingEfficiency.

(** ** Loading samples from run logs *)

Section ResultMonad.

Lemma bind_Ok {A B} (a : A) (f : A → result B) : Ok a ≫= f = f a.
Proof. reflexivity. Qed.

Lemma bind_Raise {A B} (e : exn) (f : A → result B) : Raise e ≫= f = Raise e.
Proof. reflexivity. Qed.

Lemma bind_assoc {A B C} (m : result A) (f : A → result B) (g : B → result C) :
  (m ≫= f) ≫= g = m ≫= λ a, f a ≫= g.
Proof. by destruct m. Qed.

Lemma bind_ret {A} (m : result A) : m ≫= Ok = m.
Proof. by destruct m. Qed.

Lemma mapM_cons {A B} (f : A → result B) (x : A) (l : list A) :
  mapM f (x :: l) = y ← f x; k ← mapM f l; Ok (y :: k).
Proof. reflexivity. Qed.

Lemma mapM_app {A B} (f : A → result B) (l k : list A) :
  mapM f (l ++ k) = a ← mapM f l; b ← mapM f k; Ok (a ++ b).
Proof.
  induction l as [|x l IH].
  - cbn [app mapM]. change (mret []) with (Ok (@nil B)). rewrite bind_Ok.
    by destruct (mapM f k).
  - rewrite <- app_comm_cons, !mapM_cons, IH.
    destruct (f x); [|done]. rewrite !bind_Ok.
    destruct (mapM f l); [|done]. rewrite !bind_Ok.
    by destruct (mapM f k).
Qed.

End ResultMonad.

Section Loading.
Import re.

(** The inner loop: the conversions of the captured texts are appended to
    the samples gathered so far. *)
Lemma scan_lines_append (pattern : regex) (samples : list Q) (lines : list string) :
  foldlM (λ samples line,
            match search pattern line with
            | Some m => v ← pyfloat (group m 1); Ok (samples ++ [v])
            | None => Ok samples
            end)
         samples lines =
  vs ← mapM pyfloat (spec.captured pattern 1 lines); Ok (samples ++ vs).
Proof.
  revert samples. induction lines as [|line lines IH]; intros samples.
  - cbn. by rewrite app_nil_r.
  - cbn [foldlM]. unfold spec.captured. cbn [omap list_omap].
    fold (spec.captured pattern 1 lines).
    destruct (search pattern line) as [m|]; cbn [fmap option_fmap option_map].
    + rewrite mapM_cons. destruct (pyfloat (group m 1)) as [v|]; [|done].
      rewrite !bind_Ok, IH. destruct (mapM pyfloat _); [|done].
      rewrite !bind_Ok. by rewrite <- app_assoc.
    + apply IH.
Qed.

(** The outer loop over the files. *)
Lemma scan_files_append (name_pattern pattern : regex) (samples : list Q) (logs : list file) :
  foldlM (λ samples log,
            match match_ name_pattern (name log) with
            | None => Ok samples
            | Some _ =>
              foldlM (λ samples line,
                        match search pattern line with
                        | Some m => v ← pyfloat (group m 1); Ok (samples ++ [v])
                        | None => Ok samples
                        end)
                     samples (content log)
            end)
         samples logs =
  vs ← mapM pyfloat
         (concat (map (λ log, spec.captured pattern 1 (content log))
                      (filter (λ log, is_Some (match_ name_pattern (name log))) logs)));
  Ok (samples ++ vs).
Proof.
  revert samples. induction logs as [|log logs IH]; intros samples.
  - cbn. by rewrite app_nil_r.
  - cbn [foldlM]. rewrite filter_cons.
    destruct (match_ name_pattern (name log)) as [m|] eqn:Hm.
    + rewrite decide_True by by eexists. cbn [map concat].
      rewrite scan_lines_append, mapM_app, !bind_assoc.
      destruct (mapM pyfloat (spec.captured pattern 1 (content log))) as [vs|]; [|done].
      rewrite !bind_Ok, IH, !bind_assoc.
      destruct (mapM pyfloat _) as [ws|]; [|done].
      rewrite !bind_Ok. by rewrite app_assoc.
    + rewrite decide_False by (by intros [? ?]). rewrite bind_Ok. apply IH.
Qed.

End Loading.

(** ** The matcher is sound *)

Ltac destruct_matches :=
  repeat match goal with
         | H : ∃ _, _ |- _ => destruct H
         | H : _ ∧ _ |- _ => destruct H
         end; subst.

Section Regex.
Import re.

Lemma append_cons (c : ascii) (s t : string) : String c s +:+ t = String c (s +:+ t).
Proof. reflexivity. Qed.

Lemma append_nil_r (s : string) : s +:+ "" = s.
Proof. induction s as [|c s IH]; [done|]. by rewrite append_cons, IH. Qed.

Lemma append_assoc (a b c : string) : (a +:+ b) +:+ c = a +:+ (b +:+ c).
Proof. induction a as [|x a IH]; [done|]. rewrite !append_cons. simpl. by rewrite IH. Qed.

Lemma length_append (a b : string) :
  String.length (a +:+ b) = (String.length a + String.length b)%nat.
Proof. induction a as [|x a IH]; [done|]. rewrite !append_cons. simpl. by rewrite IH. Qed.

Lemma substring_append (w s : string) : String.substring 0 (String.length w) (w +:+ s) = w.
Proof.
  induction w as [|c w IH].
  - by destruct s.
  - rewrite append_cons. simpl. by rewrite IH.
Qed.

Lemma consumed_append (w s : string) : consumed (w +:+ s) s = w.
Proof.
  unfold consumed. rewrite length_append.
  replace (String.length w + String.length s - String.length s)%nat
    with (String.length w) by lia.
  apply substring_append.
Qed.

Lemma strip_prefix_Some (p s s' : string) : strip_prefix p s = Some s' → s = p +:+ s'.
Proof.
  revert s. induction p as [|a p IH]; intros s H.
  - cbn in H. by injection H as <-.
  - destruct s as [|b s]; [done|]. cbn in H.
    destruct (Ascii.eqb_spec a b) as [->|]; [|done]. by rewrite append_cons, (IH _ H).
Qed.

Lemma all_chars_append (p : ascii → bool) (a b : string) :
  all_chars p (a +:+ b) = all_chars p a && all_chars p b.
Proof.
  induction a as [|c a IH]; [done|]. rewrite append_cons. simpl.
  by rewrite IH, andb_assoc.
Qed.

(** What a successful match of [r] consumes ([w]), what it leaves ([rest])
    and which groups it sets ([new], the latest first). *)
Fixpoint matches (r : regex) (w rest : string) (new : captures) : Prop :=
  match r with
  | Lit p => w = p ∧ new = []
  | Cls p => ∃ c, w = String c "" ∧ p c = true ∧ new = []
  | Star p => all_chars p w = true ∧ new = []
  | StarLazy p => all_chars p w = true ∧ new = []
  | Opt r' => (w = "" ∧ new = []) ∨ matches r' w rest new
  | Seq r1 r2 =>
    ∃ w1 w2 n1 n2, w = w1 +:+ w2 ∧ new = n2 ++ n1 ∧
      matches r1 w1 (w2 +:+ rest) n1 ∧ matches r2 w2 rest n2
  | Group n r' => ∃ n', new = (n, w) :: n' ∧ matches r' w rest n'
  | Eos => w = "" ∧ new = [] ∧ (rest = "" ∨ rest = nl)
  end.

Lemma run_sound {A} (r : regex) :
  ∀ (s : string) (caps : captures) (k : string → captures → option A) (x : A),
    run r s caps k = Some x →
    ∃ w rest new, s = w +:+ rest ∧ matches r w rest new ∧ k rest (new ++ caps) = Some x.
Proof.
  induction r as [p|p|p|p|r IH|r1 IH1 r2 IH2|n r IH|]; intros s caps k x Hrun;
    cbn [run] in Hrun.
  - destruct (strip_prefix p s) as [s'|] eqn:Hp; [|done].
    exists p, s', []. by rewrite (strip_prefix_Some _ _ _ Hp).
  - destruct s as [|c s']; [done|]. destruct (p c) eqn:Hc; [|done].
    exists (String c ""), s', []. split; [done|]. split; [|done]. by exists c.
  - revert Hrun. induction s as [|c s' IHs]; intros Hrun.
    + exists "", "", []. by repeat split.
    + destruct (p c) eqn:Hc.
      * match type of Hrun with match ?t with _ => _ end = _ => destruct t as [y|] eqn:Hstar end.
        -- injection Hrun as ->.
           destruct (IHs eq_refl) as (w & rest & new & -> & [Hw ->] & Hk).
           exists (String c w), rest, []. split; [done|]. split; [|done].
           split; [|done]. simpl. by rewrite Hc, Hw.
        -- exists "", (String c s'), []. by repeat split.
      * exists "", (String c s'), []. by repeat split.
  - revert Hrun. induction s as [|c s' IHs]; intros Hrun.
    + destruct (k "" caps) as [y|] eqn:Hk; [|done]. injection Hrun as ->.
      exists "", "", []. by repeat split.
    + destruct (k (String c s') caps) as [y|] eqn:Hk.
      * injection Hrun as ->. exists "", (String c s'), []. by repeat split.
      * destruct (p c) eqn:Hc; [|done].
        destruct (IHs Hrun) as (w & rest & new & -> & [Hw ->] & Hk').
        exists (String c w), rest, []. split; [done|]. split; [|done].
        split; [|done]. simpl. by rewrite Hc, Hw.
  - destruct (run r s caps k) as [y|] eqn:Hr.
    + injection Hrun as ->. destruct (IH _ _ _ _ Hr) as (w & rest & new & -> & Hm & Hk).
      exists w, rest, new. split; [done|]. split; [by right|done].
    + exists "", s, []. split; [done|]. split; [by left|done].
  - destruct (IH1 _ _ _ _ Hrun) as (w1 & rest1 & n1 & -> & Hm1 & Hk1).
    destruct (IH2 _ _ _ _ Hk1) as (w2 & rest & n2 & -> & Hm2 & Hk).
    exists (w1 +:+ w2), rest, (n2 ++ n1). split; [by rewrite append_assoc|].
    split; [|by rewrite <- app_assoc]. by exists w1, w2, n1, n2.
  - destruct (IH _ _ _ _ Hrun) as (w & rest & new & -> & Hm & Hk).
    rewrite consumed_append in Hk.
    exists w, rest, ((n, w) :: new). split; [done|]. split; [|done]. by exists new.
  - destruct s as [|c [|c' s']]; [|destruct (is_newline c) eqn:Hc|]; try done.
    + exists "", "", []. by repeat split; try left.
    + exists "", (String c ""), []. repeat split; try done. right.
      unfold is_newline in Hc. apply Nat.eqb_eq in Hc.
      unfold nl. f_equal. by rewrite <- Hc, ascii_nat_embedding.
Qed.

Lemma match_sound (r : regex) (s : string) (m : captures) :
  match_ r s = Some m → ∃ w rest, s = w +:+ rest ∧ matches r w rest m.
Proof.
  intros H. apply run_sound in H as (w & rest & new & -> & Hm & [= <-]).
  rewrite app_nil_r. by exists w, rest.
Qed.

Lemma search_sound (r : regex) (s : string) (m : captures) :
  search r s = Some m → ∃ pre w rest, s = pre +:+ w +:+ rest ∧ matches r w rest m.
Proof.
  induction s as [|c s IH]; cbn [search]; intros H.
  - destruct (match_ r "") eqn:Hm; [|done]. injection H as ->.
    apply match_sound in Hm as (w & rest & -> & Hm). by exists "", w, rest.
  - destruct (match_ r (String c s)) eqn:Hm.
    + injection H as ->. apply match_sound in Hm as (w & rest & -> & Hm).
      by exists "", w, rest.
    + destruct (IH H) as (pre & w & rest & -> & Hm'). by exists (String c pre), w, rest.
Qed.

Lemma append_nil_l (s : string) : "" +:+ s = s.
Proof. reflexivity. Qed.

Lemma is_digit_not_dot (c : ascii) : is_digit c = true → Ascii.eqb c "." = false.
Proof. destruct c as [[] [] [] [] [] [] [] []]; done. Qed.

Lemma pyint_digits (s : string) :
  all_chars is_digit s = true → s ≠ "" → pyint s = Ok (digits_value 0 s).
Proof.
  intros Hd Hne. unfold pyint. rewrite Hd.
  destruct (String.eqb_spec s ""); done.
Qed.

Lemma split_dot_digits (a : string) :
  all_chars is_digit a = true → split_dot a = (a, None).
Proof.
  induction a as [|c a IH]; [done|]. simpl. intros [Hc Ha]%andb_true_iff.
  by rewrite (is_digit_not_dot _ Hc), (IH Ha).
Qed.

Lemma split_dot_digits_dot (a b : string) :
  all_chars is_digit a = true → split_dot (a +:+ String "." b) = (a, Some b).
Proof.
  induction a as [|c a IH]; [done|]. rewrite append_cons. simpl.
  intros [Hc Ha]%andb_true_iff. by rewrite (is_digit_not_dot _ Hc), (IH Ha).
Qed.

(** A decimal literal [\d+ \.? \d*] converts. *)
Lemma pyfloat_decimal (c : ascii) (a o b : string) :
  is_digit c = true → all_chars is_digit a = true → o = "" ∨ o = "." →
  all_chars is_digit b = true →
  is_Ok (pyfloat (String c a +:+ o +:+ b)).
Proof.
  intros Hc Ha [->| ->] Hb; unfold pyfloat.
  - rewrite append_nil_l, split_dot_digits.
    2:{ rewrite all_chars_append. simpl. by rewrite Hc, Ha, Hb. }
    simpl default. rewrite append_nil_r, all_chars_append.
    simpl. rewrite Hc, Ha, Hb. simpl. by eexists.
  - change ("." +:+ b) with (String "." b). rewrite split_dot_digits_dot.
    2:{ simpl. by rewrite Hc, Ha. }
    simpl default. simpl. rewrite Hc, Ha, Hb. simpl. by eexists.
Qed.

(** The group of a decimal literal converts. *)
Lemma decimal_group (w rest : string) (new : captures) :
  matches (seq [Plus is_digit; Opt (Lit "."); Star is_digit]) w rest new →
  new = [] ∧ is_Ok (pyfloat w).
Proof.
  cbn [seq foldr Plus matches]. intros H. destruct_matches.
  match goal with H : _ ∨ _ |- _ => destruct H as [[-> ->]|[-> ->]] end.
  - split; [done|]. rewrite !append_nil_r, append_cons, append_nil_l.
    apply (pyfloat_decimal _ _ ""); auto.
  - split; [done|]. rewrite !append_nil_r, append_cons, append_nil_l.
    apply (pyfloat_decimal _ _ "."); auto.
Qed.

(** Digits convert to an integer. *)
Lemma digits_group (w rest : string) (new : captures) :
  matches (Plus is_digit) w rest new → new = [] ∧ is_Ok (pyint w).
Proof.
  cbn [Plus matches]. intros H. destruct_matches. split; [done|].
  rewrite append_cons, append_nil_l. eexists. apply pyint_digits; [|done].
  simpl. by apply andb_true_iff.
Qed.

Lemma three_digits_group (w rest : string) (new : captures) :
  matches (Rep 3 is_digit) w rest new → new = [] ∧ is_Ok (pyint w).
Proof.
  cbn [Rep matches]. intros H. destruct_matches. split; [done|].
  rewrite !append_cons, !append_nil_l.
  eexists. apply pyint_digits; [|done]. simpl.
  repeat match goal with H : is_digit _ = true |- _ => rewrite H; clear H end. done.
Qed.

Lemma matches_seq_cons (r : regex) (rs : list regex) (w rest : string) (new : captures) :
  matches (seq (r :: rs)) w rest new →
  ∃ w1 w2 n1 n2, w = w1 +:+ w2 ∧ new = n2 ++ n1 ∧
    matches r w1 (w2 +:+ rest) n1 ∧ matches (seq rs) w2 rest n2.
Proof. done. Qed.

Lemma matches_seq_nil (w rest : string) (new : captures) :
  matches (seq []) w rest new → w = "" ∧ new = [].
Proof. done. Qed.

Lemma plus_no_groups (p : ascii → bool) (w rest : string) (new : captures) :
  matches (Plus p) w rest new → new = [].
Proof. cbn [Plus matches]. intros H. by destruct_matches. Qed.

End Regex.

(** Takes a match of a pattern of the scripts apart, group by group. *)
Ltac split_match :=
  repeat match goal with
         | H : matches (re.seq [re.Plus is_digit; re.Opt (re.Lit "."); re.Star is_digit]) _ _ _ |- _ =>
           apply decimal_group in H as [-> ?]
         | H : matches (re.seq (_ :: _)) _ _ _ |- _ =>
           apply matches_seq_cons in H as (? & ? & ? & ? & -> & -> & ? & ?)
         | H : matches (re.seq []) _ _ _ |- _ => apply matches_seq_nil in H as [-> ->]
         | H : matches (re.Group _ _) _ _ _ |- _ => destruct H as (? & -> & ?)
         | H : matches (re.Lit _) _ _ _ |- _ => destruct H as [-> ->]
         | H : matches (re.Plus is_digit) _ _ _ |- _ => apply digits_group in H as [-> ?]
         | H : matches (re.Rep 3 is_digit) _ _ _ |- _ =>
           apply three_digits_group in H as [-> ?]
         | H : matches (re.Plus _) _ _ _ |- _ => apply plus_no_groups in H as ->
         | H : matches (re.Star _) _ _ _ |- _ => destruct H as [? ->]
         | H : matches re.Eos _ _ _ |- _ => destruct H as (-> & -> & ?)
         end.

Section Conversions.
Import re.

(** Every line that matches the two patterns of the HTTP logs converts. *)
Lemma cold_start_converts (line : string) (m : captures) :
  search http_hello.COLD_START_PATTERN line = Some m → is_Ok (pyfloat (group m 1)).
Proof.
  intros H. apply search_sound in H as (pre & w & rest & _ & H).
  unfold http_hello.COLD_START_PATTERN in H. split_match. done.
Qed.

Lemma latency_converts (line : string) (m : captures) :
  search http_hello.LATENCY_PATTERN line = Some m →
  is_Ok (pyint (group m 1)) ∧ is_Ok (pyint (group m 2)) ∧ is_Ok (pyfloat (group m 4)).
Proof.
  intros H. apply search_sound in H as (pre & w & rest & _ & H).
  unfold http_hello.LATENCY_PATTERN in H. split_match. done.
Qed.

End Conversions.

(** ** Parsing one HTTP run log *)

Section ParseRunLog.
Import re http_hello.

(** One step of the loop, in terms of what the line reports. *)
Lemma scan_line_step (cold_start_ms : option Q) (latencies_ms : list Q) (line : string) :
  scan_line (cold_start_ms, latencies_ms) line =
  Ok (match spec.cold_start_line line with Some v => Some v | None => cold_start_ms end,
      latencies_ms ++ spec.ok_latencies [line]) ∧
  scan_line_native (cold_start_ms, latencies_ms) line =
  scan_line (cold_start_ms, latencies_ms) line.
Proof.
  unfold scan_line, scan_line_native, spec.cold_start_line, spec.ok_latencies,
    spec.latency_line.
  cbn [omap list_omap].
  destruct (search COLD_START_PATTERN (strip line)) as [m_cs|] eqn:Hcs;
    cbn [mbind option_bind].
  - destruct (cold_start_converts _ _ Hcs) as [v ->]. rewrite !bind_Ok.
    destruct (search LATENCY_PATTERN (strip line)) as [m_lat|] eqn:Hlat;
      cbn [mbind option_bind]; [|by rewrite app_nil_r].
    destruct (latency_converts _ _ Hlat) as ([req ->] & [code ->] & [ms ->]).
    rewrite !bind_Ok. cbn [mbind option_bind].
    destruct (decide (code = 200%Z)); [done|by rewrite app_nil_r].
  - rewrite !bind_Ok.
    destruct (search LATENCY_PATTERN (strip line)) as [m_lat|] eqn:Hlat;
      cbn [mbind option_bind]; [|by rewrite app_nil_r].
    destruct (latency_converts _ _ Hlat) as ([req ->] & [code ->] & [ms ->]).
    rewrite !bind_Ok. cbn [mbind option_bind].
    destruct (decide (code = 200%Z)); [done|by rewrite app_nil_r].
Qed.

(** The loop over the lines never raises: it ends with the last cold start
    reported and with the latencies of the status-200 lines appended. *)
Lemma scan_lines (cold_start_ms : option Q) (latencies_ms : list Q) (lines : list string) :
  foldlM scan_line (cold_start_ms, latencies_ms) lines =
  Ok (match spec.last_cold_start lines with Some v => Some v | None => cold_start_ms end,
      latencies_ms ++ spec.ok_latencies lines) ∧
  foldlM scan_line_native (cold_start_ms, latencies_ms) lines =
  foldlM scan_line (cold_start_ms, latencies_ms) lines.
Proof.
  revert cold_start_ms latencies_ms.
  induction lines as [|line lines IH]; intros cold_start_ms latencies_ms.
  - split; [|done]. cbn. by rewrite app_nil_r.
  - cbn [foldlM]. destruct (scan_line_step cold_start_ms latencies_ms line) as [-> ->].
    rewrite !bind_Ok. destruct (IH
      (match spec.cold_start_line line with Some v => Some v | None => cold_start_ms end)
      (latencies_ms ++ spec.ok_latencies [line])) as [-> ->].
    split; [|done]. f_equal. f_equal.
    + unfold spec.last_cold_start. cbn [omap list_omap].
      destruct (spec.cold_start_line line) as [v|]; [|done].
      rewrite last_cons. by destruct (last _).
    + rewrite <- app_assoc. f_equal. unfold spec.ok_latencies. cbn [omap list_omap].
      by destruct (_ ≫= _).
Qed.

(** C10.  [parse_run_log] (both scripts) never raises; its record holds the
    latencies of exactly the latency lines whose http_code is 200, in line
    order, those of any other status being dropped; and there is no record
    at all when no line gives a cold_start_ms or no line gives a status-200
    latency (or when the file name is not a run-log name). *)
Theorem parse_run_log_status_200 (log : file) :
  parse_run_log log = Ok (spec.run_record_of log) ∧
  (∀ path, res (parse_run_log_native path log) = Ok (spec.run_record_of log)) ∧
  (∀ r, spec.run_record_of log = Some r →
        latencies_ms r = spec.ok_latencies (content log) ∧
        Some (cold_start_ms r) = spec.last_cold_start (content log)) ∧
  (spec.last_cold_start (content log) = None ∨ spec.ok_latencies (content log) = [] →
   spec.run_record_of log = None).
Proof.
  split_and!.
  - unfold parse_run_log, spec.run_record_of.
    destruct (search RUN_LOG_PATTERN (name log)) as [m|]; [|done].
    destruct (scan_lines None [] (content log)) as [-> _]. rewrite bind_Ok.
    cbn [app].
    by destruct (spec.last_cold_start (content log)), (spec.ok_latencies (content log)).
  - intros path. unfold parse_run_log_native, spec.run_record_of.
    destruct (search RUN_LOG_PATTERN (name log)) as [m|]; [|done].
    destruct (scan_lines None [] (content log)) as [E ->]. rewrite E.
    rewrite lift_Ok_bind. cbn [app].
    by destruct (spec.last_cold_start (content log)), (spec.ok_latencies (content log)).
  - intros r. unfold spec.run_record_of.
    destruct (search RUN_LOG_PATTERN (name log)),
      (spec.last_cold_start (content log)), (spec.ok_latencies (content log));
      try done. by intros [= <-].
  - unfold spec.run_record_of. intros [-> | ->];
      destruct (search RUN_LOG_PATTERN (name log)); try done.
    by destruct (spec.last_cold_start (content log)).
Qed.

(** A log with two status-200 requests and one 503. *)
Example parse_run_log_example :
  parse_run_log fixtures.run_log =
  Ok (Some (Run "2025-01-02T03-04-05Z" 12.5 [1.5; 2])).
Proof. reflexivity. Qed.

(** A log whose only request failed gives no record. *)
Example parse_run_log_no_success : parse_run_log fixtures.failed_run_log = Ok None.
Proof. reflexivity. Qed.

End ParseRunLog.

(** ** Run-log names and the order of the files *)

Section RunLogs.
Import re.

#[local] Instance name_le_dec : RelDecision (λ f g : file, String.le (name f) (name g)).
Proof. intros f g. apply _. Defined.

#[local] Instance name_le_total : Total (λ f g : file, String.le (name f) (name g)).
Proof. intros f g. apply (total String.le). Qed.

#[local] Instance name_le_trans : Transitive (λ f g : file, String.le (name f) (name g)).
Proof. intros f g h. apply (transitivity (R := String.le)). Qed.

(** [sorted(path.glob(...))]: the files of the directory with the suffix, in
    ascending order of their names. *)
Lemma sorted_glob_spec (fs : filesystem) (path suffix : string) :
  Sorted (λ f g, String.le (name f) (name g)) (sorted_glob fs path suffix) ∧
  sorted_glob fs path suffix ≡ₚ
  filter (λ f, ends_with suffix (name f)) (default [] (fs !! path)).
Proof.
  unfold sorted_glob. split.
  - apply (Sorted_merge_sort _).
  - apply merge_sort_Permutation.
Qed.

Lemma sorted_glob_missing (fs : filesystem) (path suffix : string) :
  fs !! path = None → sorted_glob fs path suffix = [].
Proof. intros H. unfold sorted_glob. by rewrite H. Qed.

Lemma substring_full (s : string) : String.substring 0 (String.length s) s = s.
Proof. induction s as [|c s IH]; [done|]. cbn. by rewrite IH. Qed.

Lemma substring_split (s : string) (i : nat) :
  (i ≤ String.length s)%nat →
  s = String.substring 0 i s +:+ String.substring i (String.length s - i) s.
Proof.
  revert i. induction s as [|c s IH]; intros i Hi.
  - by destruct i.
  - destruct i as [|i].
    + rewrite Nat.sub_0_r, substring_full. by destruct s.
    + cbn [String.substring String.length] in *. rewrite append_cons. f_equal.
      apply IH. lia.
Qed.

Lemma ends_with_split (suffix n : string) :
  ends_with suffix n = true → ∃ w, n = w +:+ suffix.
Proof.
  unfold ends_with. intros [Hlen Heq]%andb_true_iff.
  apply Nat.leb_le in Hlen. apply String.eqb_eq in Heq.
  exists (String.substring 0 (String.length n - String.length suffix) n).
  pose proof (substring_split n (String.length n - String.length suffix)) as E.
  replace (String.length n - (String.length n - String.length suffix))%nat
    with (String.length suffix) in E by lia.
  rewrite Heq in E. apply E. lia.
Qed.

Lemma substring_suffix (a b : string) :
  String.substring (String.length a) (String.length b) (a +:+ b) = b.
Proof.
  induction a as [|c a IH].
  - rewrite append_nil_l. cbn [String.length]. clear.
    induction b as [|c b IH]; [done|]. cbn. by rewrite IH.
  - rewrite append_cons. cbn. apply IH.
Qed.

(** A name with the suffix and no line break is accepted by the name
    pattern of the loaders. *)
Lemma run_log_name_accepted (w : string) :
  all_chars not_newline w = true →
  is_Some (match_ cpu_hash_comparison.RUN_LOG_PATTERN (w +:+ "_run.log")).
Proof.
  unfold match_, cpu_hash_comparison.RUN_LOG_PATTERN. cbn [seq foldr run].
  induction w as [|c w IH]; intros Hw.
  - rewrite append_nil_l. by eexists.
  - rewrite append_cons. simpl in Hw. apply andb_true_iff in Hw as [Hc Hw].
    rewrite Hc. destruct (IH Hw) as [m ->]. by eexists.
Qed.

(** Conversely a name with the suffix that the pattern accepts has no line
    break. *)
Lemma run_log_name_no_newline (n : string) :
  ends_with "_run.log" n = true →
  is_Some (match_ cpu_hash_comparison.RUN_LOG_PATTERN n) →
  all_chars not_newline n = true.
Proof.
  intros Hend [m Hm]. apply match_sound in Hm as (w & rest & -> & Hm).
  unfold cpu_hash_comparison.RUN_LOG_PATTERN in Hm. split_match.
  rewrite !append_nil_r.
  match goal with H : _ ∨ _ |- _ => rewrite append_nil_l in H; destruct H as [->| ->] end.
  - rewrite append_nil_r, all_chars_append.
    match goal with H : all_chars _ _ = true |- _ => by rewrite H end.
  - exfalso. revert Hend. unfold ends_with.
    rewrite !append_nil_r.
    match goal with |- context [(?a +:+ "_run.log") +:+ nl] =>
      replace ((a +:+ "_run.log") +:+ nl) with ((a +:+ "_") +:+ ("run.log" +:+ nl))
        by (by rewrite !append_assoc)
    end.
    rewrite length_append.
    replace (String.length _ + String.length ("run.log" +:+ nl) - String.length "_run.log")%nat
      with (String.length (x +:+ "_")) by (cbn [String.length]; rewrite !length_append; cbn; lia).
    change (String.length "_run.log") with (String.length ("run.log" +:+ nl)).
    rewrite substring_suffix. by rewrite andb_false_r.
Qed.

Lemma run_log_name_iff (n : string) :
  ends_with "_run.log" n = true →
  is_Some (match_ cpu_hash_comparison.RUN_LOG_PATTERN n) ↔ all_chars not_newline n = true.
Proof.
  intros Hend. split; [by apply run_log_name_no_newline|].
  intros Hn. destruct (ends_with_split _ _ Hend) as [w ->].
  apply run_log_name_accepted. rewrite all_chars_append in Hn.
  by apply andb_true_iff in Hn as [? _].
Qed.

End RunLogs.

(** ** The order of the loaded samples *)

Section ParseOrder.
Import re.

Lemma scan_lines_scaling (pattern : regex) (samples : gmap Z (list Q)) (lines : list string) :
  foldlM (λ samples line,
            match search pattern line with
            | Some m =>
              conc ← pyint (group m 1);
              throughput ← pyfloat (group m 2);
              Ok (cpu_hash_scaling.append_at samples conc throughput)
            | None => Ok samples
            end)
         samples lines =
  pairs ← mapM spec.convert_pair (spec.captured2 pattern 1 2 lines);
  Ok (foldl (λ m p, cpu_hash_scaling.append_at m p.1 p.2) samples pairs).
Proof.
  unfold spec.convert_pair.
  revert samples. induction lines as [|line lines IH]; intros samples; [done|].
  cbn [foldlM]. unfold spec.captured2. cbn [omap list_omap].
  fold (spec.captured2 pattern 1 2 lines).
  destruct (search pattern line) as [m|]; cbn [fmap option_fmap option_map].
  - rewrite mapM_cons. cbn [fst snd].
    destruct (pyint (group m 1)) as [conc|]; cbn [mbind result_bind]; [|done].
    destruct (pyfloat (group m 2)) as [throughput|]; cbn [mbind result_bind]; [|done].
    rewrite IH. by destruct (mapM _ _).
  - apply IH.
Qed.

Lemma scan_files_scaling (name_pattern pattern : regex) (samples : gmap Z (list Q))
    (logs : list file) :
  foldlM (λ samples log,
            match match_ name_pattern (name log) with
            | None => Ok samples
            | Some _ =>
              foldlM (λ samples line,
                        match search pattern line with
                        | Some m =>
                          conc ← pyint (group m 1);
                          throughput ← pyfloat (group m 2);
                          Ok (cpu_hash_scaling.append_at samples conc throughput)
                        | None => Ok samples
                        end)
                     samples (content log)
            end)
         samples logs =
  pairs ← mapM spec.convert_pair
            (concat (map (λ log, spec.captured2 pattern 1 2 (content log))
                         (filter (λ log, is_Some (match_ name_pattern (name log))) logs)));
  Ok (foldl (λ m p, cpu_hash_scaling.append_at m p.1 p.2) samples pairs).
Proof.
  revert samples. induction logs as [|log logs IH]; intros samples; [done|].
  cbn [foldlM]. rewrite filter_cons.
  destruct (match_ name_pattern (name log)) as [m|] eqn:Hm.
  - rewrite decide_True by by eexists. cbn [map concat].
    rewrite scan_lines_scaling, mapM_app, !bind_assoc.
    destruct (mapM spec.convert_pair (spec.captured2 pattern 1 2 (content log)))
      as [ps|]; [|done].
    rewrite !bind_Ok, IH, !bind_assoc.
    destruct (mapM spec.convert_pair _) as [qs|]; [|done].
    rewrite !bind_Ok. by rewrite foldl_app.
  - rewrite decide_False by (by intros [? ?]). rewrite bind_Ok. apply IH.
Qed.

(** What the grouped mapping holds for a concurrency level. *)
Lemma foldl_append_at_lookup (pairs : list (Z * Q)) (samples : gmap Z (list Q)) (c : Z) :
  foldl (λ m p, cpu_hash_scaling.append_at m p.1 p.2) samples pairs !! c =
  match spec.samples_at c pairs with
  | [] => samples !! c
  | vs => Some (default [] (samples !! c) ++ vs)
  end.
Proof.
  revert samples. induction pairs as [|[conc t] pairs IH]; intros samples; [done|].
  cbn [foldl fst snd]. rewrite IH. unfold spec.samples_at. rewrite filter_cons.
  cbn [fst]. unfold cpu_hash_scaling.append_at. destruct (decide (conc = c)) as [->|Hne].
  - rewrite lookup_insert_eq. cbn [fmap list_fmap default snd].
    destruct ((filter _ pairs).*2) as [|v vs]; [done|].
    unfold id. by rewrite <- app_assoc.
  - by rewrite lookup_insert_ne.
Qed.

Lemma StronglySorted_filter {A} (R : relation A) (P : A → Prop) `{∀ x, Decision (P x)}
    (l : list A) :
  StronglySorted R l → StronglySorted R (filter P l).
Proof.
  induction 1 as [|x l Hl IH Hx]; [constructor|].
  rewrite filter_cons. destruct (decide (P x)); [|done].
  constructor; [done|]. apply Forall_forall. intros y Hy.
  apply list_elem_of_filter in Hy as [_ Hy].
  eapply Forall_forall in Hx; done.
Qed.

(** The run logs: the files of the directory named [*_run.log] without a
    line break in the name, in ascending order of their names. *)
Lemma run_logs_spec (fs : filesystem) (path : string) :
  let logs := spec.run_logs cpu_hash_comparison.RUN_LOG_PATTERN fs path in
  Sorted (λ f g, String.le (name f) (name g)) logs ∧
  logs ≡ₚ filter (λ f, ends_with "_run.log" (name f) = true ∧
                       all_chars not_newline (name f) = true)
                 (default [] (fs !! path)).
Proof.
  unfold spec.run_logs. cbn zeta. destruct (sorted_glob_spec fs path "_run.log") as [Hs Hp].
  split.
  - apply StronglySorted_Sorted, StronglySorted_filter.
    apply Sorted_StronglySorted; [|done].
    intros f g h. apply (transitivity (R := String.le)).
  - rewrite Hp, list_filter_filter. apply reflexive_eq, list_filter_iff.
    intros f. split.
    + intros [Hm He]. apply Is_true_true in He. split; [done|].
      by apply run_log_name_iff.
    + intros [He Hn]. split; [|by apply Is_true_true]. by apply run_log_name_iff.
Qed.

(** C9, as amended.  For every directory the loaders take the files named
    [*_run.log] whose name the name pattern accepts (those without a line
    break), in ascending order of their names, and in each file the lines
    in order; a line without a match contributes nothing.  The texts captured
    on the matching lines are converted in that order: [load_samples] returns
    the converted values (grouped by concurrency for the scaling logs) when
    all convert, and raises at the first text that does not. *)
Theorem load_samples_parse_order (fs : filesystem) (path : string) :
  let logs := spec.run_logs cpu_hash_comparison.RUN_LOG_PATTERN fs path in
  Sorted (λ f g, String.le (name f) (name g)) logs ∧
  logs ≡ₚ filter (λ f, ends_with "_run.log" (name f) = true ∧
                       all_chars not_newline (name f) = true)
                 (default [] (fs !! path)) ∧
  (∀ pattern g line lines,
     search pattern line = None →
     spec.captured pattern g (line :: lines) = spec.captured pattern g lines) ∧
  cpu_hash_comparison.load_samples fs path =
    mapM pyfloat
      (concat (map (λ log, spec.captured cpu_hash_comparison.OUTER_MS_PATTERN 1 (content log))
                   logs)) ∧
  ∃ grouped : list (Z * Q) → gmap Z (list Q),
    (∀ pairs c, grouped pairs !! c =
                match spec.samples_at c pairs with [] => None | vs => Some vs end) ∧
    cpu_hash_scaling.load_samples fs path =
      pairs ← mapM spec.convert_pair
                (concat (map (λ log, spec.captured2 cpu_hash_scaling.SCALE_LINE_PATTERN 1 2
                                       (content log))
                             logs));
      Ok (grouped pairs).
Proof.
  cbn zeta. destruct (run_logs_spec fs path) as [Hsorted Hperm].
  split; [exact Hsorted|]. split; [exact Hperm|]. split.
  { intros pattern g line lines Hnone. unfold spec.captured. cbn [omap list_omap].
    by rewrite Hnone. }
  split.
  - unfold cpu_hash_comparison.load_samples, spec.run_logs.
    rewrite scan_files_append. by destruct (mapM pyfloat _).
  - exists (foldl (λ m p, cpu_hash_scaling.append_at m p.1 p.2) ∅). split.
    + intros pairs c. rewrite foldl_append_at_lookup, lookup_empty.
      by destruct (spec.samples_at c pairs).
    + unfold cpu_hash_scaling.load_samples, spec.run_logs.
      by rewrite scan_files_scaling.
Qed.

(** A log line that ends its sentence with a full stop: the pattern captures
    the text "12.5." and its conversion raises, so no sample sequence is
    loaded at all. *)
Lemma load_samples_trailing_dot :
  spec.captured cpu_hash_comparison.OUTER_MS_PATTERN 1
    ["run=1 outer_ms=10.0"; "finished, outer_ms=12.5."] = ["10.0"; "12.5."] ∧
  cpu_hash_comparison.load_samples fixtures.sentence_fs "results/raw/native/cpu-hash" =
  Raise ValueError.
Proof. split; reflexivity. Qed.

(** The samples of a directory: file [a_run.log] before [b_run.log], other
    files and other lines ignored. *)
Example load_samples_example :
  ∃ l, cpu_hash_comparison.load_samples fixtures.cpu_hash_fs "results/raw/native/cpu-hash"
       = Ok l ∧ Forall2 Qeq l [10; 20; 30].
Proof. eexists. split; [reflexivity|]. repeat constructor. Qed.

End ParseOrder.

(** ** Printing code: sequencing and the collection loop *)

Section IoFacts.

Lemma io_bind_Ok {A B} (m : io A) (f : A → io B) (a : A) :
  res m = Ok a → m ≫= f = IO (out m ++ out (f a)) (res (f a)).
Proof. intros H. unfold mbind, io_bind. by rewrite H. Qed.

Lemma io_bind_Raise {A B} (m : io A) (f : A → io B) (e : exn) :
  res m = Raise e → m ≫= f = IO (out m) (Raise e).
Proof. intros H. unfold mbind, io_bind. by rewrite H. Qed.

Lemma io_eta {A} (m : io A) : IO (out m) (res m) = m.
Proof. by destruct m. Qed.

Lemma mret_bind {A B} (a : A) (f : A → io B) : mret a ≫= f = f a.
Proof. unfold mret, io_ret, mbind, io_bind. cbn. apply io_eta. Qed.

Lemma io_bind_assoc {A B C} (m : io A) (f : A → io B) (g : B → io C) :
  (m ≫= f) ≫= g = m ≫= λ a, f a ≫= g.
Proof.
  unfold mbind, io_bind. destruct m as [o [a|e]]; cbn; [|done].
  destruct (f a) as [o' [b|e]]; cbn; [|done]. by rewrite app_assoc.
Qed.

Lemma print_bind {B} (l : line) (f : unit → io B) :
  print l ≫= f = IO (l :: out (f ())) (res (f ())).
Proof. reflexivity. Qed.

Lemma exit_status_Ok {A} (o : list line) (a : A) : exit_status (IO o (Ok a)) = 0%Z.
Proof. reflexivity. Qed.

Lemma exit_status_bind {A B} (m : io A) (f : A → io B) (a : A) :
  res m = Ok a → exit_status (m ≫= f) = exit_status (f a).
Proof. intros H. by rewrite (io_bind_Ok _ _ _ H). Qed.

Lemma collect_loop_spec {S} (load : string → string → result S) (truthy : S → bool)
    (then_ : string → S → io unit) (warn : string → string → line)
    (RUNTIMES : list (string * string)) (data : list (string * S)) :
  (∀ rt path, (rt, path) ∈ RUNTIMES →
     ∃ s, load rt path = Ok s ∧ (truthy s = true → res (then_ rt s) = Ok ())) →
  ∃ o,
    foldlIO (λ data '(rt, path),
               samples ← lift (load rt path);
               if truthy samples then
                 _ ← then_ rt samples; mret (data ++ [(rt, samples)])
               else
                 _ ← print (warn rt path); mret data)
            data RUNTIMES =
    IO o (Ok (data ++ flat_map (λ '(rt, path),
                                  match load rt path with
                                  | Ok s => if truthy s then [(rt, s)] else []
                                  | Raise _ => []
                                  end) RUNTIMES)) ∧
    (∀ rt path s, (rt, path) ∈ RUNTIMES → load rt path = Ok s → truthy s = false →
                  warn rt path ∈ o) ∧
    (∀ rt path s l, (rt, path) ∈ RUNTIMES → load rt path = Ok s → truthy s = true →
                    l ∈ out (then_ rt s) → l ∈ o).
Proof.
  revert data. induction RUNTIMES as [|[rt path] rts IH]; intros data Hload.
  - exists []. cbn. rewrite app_nil_r. split; [done|].
    split; intros; by match goal with H : _ ∈ [] |- _ => apply elem_of_nil in H end.
  - destruct (Hload rt path) as (s & Hs & Hthen); [by left|].
    cbn [foldlIO flat_map]. rewrite Hs, lift_Ok_bind.
    destruct (truthy s) eqn:Ht.
    + destruct (IH (data ++ [(rt, s)])) as (o & Ho & Hw & Ht').
      { intros rt' path' Hin. apply Hload. by right. }
      exists (out (then_ rt s) ++ o).
      rewrite io_bind_assoc, (io_bind_Ok _ _ () (Hthen eq_refl)), mret_bind.
      rewrite Ho. cbn [out res]. rewrite <- app_assoc. split; [done|]. split.
      * intros rt' path' s' [[= -> ->]|Hin]%elem_of_cons Hs' Hf.
        -- rewrite Hs in Hs'. injection Hs' as <-. congruence.
        -- apply elem_of_app. right. by eapply Hw.
      * intros rt' path' s' l [[= -> ->]|Hin]%elem_of_cons Hs' Hf Hl.
        -- rewrite Hs in Hs'. injection Hs' as <-. apply elem_of_app. by left.
        -- apply elem_of_app. right. by eapply Ht'.
    + destruct (IH data) as (o & Ho & Hw & Ht').
      { intros rt' path' Hin. apply Hload. by right. }
      exists (warn rt path :: o).
      rewrite io_bind_assoc, print_bind, mret_bind, Ho. cbn [out res].
      split; [done|]. split.
      * intros rt' path' s' [[= -> ->]|Hin]%elem_of_cons Hs' Hf.
        -- by left.
        -- right. by eapply Hw.
      * intros rt' path' s' l [[= -> ->]|Hin]%elem_of_cons Hs' Hf Hl.
        -- rewrite Hs in Hs'. injection Hs' as <-. congruence.
        -- right. by eapply Ht'.
Qed.

(** The collection loop when no load raises: the runtimes with data are
    kept in order, a warning is printed for each of the others. *)
Lemma collect_runtimes_spec {S} (load : string → string → result S) (truthy : S → bool)
    (then_ : string → S → io unit) (warn : string → string → line)
    (RUNTIMES : list (string * string)) :
  (∀ rt path, (rt, path) ∈ RUNTIMES →
     ∃ s, load rt path = Ok s ∧ (truthy s = true → res (then_ rt s) = Ok ())) →
  ∃ o,
    collect_runtimes load truthy then_ warn RUNTIMES =
    IO o (Ok (flat_map (λ '(rt, path),
                          match load rt path with
                          | Ok s => if truthy s then [(rt, s)] else []
                          | Raise _ => []
                          end) RUNTIMES)) ∧
    (∀ rt path s, (rt, path) ∈ RUNTIMES → load rt path = Ok s → truthy s = false →
                  warn rt path ∈ o) ∧
    (∀ rt path s l, (rt, path) ∈ RUNTIMES → load rt path = Ok s → truthy s = true →
                    l ∈ out (then_ rt s) → l ∈ o).
Proof. intros H. apply (collect_loop_spec load truthy then_ warn RUNTIMES [] H). Qed.

(** No runtime has data: one warning each, and nothing is kept. *)
Lemma collect_runtimes_nothing {S} (load : string → string → result S) (truthy : S → bool)
    (then_ : string → S → io unit) (warn : string → string → line)
    (RUNTIMES : list (string * string)) :
  (∀ rt path, (rt, path) ∈ RUNTIMES → ∃ s, load rt path = Ok s ∧ truthy s = false) →
  collect_runtimes load truthy then_ warn RUNTIMES =
  IO (map (λ '(rt, path), warn rt path) RUNTIMES) (Ok []).
Proof.
  unfold collect_runtimes. generalize (@nil (string * S)).
  induction RUNTIMES as [|[rt path] rts IH]; intros data Hload; [done|].
  destruct (Hload rt path) as (s & Hs & Ht); [by left|].
  cbn [foldlIO map]. rewrite Hs, lift_Ok_bind, Ht, io_bind_assoc, print_bind, mret_bind.
  rewrite IH; [done|]. intros rt' path' Hin. apply Hload. by right.
Qed.

End IoFacts.

(** ** Exit status of the scripts *)

Section ExitStatus.

Lemma exit_status_then {A B} (m : io A) (f : A → io B) :
  (∀ a, ∃ b, res (f a) = Ok b) → exit_status (m ≫= f) = exit_status m.
Proof.
  intros Hf. unfold exit_status, mbind, io_bind.
  destruct (res m) as [a|e]; [|done]. cbn. by destruct (Hf a) as [b ->].
Qed.

Lemma exit_status_out {A} (o o' : list line) (r : result A) :
  exit_status (IO o r) = exit_status (IO o' r).
Proof. reflexivity. Qed.

(** A script made of the collection loop and a continuation is a
    [loop_script]. *)
Lemma loop_script_intro {S} (RUNTIMES : list (string * string))
    (load : string → string → result S) (truthy : S → bool)
    (warn : string → string → line)
    (main : (list (string * S) → io unit) → io unit) (status : Z) :
  (∀ report o data,
     collect_runtimes load truthy (λ _ _, mret ()) warn RUNTIMES = IO o (Ok data) →
     exit_status (main report) =
     match data with [] => status | _ => exit_status (report data) end) →
  spec.loop_script RUNTIMES load truthy warn
    (collect_runtimes load truthy (λ _ _, mret ()) warn RUNTIMES) main status.
Proof.
  intros Hmain Hload.
  destruct (collect_runtimes_spec load truthy (λ _ _, mret ()) warn RUNTIMES)
    as (o & Ho & Hw & _).
  { intros rt path Hin. destruct (Hload rt path Hin) as [s Hs]. by exists s. }
  eexists o, _. split; [exact Ho|]. split; [done|]. split; [exact Hw|].
  intros report. exact (Hmain report o _ Ho).
Qed.

Lemma cpu_hash_scaling_loop (fs : filesystem) :
  spec.loop_script cpu_hash_scaling.RUNTIMES (λ _, cpu_hash_scaling.load_samples fs)
    (λ samples, negb (bool_decide (samples = ∅))) cpu_hash_scaling.no_samples_line
    (cpu_hash_scaling.collect fs) (λ report, cpu_hash_scaling.main report fs) 0.
Proof.
  apply loop_script_intro. intros report o data Hc.
  unfold cpu_hash_scaling.main, cpu_hash_scaling.collect.
  rewrite (exit_status_bind _ _ data) by by rewrite Hc. by destruct data.
Qed.

Lemma wasm_hello_loop (fs : filesystem) :
  spec.loop_script wasm_hello_comparison.RUNTIMES (λ _, wasm_hello_comparison.load_samples fs)
    nonempty wasm_hello_comparison.no_samples_line
    (wasm_hello_comparison.collect fs) (λ report, wasm_hello_comparison.main report fs) 0.
Proof.
  apply loop_script_intro. intros report o data Hc.
  unfold wasm_hello_comparison.main, wasm_hello_comparison.collect.
  rewrite (exit_status_bind _ _ data) by by rewrite Hc. by destruct data.
Qed.

Lemma http_hello_all_loop (fs : filesystem) :
  spec.loop_script http_hello_all.RUNTIMES (http_hello_all.load_runtime fs)
    nonempty http_hello_all.no_runs_line
    (http_hello_all.collect fs) (λ report, http_hello_all.main report fs) 0.
Proof.
  apply loop_script_intro. intros report o data Hc.
  unfold http_hello_all.main, http_hello_all.collect.
  rewrite (exit_status_bind _ _ data) by by rewrite Hc. by destruct data.
Qed.

Lemma http_hello_scaling_loop (fs : filesystem) :
  spec.loop_script http_hello_scaling.RUNTIMES (λ _, http_hello_scaling.load_samples fs)
    (λ samples, negb (bool_decide (samples = ∅))) http_hello_scaling.no_samples_line
    (http_hello_scaling.collect fs) (λ report, http_hello_scaling.main report fs) 1.
Proof.
  apply loop_script_intro. intros report o data Hc.
  unfold http_hello_scaling.main, http_hello_scaling.collect.
  rewrite (exit_status_bind _ _ data) by by rewrite Hc.
  destruct data as [|d data]; [done|].
  apply exit_status_then. intros []. by eexists.
Qed.

Lemma http_hello_stateful_loop (fs : filesystem) :
  spec.loop_script http_hello_stateful.RUNTIMES
    (λ _, http_hello_stateful.load_samples_by_path fs)
    (λ path_data, negb (bool_decide (path_data = ∅))) http_hello_stateful.no_samples_line
    (http_hello_stateful.collect fs) (λ report, http_hello_stateful.main report fs) 1.
Proof.
  apply loop_script_intro. intros report o data Hc.
  unfold http_hello_stateful.main, http_hello_stateful.collect.
  rewrite (exit_status_bind _ _ data) by by rewrite Hc.
  destruct data as [|d data]; [done|].
  match goal with |- exit_status (?w ≫= _) = _ =>
    rewrite (exit_status_bind w _ ()) by (by destruct (existsb _ _)) end.
  apply exit_status_then. intros []. by eexists.
Qed.

(** Without run logs every loader returns its empty collection. *)
Lemma loaders_without_run_logs (fs : filesystem) (path : string) :
  sorted_glob fs path "_run.log" = [] →
  cpu_hash_comparison.load_samples fs path = Ok [] ∧
  cpu_hash_scaling.load_samples fs path = Ok ∅ ∧
  wasm_hello_comparison.load_samples fs path = Ok [] ∧
  (∀ rt, http_hello_all.load_runtime fs rt path = Ok []) ∧
  http_hello_scaling.load_samples fs path = Ok ∅ ∧
  http_hello_stateful.load_samples_by_path fs path = Ok ∅ ∧
  (∀ pattern convert_func,
     generate_summary.load_samples fs path pattern convert_func = Ok []).
Proof.
  intros H.
  unfold cpu_hash_comparison.load_samples, cpu_hash_scaling.load_samples,
    wasm_hello_comparison.load_samples, http_hello_all.load_runtime,
    http_hello_scaling.load_samples, http_hello_stateful.load_samples_by_path,
    generate_summary.load_samples.
  rewrite H. split_and!; try done. intros pattern convert_func. by destruct (negb _).
Qed.

Lemma cpu_hash_comparison_no_data (fs : filesystem) scipy plots :
  (∀ path, sorted_glob fs path "_run.log" = []) →
  cpu_hash_comparison.main scipy plots fs =
  IO (map (λ '(rt, path), cpu_hash_comparison.no_samples_line rt path)
          cpu_hash_comparison.RUNTIMES ++ [[FStr "No cpu-hash data found."]])
     (Ok ()).
Proof.
  intros H. unfold cpu_hash_comparison.main, cpu_hash_comparison.collect.
  rewrite collect_runtimes_nothing.
  - reflexivity.
  - intros rt path _. exists []. split; [|done].
    by destruct (loaders_without_run_logs fs path (H path)) as [-> _].
Qed.

Lemma generate_summary_no_data (fs : filesystem) :
  (∀ path, sorted_glob fs path "_run.log" = []) →
  generate_summary.collect fs =
  IO [] (Ok (map (λ b, (generate_summary.bench_key b, [])) generate_summary.BENCHMARKS)).
Proof.
  intros H. unfold generate_summary.collect.
  assert (Hb : ∀ b, generate_summary.collect_benchmark fs b = IO [] (Ok [])).
  { intros b. unfold generate_summary.collect_benchmark.
    match goal with |- foldlIO ?f [] ?l = _ =>
      cut (∀ acc, foldlIO f acc l = IO [] (Ok acc)); [intros Hc; apply Hc|] end.
    induction (generate_summary.bench_runtimes b) as [|[rt dir] l IH]; intros acc; [done|].
    cbn [foldlIO].
    destruct (loaders_without_run_logs fs dir (H dir)) as (_ & _ & _ & _ & _ & _ & ->).
    by rewrite lift_Ok_bind, mret_bind, IH. }
  unfold generate_summary.BENCHMARKS. cbn [foldlIO map]. rewrite !Hb.
  reflexivity.
Qed.

Lemma loop_script_no_data {S} RUNTIMES (load : string → string → result S) truthy warn
    collect main status (empty : S) :
  spec.loop_script RUNTIMES load truthy warn collect main status →
  truthy empty = false →
  (∀ rt path, (rt, path) ∈ RUNTIMES → load rt path = Ok empty) →
  ∀ report, exit_status (main report) = status.
Proof.
  intros Hloop Hempty Hload report.
  destruct Hloop as (o & data & _ & Hdata & _ & Hstatus).
  { intros rt path Hin. exists empty. by apply Hload. }
  rewrite Hstatus. replace data with (@nil (string * S)); [done|].
  rewrite Hdata. clear Hdata Hstatus.
  induction RUNTIMES as [|[rt path] l IH]; [done|].
  cbn [flat_map]. rewrite (Hload rt path) by by left. rewrite Hempty. cbn [app].
  apply IH. intros rt' path' Hin. apply Hload. by right.
Qed.

(** C5, as amended.  The five scripts that loop over their runtimes before a
    reporting stage print the warning of every runtime without data and,
    when some runtime has data, end with the exit status of the reporting
    stage; when no runtime has data, cpu-hash scaling, hello-wasm and
    http-hello-all return normally, while http-hello scaling and http-hello
    stateful both exit with status 1.  Without any run log the cpu-hash
    comparison and native http-hello scripts return normally and the summary
    generator goes on to its reports with empty results; the cold-start
    script returns normally when its CSV file is missing or has no row. *)
Theorem exit_status_missing_data (fs : filesystem) :
  (spec.loop_script cpu_hash_scaling.RUNTIMES (λ _, cpu_hash_scaling.load_samples fs)
     (λ samples, negb (bool_decide (samples = ∅))) cpu_hash_scaling.no_samples_line
     (cpu_hash_scaling.collect fs) (λ report, cpu_hash_scaling.main report fs) 0 ∧
   spec.loop_script wasm_hello_comparison.RUNTIMES
     (λ _, wasm_hello_comparison.load_samples fs)
     nonempty wasm_hello_comparison.no_samples_line
     (wasm_hello_comparison.collect fs) (λ report, wasm_hello_comparison.main report fs) 0 ∧
   spec.loop_script http_hello_all.RUNTIMES (http_hello_all.load_runtime fs)
     nonempty http_hello_all.no_runs_line
     (http_hello_all.collect fs) (λ report, http_hello_all.main report fs) 0 ∧
   spec.loop_script http_hello_scaling.RUNTIMES (λ _, http_hello_scaling.load_samples fs)
     (λ samples, negb (bool_decide (samples = ∅))) http_hello_scaling.no_samples_line
     (http_hello_scaling.collect fs) (λ report, http_hello_scaling.main report fs) 1 ∧
   spec.loop_script http_hello_stateful.RUNTIMES
     (λ _, http_hello_stateful.load_samples_by_path fs)
     (λ path_data, negb (bool_decide (path_data = ∅))) http_hello_stateful.no_samples_line
     (http_hello_stateful.collect fs) (λ report, http_hello_stateful.main report fs) 1) ∧
  ((∀ path, sorted_glob fs path "_run.log" = []) →
   (∀ report, exit_status (cpu_hash_scaling.main report fs) = 0%Z) ∧
   (∀ report, exit_status (wasm_hello_comparison.main report fs) = 0%Z) ∧
   (∀ report, exit_status (http_hello_all.main report fs) = 0%Z) ∧
   (∀ report, exit_status (http_hello_scaling.main report fs) = 1%Z) ∧
   (∀ report, exit_status (http_hello_stateful.main report fs) = 1%Z) ∧
   (∀ scipy plots plots',
      exit_status (cpu_hash_comparison.script scipy plots plots' fs) = 0%Z) ∧
   (∀ report, exit_status (native_http_hello.main report fs) = 0%Z) ∧
   (∀ reports,
      exit_status (generate_summary.main reports fs) =
      exit_status (reports (map (λ b, (generate_summary.bench_key b, []))
                                generate_summary.BENCHMARKS)))) ∧
  (∀ plots, exit_status (cold_start.main plots None) = 0%Z ∧
            exit_status (cold_start.main plots (Some [])) = 0%Z).
Proof.
  split; [|split].
  - split_and!.
    + apply cpu_hash_scaling_loop.
    + apply wasm_hello_loop.
    + apply http_hello_all_loop.
    + apply http_hello_scaling_loop.
    + apply http_hello_stateful_loop.
  - intros H.
    assert (Hl := λ path, loaders_without_run_logs fs path (H path)).
    split_and!.
    + apply (loop_script_no_data _ _ _ _ _ _ _ ∅ (cpu_hash_scaling_loop fs)); [done|].
      intros rt path _. by destruct (Hl path) as (_ & -> & _).
    + apply (loop_script_no_data _ _ _ _ _ _ _ [] (wasm_hello_loop fs)); [done|].
      intros rt path _. by destruct (Hl path) as (_ & _ & -> & _).
    + apply (loop_script_no_data _ _ _ _ _ _ _ [] (http_hello_all_loop fs)); [done|].
      intros rt path _. by destruct (Hl path) as (_ & _ & _ & -> & _).
    + apply (loop_script_no_data _ _ _ _ _ _ _ ∅ (http_hello_scaling_loop fs)); [done|].
      intros rt path _. by destruct (Hl path) as (_ & _ & _ & _ & -> & _).
    + apply (loop_script_no_data _ _ _ _ _ _ _ ∅ (http_hello_stateful_loop fs)); [done|].
      intros rt path _. by destruct (Hl path) as (_ & _ & _ & _ & _ & -> & _).
    + intros scipy plots plots'. unfold cpu_hash_comparison.script.
      rewrite !cpu_hash_comparison_no_data by done. by destruct scipy.
    + intros report. unfold native_http_hello.main. by rewrite H.
    + intros reports. unfold generate_summary.main.
      rewrite (exit_status_bind _ _ ()) by done.
      rewrite (exit_status_bind _ _ _ (f_equal res (generate_summary_no_data fs H))).
      rewrite (exit_status_bind _ _ ()) by done.
      apply exit_status_then. intros []. by eexists.
  - intros plots. split; reflexivity.
Qed.

Lemma exit_status_missing_data_witness :
  exit_status (cpu_hash_scaling.main (λ _, mret ()) ∅) = 0%Z ∧
  exit_status (http_hello_scaling.main (λ _, mret ()) ∅) = 1%Z.
Proof.
  destruct (exit_status_missing_data ∅) as (_ & H & _).
  destruct H as (H1 & _ & _ & H4 & _).
  { intros path. unfold sorted_glob. by rewrite lookup_empty. }
  split; [apply H1|apply H4].
Defined.

(** With no data at all two scripts, not one, exit with a non-zero status. *)
Lemma two_scripts_exit_nonzero :
  exit_status (http_hello_scaling.main (λ _, mret ()) ∅) = 1%Z ∧
  exit_status (http_hello_stateful.main (λ _, mret ()) ∅) = 1%Z.
Proof. split; reflexivity. Qed.

End ExitStatus.

(** ** Missing logs *)

Section MissingLogs.

Lemma sorted_glob_no_match (fs : filesystem) (path suffix : string) (files : list file) :
  fs !! path = Some files →
  Forall (λ f, ends_with suffix (name f) = false) files →
  sorted_glob fs path suffix = [].
Proof.
  intros Hdir Hnone. apply Permutation_nil_r.
  destruct (sorted_glob_spec fs path suffix) as [_ ->]. rewrite Hdir. simpl.
  clear Hdir. induction Hnone as [|f l Hf _ IH]; [done|].
  rewrite filter_cons, decide_False; [exact IH|]. rewrite Hf. by intros [].
Qed.

(** C7, as amended.  For a directory that is missing or has no file named
    [*_run.log] the loaders return the empty list, without raising.  The
    main of the cpu-hash comparison then prints the warning of that runtime,
    keeps the samples of the runtimes that have some, and goes on to its
    summary when there is any; the main of the summary generator leaves the
    runtime out without printing anything. *)
Theorem missing_logs_skipped (fs : filesystem) :
  (∀ path, fs !! path = None → sorted_glob fs path "_run.log" = []) ∧
  (∀ path files,
     fs !! path = Some files →
     Forall (λ f, ends_with "_run.log" (name f) = false) files →
     sorted_glob fs path "_run.log" = []) ∧
  (∀ path,
     sorted_glob fs path "_run.log" = [] →
     cpu_hash_comparison.load_samples fs path = Ok [] ∧
     ∀ pattern convert_func,
       generate_summary.load_samples fs path pattern convert_func = Ok []) ∧
  ((∀ rt path, (rt, path) ∈ cpu_hash_comparison.RUNTIMES →
               is_Ok (cpu_hash_comparison.load_samples fs path)) →
   ∃ o data,
     cpu_hash_comparison.collect fs = IO o (Ok data) ∧
     data = flat_map (λ '(rt, path),
                        match cpu_hash_comparison.load_samples fs path with
                        | Ok s => if nonempty s then [(rt, s)] else []
                        | Raise _ => []
                        end) cpu_hash_comparison.RUNTIMES ∧
     (∀ rt path, (rt, path) ∈ cpu_hash_comparison.RUNTIMES →
                 sorted_glob fs path "_run.log" = [] →
                 cpu_hash_comparison.no_samples_line rt path ∈ o) ∧
     (data ≠ [] →
      ∀ scipy plots, ∃ rest,
        out (cpu_hash_comparison.main scipy plots fs) =
        o ++ [FStr nl; rule "=" 80] :: [FStr "CPU-HASH SUMMARY (execution time)"] :: rest)) ∧
  ((∀ path, sorted_glob fs path "_run.log" = []) →
   generate_summary.collect fs =
   IO [] (Ok (map (λ b, (generate_summary.bench_key b, [])) generate_summary.BENCHMARKS))).
Proof.
  split_and!.
  - intros path. apply sorted_glob_missing.
  - intros path files. apply sorted_glob_no_match.
  - intros path H. destruct (loaders_without_run_logs fs path H) as (? & _ & _ & _ & _ & _ & ?).
    done.
  - intros Hload. unfold cpu_hash_comparison.collect.
    match goal with |- context [collect_runtimes ?l ?t ?th ?w ?R] =>
      destruct (collect_runtimes_spec l t th w R) as (o & Ho & Hw & _) end.
    { intros rt path Hin. destruct (Hload rt path Hin) as [s Hs]. exists s.
      split; [done|]. intros _. by destruct (decide _). }
    eexists o, _. split; [exact Ho|]. split; [done|]. split.
    + intros rt path Hin Hglob. apply (Hw rt path [] Hin); [|done].
      by destruct (loaders_without_run_logs fs path Hglob) as [-> _].
    + intros Hdata scipy plots. unfold cpu_hash_comparison.main, cpu_hash_comparison.collect.
      rewrite Ho. erewrite io_bind_Ok by reflexivity. cbn [out res].
      match goal with |- context [flat_map ?f ?R] => destruct (flat_map f R) as [|d l] end;
        [done|].
      rewrite !print_bind. cbn [out]. by eexists.
  - apply generate_summary_no_data.
Qed.

Lemma missing_logs_skipped_witness :
  ∃ o data,
    cpu_hash_comparison.collect fixtures.cpu_hash_fs = IO o (Ok data) ∧
    cpu_hash_comparison.no_samples_line "docker" "results/raw/docker/cpu-hash" ∈ o ∧
    data.*1 = ["native"].
Proof.
  destruct (missing_logs_skipped fixtures.cpu_hash_fs) as (_ & _ & _ & H & _).
  destruct H as (o & data & Hc & Hdata & Hw & _).
  { intros rt path Hin. repeat (apply elem_of_cons in Hin as [[= -> ->]|Hin]);
      [by eexists..|by apply elem_of_nil in Hin]. }
  exists o, data. split; [exact Hc|]. split.
  - apply Hw; [|reflexivity]. right; left.
  - by rewrite Hdata.
Defined.

(** With every directory missing, the loop of the summary generator over
    its benchmarks and runtimes prints nothing and gives empty results, and
    the whole run prints its progress lines around what the reports print:
    no warning for any runtime or benchmark. *)
Lemma summary_generator_silent :
  let results := map (λ b, (generate_summary.bench_key b, [])) generate_summary.BENCHMARKS in
  Forall (λ b, Forall (λ '(rt, dir), exists_ (∅ : filesystem) dir = false)
                      (generate_summary.bench_runtimes b))
         generate_summary.BENCHMARKS ∧
  generate_summary.collect ∅ = IO [] (Ok results) ∧
  ∀ reports,
    out (generate_summary.main reports ∅) =
    [FStr "Collecting benchmark results..."] ::
    [FStr nl; FStr "Generating summary reports..."] ::
    out (reports results) ++
    (if res (reports results) is Ok _
     then [[FStr nl; rule "=" 80]; [FStr "Summary generation complete!"]; [rule "=" 80]]
     else []).
Proof.
  cbn zeta. split; [by repeat constructor|]. split; [reflexivity|].
  intros reports. unfold generate_summary.main.
  rewrite print_bind. cbn [out].
  erewrite io_bind_Ok by reflexivity. cbn [out app].
  rewrite print_bind. cbn [out]. do 2 f_equal.
  destruct (reports _) as [o [[]|e]] eqn:Hr.
  - erewrite io_bind_Ok by reflexivity. reflexivity.
  - erewrite io_bind_Raise by reflexivity. cbn [out]. by rewrite app_nil_r.
Qed.

End MissingLogs.

(** ** Insufficient samples *)

Section InsufficientSamples.
Import cold_start cpu_hash_comparison.

(** C6, as amended.  A pair of runtimes of which one has fewer than 3
    samples is skipped by the Mann-Whitney comparison with the line
    "SKIPPED (insufficient samples)"; without scipy nothing is compared,
    the warning having been printed when the module was loaded; the cpu-hash
    main warns about every runtime that has 1 or 2 samples.  The standard
    deviation of a single sample is replaced by 0, and the cold-start
    summary prints it without any message. *)
Theorem insufficient_samples_messages :
  (∀ sp rt1 samples1 rt2 samples2,
     (length samples1 < 3 ∨ length samples2 < 3)%nat →
     compare_pair sp (rt1, samples1) (rt2, samples2) =
     IO [skipped_line rt1 rt2] (Ok ())) ∧
  (∀ data samples,
     compare_runtimes_statistically None data = IO [] (Ok ()) ∧
     compute_confidence_interval None samples = None ∧
     out (import_scipy None) =
     [[FStr "[WARN] scipy not available. Statistical significance tests will be skipped."];
      [FStr "  Install with: pip install scipy"]]) ∧
  (∀ fs,
     (∀ rt path, (rt, path) ∈ RUNTIMES → is_Ok (load_samples fs path)) →
     ∀ rt path samples,
       (rt, path) ∈ RUNTIMES → load_samples fs path = Ok samples →
       (0 < length samples < 3)%nat →
       few_samples_line (length samples) rt ∈ out (collect fs)) ∧
  (∀ data key label e,
     get_entries data key = [e] → labels !! key = Some label →
     ∃ mean median min max,
       print_scenario data key =
       IO (spec.scenario_lines label mean median (PyInt 0) min max ++
           (if contains "full_cold" key
            then spec.breakdown_lines (fsum [build_ms e] / flen [build_ms e])
                                      (fsum [start_ms e] / flen [start_ms e])
            else []))
          (Ok ())).
Proof.
  split_and!.
  - intros sp rt1 samples1 rt2 samples2 Hlen. unfold compare_pair.
    destruct (bool_decide (length samples1 < 3)%nat) eqn:H1; [done|].
    destruct (bool_decide (length samples2 < 3)%nat) eqn:H2; [done|].
    apply bool_decide_eq_false in H1, H2. lia.
  - done.
  - intros fs Hload rt path samples Hin Hs Hlen. unfold collect.
    match goal with |- context [collect_runtimes ?l ?t ?th ?w ?R] =>
      destruct (collect_runtimes_spec l t th w R) as (o & Ho & _ & Ht) end.
    { intros rt' path' Hin'. destruct (Hload rt' path' Hin') as [s Hs']. exists s.
      split; [done|]. intros _. by destruct (decide _). }
    rewrite Ho. cbn [out]. apply (Ht rt path samples _ Hin Hs).
    + destruct samples; [cbn in Hlen; lia|done].
    + rewrite decide_True by lia. by left.
  - intros data key label e He Hlabel. unfold print_scenario. rewrite He.
    cbn [map compute_stats]. unfold statistics.mean at 1, statistics.median.
    cbn [sorted merge_sort length]. unfold getitem. rewrite Hlabel.
    do 4 eexists. destruct (contains "full_cold" key); reflexivity.
Qed.

Lemma insufficient_samples_messages_witness :
  compare_pair (Scipy (λ _, (0, 1)) (λ _ _, 1)) ("native", [10; 20]) ("docker", [11; 21; 31]) =
  IO [skipped_line "native" "docker"] (Ok ()).
Proof.
  destruct insufficient_samples_messages as [H _]. apply H. left. cbn. lia.
Defined.

(** A scenario measured once: the whole summary, with a standard deviation
    of 0 among the statistics and no line that explains the substitution. *)
Lemma cold_start_summary_silent_zero :
  get_entries fixtures.single_run_data "docker_runtime_cold" = [Entry 1 0 250 250] ∧
  ∃ mean, mean == 250 ∧
    print_summary fixtures.single_run_data =
    IO [[FStr nl; rule "=" 70];
        [FStr "Cold Start Comparison: Docker vs Wasmtime"];
        [rule "=" 70];
        [FStr nl; FStr "Docker (Runtime Cold - pre-built image)"; FStr ":"];
        [FStr "  Total time to first HTTP 200:"];
        [FStr "    Mean:   "; FNum ">10.2f" (PyFloat mean); FStr " ms"];
        [FStr "    Median: "; FNum ">10.2f" (PyFloat 250); FStr " ms"];
        [FStr "    Stdev:  "; FNum ">10.2f" (PyInt 0); FStr " ms"];
        [FStr "    Min:    "; FNum ">10.2f" (PyFloat 250); FStr " ms"];
        [FStr "    Max:    "; FNum ">10.2f" (PyFloat 250); FStr " ms"];
        [FStr nl; rule "-" 70];
        [FStr "COMPARISONS:"];
        [rule "=" 70; FStr nl]]
       (Ok ()).
Proof. split; [reflexivity|]. eexists. split; [|reflexivity]. reflexivity. Qed.

End InsufficientSamples.

(** ** Order statistics: what the aggregated values are bounded by *)

Section OrderStatistics.

#[local] Instance Qle_trans' : Transitive Qle.
Proof. intros x y z. apply Qle_trans. Qed.

#[local] Instance Qle_total' : Total Qle.
Proof. intros x y. destruct (Qlt_le_dec x y); [left|right]; auto using Qlt_le_weak. Qed.

(** [min] returns an element that no element is below. *)
Lemma pymin_spec (x : Q) (l : list Q) :
  ∃ m, pymin (x :: l) = Ok m ∧ m ∈ x :: l ∧ ∀ y, y ∈ x :: l → m <= y.
Proof.
  unfold pymin. eexists. split; [reflexivity|].
  revert x. induction l as [|y l IH]; intros x.
  - cbn [foldl]. split; [by left|]. intros y ->%list_elem_of_singleton. apply Qle_refl.
  - cbn [foldl]. destruct (decide (y < x)) as [Hlt|Hge].
    + destruct (IH y) as [Hin Hle]. split; [by right|].
      intros z [->|Hz]%elem_of_cons; [|by apply Hle].
      apply Qle_trans with y; [apply Hle; by left|by apply Qlt_le_weak].
    + destruct (IH x) as [Hin Hle]. split.
      { apply elem_of_cons in Hin as [->|Hin]; [by left|by do 2 right]. }
      intros z [->|[->|Hz]%elem_of_cons]%elem_of_cons.
      * apply Hle. by left.
      * apply Qle_trans with x; [apply Hle; by left|by apply Qnot_lt_le].
      * apply Hle. by right.
Qed.

(** [max] returns an element that no element is above. *)
Lemma pymax_spec (x : Q) (l : list Q) :
  ∃ m, pymax (x :: l) = Ok m ∧ m ∈ x :: l ∧ ∀ y, y ∈ x :: l → y <= m.
Proof.
  unfold pymax. eexists. split; [reflexivity|].
  revert x. induction l as [|y l IH]; intros x.
  - cbn [foldl]. split; [by left|]. intros y ->%list_elem_of_singleton. apply Qle_refl.
  - cbn [foldl]. destruct (decide (x < y)) as [Hlt|Hge].
    + destruct (IH y) as [Hin Hle]. split; [by right|].
      intros z [->|Hz]%elem_of_cons; [|by apply Hle].
      apply Qle_trans with y; [by apply Qlt_le_weak|apply Hle; by left].
    + destruct (IH x) as [Hin Hle]. split.
      { apply elem_of_cons in Hin as [->|Hin]; [by left|by do 2 right]. }
      intros z [->|[->|Hz]%elem_of_cons]%elem_of_cons.
      * apply Hle. by left.
      * apply Qle_trans with x; [by apply Qnot_lt_le|apply Hle; by left].
      * apply Hle. by right.
Qed.

Lemma fsum_bounds (a b : Q) (l : list Q) :
  (∀ y, y ∈ l → a <= y ∧ y <= b) → flen l * a <= fsum l ∧ fsum l <= flen l * b.
Proof.
  induction l as [|x l IH]; intros H.
  - unfold flen, Qle. simpl. lia.
  - destruct IH as [IH1 IH2]; [intros y Hy; apply H; by right|].
    destruct (H x) as [Hx1 Hx2]; [by left|].
    rewrite flen_cons. cbn [fsum foldr]. fold (fsum l). lra.
Qed.

Lemma flen_pos {A} (x : A) (l : list A) : 0 < flen (x :: l).
Proof. rewrite flen_cons. pose proof (flen_nonneg l). lra. Qed.

(** The mean lies between any two bounds of the data. *)
Lemma mean_bounds (a b : Q) (x : Q) (l : list Q) :
  (∀ y, y ∈ x :: l → a <= y ∧ y <= b) →
  a <= fsum (x :: l) / flen (x :: l) ∧ fsum (x :: l) / flen (x :: l) <= b.
Proof.
  intros H. destruct (fsum_bounds a b _ H) as [H1 H2].
  pose proof (flen_pos x l) as Hpos. split.
  - apply Qle_shift_div_l; [done|]. lra.
  - apply Qle_shift_div_r; [done|]. lra.
Qed.

Lemma nth_sorted_elem (l : list Q) (i : nat) :
  (i < length l)%nat → nth i (sorted l) 0 ∈ l.
Proof.
  intros Hi. destruct (lookup_lt_is_Some_2 (sorted l) i) as [x Hx].
  { by rewrite sorted_length. }
  rewrite (nth_lookup_Some _ _ _ _ Hx).
  rewrite <- (sorted_Permutation l). by eapply list_elem_of_lookup_2.
Qed.

(** The median lies between any two bounds of the data. *)
Lemma median_bounds (a b : Q) (x : Q) (l : list Q) :
  (∀ y, y ∈ x :: l → a <= y ∧ y <= b) →
  ∃ md, statistics.median (x :: l) = Ok md ∧ a <= md ∧ md <= b.
Proof.
  intros H. unfold statistics.median. rewrite sorted_length.
  set (n := length (x :: l)). assert (Hn : (0 < n)%nat) by (unfold n; cbn; lia).
  destruct n as [|n'] eqn:En; [lia|]. rewrite <- En.
  destruct (decide (n mod 2 = 1)%nat) as [Hodd|Heven].
  - eexists. split; [reflexivity|]. apply H, nth_sorted_elem.
    fold n. apply Nat.div_lt; lia.
  - eexists. split; [reflexivity|].
    assert (Hdiv : (n / 2 < n)%nat) by (apply Nat.div_lt; lia).
    destruct (H (nth (n / 2 - 1) (sorted (x :: l)) 0)) as [? ?].
    { apply nth_sorted_elem. fold n. lia. }
    destruct (H (nth (n / 2) (sorted (x :: l)) 0)) as [? ?].
    { apply nth_sorted_elem. by fold n. }
    split.
    + apply Qle_shift_div_l; lra.
    + apply Qle_shift_div_r; lra.
Qed.

Lemma Qsquare_nonneg (y : Q) : 0 <= y * y.
Proof.
  destruct (Qlt_le_dec y 0) as [Hneg|Hpos].
  - assert (E : y * y == (- y) * (- y)) by ring. rewrite E.
    apply Qmult_le_0_compat; lra.
  - by apply Qmult_le_0_compat.
Qed.

Lemma fsum_squares_nonneg (c : Q) (l : list Q) : 0 <= statistics.sum_sq_dev c l.
Proof.
  unfold statistics.sum_sq_dev. induction l as [|x l IH]; [done|].
  cbn [map fsum foldr]. fold (fsum (map (λ x, (x - c) * (x - c)) l)).
  pose proof (Qsquare_nonneg (x - c)). lra.
Qed.

(** The radicand of the standard deviation is never negative. *)
Lemma variance_nonneg (data : list Q) (v : Q) :
  statistics.variance data = Ok v → 0 <= v.
Proof.
  unfold statistics.variance. destruct (decide _) as [|Hlen]; [done|].
  intros [= <-]. destruct data as [|x [|y l]]; [cbn in Hlen; lia..|].
  apply Qle_shift_div_l.
  - rewrite flen_cons. pose proof (flen_pos y l). lra.
  - pose proof (fsum_squares_nonneg (fsum (x :: y :: l) / flen (x :: y :: l)) (x :: y :: l)).
    lra.
Qed.

Import cold_start.

(** X1.  [compute_stats] on a non-empty list never raises and returns all
    six statistics: the minimum and the maximum are samples that bound every
    sample, the mean and the median lie between them, the count is the
    number of samples, and the standard deviation is either the integer 0
    (one sample) or the root of a radicand that is not negative. *)
Theorem compute_stats_bounds (values : list Q) :
  values ≠ [] →
  ∃ stats mean median stdev min max,
    compute_stats values = Ok stats ∧
    stats !! "mean" = Some (PyFloat mean) ∧ stats !! "median" = Some (PyFloat median) ∧
    stats !! "stdev" = Some stdev ∧
    stats !! "min" = Some (PyFloat min) ∧ stats !! "max" = Some (PyFloat max) ∧
    stats !! "count" = Some (PyInt (Z.of_nat (length values))) ∧
    min ∈ values ∧ max ∈ values ∧ (∀ v, v ∈ values → min <= v ∧ v <= max) ∧
    (min <= mean ∧ mean <= max) ∧ (min <= median ∧ median <= max) ∧
    match stdev with
    | PyInt z => z = 0%Z ∧ length values = 1%nat
    | PyRoot v => 0 <= v ∧ (2 ≤ length values)%nat
    | PyFloat _ => False
    end.
Proof.
  intros Hne. destruct values as [|x l]; [done|].
  destruct (pymin_spec x l) as (mn & Hmn & Hmn_in & Hmn_le).
  destruct (pymax_spec x l) as (mx & Hmx & Hmx_in & Hmx_le).
  assert (Hb : ∀ y, y ∈ x :: l → mn <= y ∧ y <= mx) by (split; auto).
  destruct (median_bounds mn mx x l Hb) as (md & Hmd & Hmd1 & Hmd2).
  unfold compute_stats. rewrite mean_nonempty, Hmd. cbn [mbind result_bind].
  assert (Hsd : ∃ sd, (if decide (1 < length (x :: l))%nat then statistics.stdev (x :: l)
                       else Ok (PyInt 0)) = Ok sd ∧
                match sd with
                | PyInt z => z = 0%Z ∧ length (x :: l) = 1%nat
                | PyRoot v => 0 <= v ∧ (2 ≤ length (x :: l))%nat
                | PyFloat _ => False
                end).
  { destruct (decide _) as [Hlen|Hlen].
    - unfold statistics.stdev.
      destruct (statistics.variance (x :: l)) as [v|e] eqn:Hv.
      + eexists. split; [reflexivity|]. split; [by eapply variance_nonneg|lia].
      + unfold statistics.variance in Hv. destruct (decide _); [lia|done].
    - eexists. split; [reflexivity|]. split; [done|]. cbn [length] in *. lia. }
  destruct Hsd as (sd & -> & Hsd). rewrite Hmn, Hmx. cbn [mbind result_bind].
  pose proof (mean_bounds mn mx x l Hb) as Hmean.
  eexists _, _, md, sd, mn, mx. split; [reflexivity|].
  do 6 (split; [by simplify_map_eq|]).
  split; [exact Hmn_in|]. split; [exact Hmx_in|]. split; [exact Hb|].
  split; [exact Hmean|]. split; [by split|]. exact Hsd.
Qed.

Lemma compute_stats_bounds_witness :
  ∃ stats mean, compute_stats [30; 10; 20] = Ok stats ∧
    stats !! "mean" = Some (PyFloat mean) ∧ 10 <= mean ∧ mean <= 30.
Proof.
  destruct (compute_stats_bounds [30; 10; 20]) as
    (stats & mean & median & stdev & mn & mx & Hs & Hmean & _ & _ & Hmin & Hmax & _ & _ & _ & _ &
     [H1 H2] & _); [done|].
  exists stats, mean. split; [exact Hs|]. split; [exact Hmean|].
  assert (E : compute_stats [30; 10; 20] = Ok stats) by exact Hs.
  vm_compute in E. injection E as <-. vm_compute in Hmin, Hmax.
  injection Hmin as <-. injection Hmax as <-. done.
Defined.

End OrderStatistics.

(** ** Percentiles: membership, extremes, monotonicity *)

Section PercentileOrder.
Import generate_summary.

#[local] Instance Qle_trans_pct : Transitive Qle.
Proof. intros x y z. apply Qle_trans. Qed.

#[local] Instance Qle_total_pct : Total Qle.
Proof. intros x y. destruct (Qlt_le_dec x y); [left|right]; auto using Qlt_le_weak. Qed.

(** In an ascending list a later position holds a value at least as large. *)
Lemma sorted_lookup_le (l : list Q) (i j : nat) (x y : Q) :
  StronglySorted Qle l → (i ≤ j)%nat → l !! i = Some x → l !! j = Some y → x <= y.
Proof.
  intros Hs. revert i j. induction Hs as [|a l Hs IH Hall]; intros i j Hij Hx Hy; [done|].
  destruct i as [|i], j as [|j]; try lia.
  - cbn in Hx, Hy. injection Hx as <-. injection Hy as <-. apply Qle_refl.
  - cbn in Hx, Hy. injection Hx as <-.
    rewrite Forall_forall in Hall. apply Hall. by eapply list_elem_of_lookup_2.
  - cbn in Hx, Hy. apply (IH i j); [lia|done..].
Qed.

(** The index [calculate_percentile] selects, for a percentile that is not
    negative. *)
Lemma calculate_percentile_lookup (samples : list Q) (p : Z) :
  samples ≠ [] → (0 ≤ p)%Z →
  let n := Z.of_nat (length samples) in
  ∃ x, calculate_percentile samples p = Ok x ∧
       sorted samples !! Z.to_nat (Z.min (n * p / 100) (n - 1)) = Some x.
Proof.
  intros Hne Hp n.
  assert (Hn : (1 ≤ n)%Z).
  { unfold n. destruct samples; [done|]. cbn [length]. lia. }
  set (i := Z.min (n * p / 100) (n - 1)).
  assert (Hi : (0 ≤ i < n)%Z).
  { unfold i. split; [|lia]. apply Z.min_glb; [|lia]. apply Z.div_pos; lia. }
  destruct (lookup_lt_is_Some_2 (sorted samples) (Z.to_nat i)) as [x Hx].
  { rewrite sorted_length. unfold n in Hi. lia. }
  exists x. split; [|exact Hx].
  unfold calculate_percentile. destruct samples as [|y l]; [done|].
  rewrite sorted_length. fold n. rewrite Z.quot_div_nonneg by lia. fold i.
  unfold subscript. destruct (decide (i < 0)%Z); [lia|].
  destruct (decide (i < 0)%Z); [lia|]. by rewrite Hx.
Qed.

(** X2.  For a non-empty list and a percentile that is not negative,
    [calculate_percentile] returns one of the samples; for percentile 0 it
    is the smallest sample, and for any percentile from 100 on it is the
    largest. *)
Theorem calculate_percentile_extremes (samples : list Q) (p : Z) :
  samples ≠ [] → (0 ≤ p)%Z →
  ∃ x, calculate_percentile samples p = Ok x ∧ x ∈ samples ∧
       (p = 0%Z → ∀ y, y ∈ samples → x <= y) ∧
       ((100 ≤ p)%Z → ∀ y, y ∈ samples → y <= x).
Proof.
  intros Hne Hp. destruct (calculate_percentile_lookup samples p Hne Hp) as (x & Hx & Hi).
  cbn zeta in Hi. exists x. split; [exact Hx|].
  pose proof (StronglySorted_merge_sort Qle samples) as Hs. fold (sorted samples) in Hs.
  assert (Hn : (1 ≤ Z.of_nat (length samples))%Z).
  { destruct samples; [done|]. cbn [length]. lia. }
  split; [|split].
  - rewrite <- (sorted_Permutation samples). by eapply list_elem_of_lookup_2.
  - intros -> y Hy. rewrite <- (sorted_Permutation samples) in Hy.
    apply list_elem_of_lookup_1 in Hy as [j Hj].
    rewrite Z.mul_0_r, Zdiv_0_l, Z.min_l in Hi by lia.
    apply (sorted_lookup_le (sorted samples) 0 j); [done|lia|done..].
  - intros H100 y Hy. rewrite <- (sorted_Permutation samples) in Hy.
    apply list_elem_of_lookup_1 in Hy as [j Hj].
    assert (Hj' : (j < length samples)%nat).
    { rewrite <- (sorted_length samples). by eapply lookup_lt_Some. }
    rewrite Z.min_r in Hi.
    2:{ apply Z.div_le_lower_bound; [lia|]. nia. }
    apply (sorted_lookup_le (sorted samples) j (Z.to_nat (Z.of_nat (length samples) - 1)));
      [done|lia|done..].
Qed.

Lemma calculate_percentile_extremes_witness :
  ∃ x, calculate_percentile [30; 10; 20] 100 = Ok x ∧ x ∈ [30; 10; 20] ∧
       ∀ y, y ∈ [30; 10; 20] → y <= x.
Proof.
  destruct (calculate_percentile_extremes [30; 10; 20] 100) as (x & Hx & Hin & _ & Hmax);
    [done|lia|].
  exists x. split; [exact Hx|]. split; [exact Hin|]. apply Hmax. lia.
Defined.

(** X3.  [calculate_percentile] is monotone in the percentile: on the same
    non-empty samples a larger percentile never gives a smaller value. *)
Theorem calculate_percentile_monotone (samples : list Q) (p q : Z) :
  samples ≠ [] → (0 ≤ p ≤ q)%Z →
  ∃ x y, calculate_percentile samples p = Ok x ∧
         calculate_percentile samples q = Ok y ∧ x <= y.
Proof.
  intros Hne [Hp Hpq].
  destruct (calculate_percentile_lookup samples p Hne Hp) as (x & Hx & Hi).
  destruct (calculate_percentile_lookup samples q Hne) as (y & Hy & Hj); [lia|].
  cbn zeta in Hi, Hj. exists x, y. split; [exact Hx|]. split; [exact Hy|].
  pose proof (StronglySorted_merge_sort Qle samples) as Hs. fold (sorted samples) in Hs.
  eapply (sorted_lookup_le (sorted samples)); [exact Hs| |exact Hi|exact Hj].
  apply Z2Nat.inj_le.
  - apply Z.min_glb; [apply Z.div_pos; [apply Z.mul_nonneg_nonneg|]; lia|].
    destruct samples; [done|]. cbn [length]. lia.
  - apply Z.min_glb; [apply Z.div_pos; [apply Z.mul_nonneg_nonneg|]; lia|].
    destruct samples; [done|]. cbn [length]. lia.
  - apply Z.min_le_compat_r, Z.div_le_mono; [lia|]. apply Z.mul_le_mono_nonneg_l; lia.
Qed.

Lemma calculate_percentile_monotone_witness :
  ∃ x y, calculate_percentile [30; 10; 20] 25 = Ok x ∧
         calculate_percentile [30; 10; 20] 75 = Ok y ∧ x <= y.
Proof. apply (calculate_percentile_monotone [30; 10; 20] 25 75); [done|lia]. Defined.

(** X4.  Percentile 50 against [statistics.median]: for an odd number of
    samples the two agree; for an even number [calculate_percentile] takes
    the upper of the two middle samples, which is never below the median. *)
Theorem calculate_percentile_50_median (samples : list Q) :
  samples ≠ [] →
  ∃ x md, calculate_percentile samples 50 = Ok x ∧ statistics.median samples = Ok md ∧
          md <= x ∧ ((length samples) mod 2 = 1%nat → md = x).
Proof.
  intros Hne. destruct (calculate_percentile_lookup samples 50 Hne) as (x & Hx & Hi); [lia|].
  cbn zeta in Hi. exists x.
  set (n := length samples) in *. assert (Hn : (0 < n)%nat).
  { unfold n. destruct samples; [done|]. cbn. lia. }
  assert (Ei : Z.to_nat (Z.min (Z.of_nat n * 50 / 100) (Z.of_nat n - 1)) = (n / 2)%nat).
  { assert (E : (Z.of_nat n * 50 / 100 = Z.of_nat n / 2)%Z).
    { replace 100%Z with (50 * 2)%Z by lia. rewrite Z.mul_comm.
      rewrite Z.div_mul_cancel_l by lia. done. }
    rewrite E, Z.min_l.
    - rewrite <- (Nat2Z.id (n / 2)). f_equal. by rewrite Nat2Z.inj_div.
    - assert (Z.of_nat n / 2 < Z.of_nat n)%Z by (apply Z.div_lt; lia). lia. }
  rewrite Ei in Hi.
  unfold statistics.median. rewrite sorted_length. fold n.
  destruct n as [|n'] eqn:En; [lia|]. rewrite <- En in *.
  destruct (decide (n mod 2 = 1)%nat) as [Hodd|Heven].
  - eexists. split; [exact Hx|]. split; [reflexivity|].
    rewrite (nth_lookup_Some _ _ _ _ Hi). split; [apply Qle_refl|done].
  - eexists. split; [exact Hx|]. split; [reflexivity|].
    rewrite (nth_lookup_Some _ _ _ _ Hi). split; [|done].
    assert (Hlow : (n / 2 - 1 < length (sorted samples))%nat).
    { rewrite sorted_length. fold n. assert (n / 2 < n)%nat by (apply Nat.div_lt; lia). lia. }
    destruct (lookup_lt_is_Some_2 _ _ Hlow) as [a Ha].
    rewrite (nth_lookup_Some _ _ _ _ Ha).
    pose proof (StronglySorted_merge_sort Qle samples) as Hs. fold (sorted samples) in Hs.
    assert (a <= x).
    { apply (sorted_lookup_le (sorted samples) (n / 2 - 1) (n / 2)); [done|lia|done..]. }
    apply Qle_shift_div_r; lra.
Qed.

Lemma calculate_percentile_50_median_witness :
  ∃ x md, calculate_percentile [30; 10; 20; 40] 50 = Ok x ∧
          statistics.median [30; 10; 20; 40] = Ok md ∧ md <= x.
Proof.
  destruct (calculate_percentile_50_median [30; 10; 20; 40]) as (x & md & Hx & Hmd & Hle & _);
    [done|].
  by exists x, md.
Defined.

End PercentileOrder.

(** ** The cold-start script: loading, the charts and the summary *)

Section ColdStartData.
Import cold_start.

(** The entry [load_data] makes of a row. *)
Lemma load_data_fold (rows : list csv_row) (data : gmap string (list entry)) (key : string) :
  foldl (λ data row,
           let key := csv_runtime row +:+ "_" +:+ csv_type row in
           match data !! key with
           | Some entries =>
             <[key := entries ++ [Entry (csv_run row) (csv_build_ms row)
                                    (csv_start_ms row) (csv_total_ms row)]]> data
           | None => data
           end)
        data rows !! key =
  (λ entries, entries ++
     map (λ row, Entry (csv_run row) (csv_build_ms row) (csv_start_ms row) (csv_total_ms row))
         (filter (λ row, row_key row = key) rows)) <$> data !! key.
Proof.
  revert data. induction rows as [|row rows IH]; intros data.
  - cbn [foldl filter map]. destruct (data !! key); cbn; [by rewrite app_nil_r|done].
  - cbn [foldl]. rewrite IH. clear IH. fold (row_key row). rewrite filter_cons.
    destruct (data !! row_key row) as [entries|] eqn:Hk.
    + destruct (decide (row_key row = key)) as [<-|Hne].
      * rewrite lookup_insert_eq, Hk. cbn. by rewrite <- app_assoc.
      * by rewrite lookup_insert_ne.
    + destruct (decide (row_key row = key)) as [<-|Hne]; [by rewrite Hk|done].
Qed.

(** X5.  [load_data] on an existing CSV file prints nothing and returns a
    dictionary with exactly the four scenario keys; under each key are the
    rows of that runtime and start type, in file order, and rows of any
    other scenario are dropped. *)
Theorem load_data_by_scenario (rows : list csv_row) :
  ∃ data,
    load_data (Some rows) = IO [] (Ok (Some data)) ∧
    (∀ key, is_Some (data !! key) ↔ key ∈ scenario_keys) ∧
    ∀ key, key ∈ scenario_keys →
      data !! key =
      Some (map (λ row, Entry (csv_run row) (csv_build_ms row) (csv_start_ms row)
                              (csv_total_ms row))
                (filter (λ row, row_key row = key) rows)).
Proof.
  eexists. split; [reflexivity|]. split.
  - intros key. rewrite load_data_fold, fmap_is_Some. unfold scenario_keys.
    rewrite !elem_of_cons, elem_of_nil. split.
    + intros [es Hes].
      destruct (decide (key = "docker_full_cold")) as [->|?]; [by left|].
      destruct (decide (key = "docker_runtime_cold")) as [->|?]; [by right; left|].
      destruct (decide (key = "wasmtime_full_cold")) as [->|?]; [by right; right; left|].
      destruct (decide (key = "wasmtime_runtime_cold")) as [->|?];
        [by right; right; right; left|].
      by rewrite !lookup_insert_ne, lookup_empty in Hes.
    + intros [->|[->|[->|[->|[]]]]]; by eexists.
  - intros key Hkey. rewrite load_data_fold. unfold scenario_keys in Hkey.
    rewrite !elem_of_cons, elem_of_nil in Hkey.
    destruct Hkey as [->|[->|[->|[->|[]]]]]; reflexivity.
Qed.

Lemma filter_none {A} (P : A → Prop) `{∀ x, Decision (P x)} (l : list A) :
  Forall (λ x, ¬ P x) l → filter P l = [].
Proof.
  induction 1 as [|x l Hx _ IH]; [done|]. by rewrite filter_cons, decide_False.
Qed.

Lemma existsb_false_Forall {A} (f : A → bool) (l : list A) :
  existsb f l = false ↔ Forall (λ x, f x = false) l.
Proof.
  induction l as [|x l IH]; cbn; [by split; [constructor|]|].
  rewrite orb_false_iff, IH, Forall_cons. done.
Qed.

(** X6.  When the CSV file has no row of the four scenarios (none at all, or
    only rows of other runtimes or start types) [main] prints the single
    line "No data found for any scenario." and runs neither the summary nor
    the figures; as soon as one row belongs to a scenario the summary is
    printed. *)
Theorem main_without_scenario_rows (plots : gmap string (list entry) → io unit)
    (rows : list csv_row) :
  (Forall (λ row, row_key row ∉ scenario_keys) rows →
   main plots (Some rows) = IO [[FStr "No data found for any scenario."]] (Ok ())) ∧
  (Exists (λ row, row_key row ∈ scenario_keys) rows →
   ∃ rest, out (main plots (Some rows)) =
           [FStr nl; rule "=" 70] :: [FStr "Cold Start Comparison: Docker vs Wasmtime"] :: rest).
Proof.
  destruct (load_data_by_scenario rows) as (data & Hload & Hdom & Hdata).
  unfold main. rewrite Hload. change (IO [] (Ok (Some data))) with (lift (Ok (Some data))).
  rewrite lift_Ok_bind.
  set (has_data := existsb _ _). split.
  - intros Hnone. replace has_data with false; [done|]. symmetry.
    apply existsb_false_Forall, Forall_forall. intros key Hkey.
    apply list_elem_of_fmap in Hkey as ([k es] & -> & Hin).
    apply elem_of_map_to_list in Hin. cbn [fst].
    assert (Hk : k ∈ scenario_keys) by (apply Hdom; by eexists).
    unfold get_entries. rewrite (Hdata k Hk). cbn [default].
    rewrite filter_none; [done|].
    eapply Forall_impl; [exact Hnone|]. cbn. intros row Hrow E. by rewrite E in Hrow.
  - intros Hsome. replace has_data with true.
    { unfold print_summary. rewrite io_bind_assoc, print_bind. cbn [out].
      rewrite io_bind_assoc, print_bind. cbn [out]. by eexists. }
    symmetry. apply existsb_exists.
    apply Exists_exists in Hsome as (row & Hrow & Hk).
    exists (row_key row). split.
    + apply list_elem_of_In, list_elem_of_fmap. exists (row_key row, default [] (data !! row_key row)).
      split; [done|]. apply elem_of_map_to_list. rewrite (Hdata _ Hk). done.
    + unfold get_entries. rewrite (Hdata _ Hk). cbn [default].
      destruct (filter _ rows) as [|r l] eqn:Hf; [|done].
      by destruct (filter_nil_not_elem_of _ _ row Hf).
Qed.

End ColdStartData.

(** ** The cold-start charts *)

Section ColdStartCharts.
Import cold_start.

(** X7.  The speedup chart and the printed summary agree on every pair of
    scenarios: when both have entries and the division is defined, the bar
    carries the ratio that the summary prints, and it is labelled and
    coloured for Wasmtime exactly when the summary names the second
    scenario as the winner; when a scenario has no entry neither shows the
    pair; and when the faster mean is zero both raise ZeroDivisionError. *)
Theorem speedup_chart_agrees_with_summary (data : gmap string (list entry))
    (key1 key2 desc name : string) :
  match print_comparison data (key1, key2, desc), speedup_bar data key1 key2 name with
  | IO o (Ok _), Ok (Some (label, speedup, color)) =>
    (o = [comparison_line desc (winner_name key2) speedup] ∧
     label = name +:+ nl +:+ "(Wasmtime wins)" ∧ color = "#FF6B35") ∨
    (o = [comparison_line desc (winner_name key1) speedup] ∧
     label = name +:+ nl +:+ "(Docker wins)" ∧ color = "#2496ED")
  | IO o (Ok _), Ok None =>
    o = [] ∧ (get_entries data key1 = [] ∨ get_entries data key2 = [])
  | IO o (Raise e), Raise e' => o = [] ∧ e = ZeroDivisionError ∧ e' = ZeroDivisionError
  | _, _ => False
  end.
Proof.
  unfold print_comparison, speedup_bar.
  destruct (get_entries data key1) as [|x1 l1] eqn:H1; [by split; [|left]|].
  destruct (get_entries data key2) as [|x2 l2] eqn:H2; [by split; [|right]|].
  unfold get_entries in H1, H2. unfold getitem.
  destruct (data !! key1) as [e1|]; [|done]. destruct (data !! key2) as [e2|]; [|done].
  simpl in H1, H2. subst e1 e2.
  do 3 (cbn [map]; rewrite ?mean_nonempty, ?lift_Ok_bind, ?bind_Ok; cbv beta).
  set (mean1 := fsum (total_ms x1 :: map total_ms l1) / _).
  set (mean2 := fsum (total_ms x2 :: map total_ms l2) / _).
  destruct (decide (mean2 < mean1)) as [Hlt|Hge].
  - unfold truediv. destruct (decide (mean2 == 0)); [done|].
    rewrite lift_Ok_bind, bind_Ok. by left.
  - unfold truediv. destruct (decide (mean1 == 0)); [done|].
    rewrite lift_Ok_bind, bind_Ok. by right.
Qed.

Lemma mean_or_zero_total (times : list Q) :
  ∃ v, mean_or_zero times = Ok v ∧ (times = [] → v = PyInt 0).
Proof. destruct times; eexists; split; try reflexivity; done. Qed.

Lemma stdev_or_zero_total (times : list Q) :
  ∃ v, stdev_or_zero times = Ok v ∧ (times = [] → v = PyInt 0).
Proof.
  unfold stdev_or_zero. destruct (decide _) as [Hlen|Hlen].
  - destruct times as [|x [|y l]]; [cbn in Hlen; lia..|].
    destruct (stdev_two_or_more x y l) as (v & -> & _). by eexists.
  - by eexists.
Qed.

Lemma stacked_fold (data : gmap string (list entry)) (keys : list string)
    (build_means start_means : list pyval) :
  ∃ bs ss,
    foldlM (λ '(build_means, start_means) key,
              match get_entries data key with
              | [] => Ok (build_means ++ [PyInt 0], start_means ++ [PyInt 0])
              | e :: l =>
                b ← statistics.mean (map build_ms (e :: l));
                s ← statistics.mean (map start_ms (e :: l));
                Ok (build_means ++ [PyFloat b], start_means ++ [PyFloat s])
              end)
           (build_means, start_means) keys = Ok (build_means ++ bs, start_means ++ ss) ∧
    ∀ i key, keys !! i = Some key →
      ∃ b s, bs !! i = Some b ∧ ss !! i = Some s ∧
        (get_entries data key = [] → b = PyInt 0 ∧ s = PyInt 0).
Proof.
  revert build_means start_means.
  induction keys as [|key keys IH]; intros build_means start_means.
  - exists [], []. by rewrite !app_nil_r.
  - cbn [foldlM]. destruct (get_entries data key) as [|e l] eqn:E.
    + rewrite bind_Ok. destruct (IH (build_means ++ [PyInt 0]) (start_means ++ [PyInt 0]))
        as (bs & ss & -> & H).
      exists (PyInt 0 :: bs), (PyInt 0 :: ss). rewrite <- !app_assoc. split; [done|].
      intros [|i] k Hk; [|by apply H]. injection Hk as <-. by do 2 eexists.
    + assert (Hb : ∃ b, statistics.mean (map build_ms (e :: l)) = Ok b) by (by eexists).
      assert (Hs : ∃ s, statistics.mean (map start_ms (e :: l)) = Ok s) by (by eexists).
      destruct Hb as [b ->], Hs as [s ->]. rewrite !bind_Ok.
      match goal with |- context [foldlM _ (build_means ++ [?b], start_means ++ [?s])] =>
        destruct (IH (build_means ++ [b]) (start_means ++ [s])) as (bs & ss & -> & H);
        exists (b :: bs), (s :: ss)
      end.
      rewrite <- !app_assoc. split; [done|].
      intros [|i] k Hk; [|by apply H]. injection Hk as <-. do 2 eexists.
      split; [done|]. split; [done|]. by rewrite E.
Qed.

(** X8.  The series of the grouped bar chart, of the stacked breakdown and
    of the box plot are computed without raising whatever the data holds,
    one value per scenario; a scenario without entries is drawn as 0 (mean,
    standard deviation, build and start time) and as the single value 0 in
    the box plot. *)
Theorem chart_series_total (data : gmap string (list entry)) :
  (∃ s, grouped_bar_series data = Ok s ∧
     n_samples s = length (get_entries data "docker_full_cold") ∧
     ∀ i start_type, ["full_cold"; "runtime_cold"] !! i = Some start_type →
       (∃ m sd, docker_means s !! i = Some m ∧ docker_stds s !! i = Some sd ∧
          (get_entries data ("docker_" +:+ start_type) = [] → m = PyInt 0 ∧ sd = PyInt 0)) ∧
       (∃ m sd, wasmtime_means s !! i = Some m ∧ wasmtime_stds s !! i = Some sd ∧
          (get_entries data ("wasmtime_" +:+ start_type) = [] → m = PyInt 0 ∧ sd = PyInt 0))) ∧
  (∃ build_means start_means,
     stacked_breakdown_series data = Ok (build_means, start_means) ∧
     ∀ i key, scenario_keys !! i = Some key →
       ∃ b s, build_means !! i = Some b ∧ start_means !! i = Some s ∧
         (get_entries data key = [] → b = PyInt 0 ∧ s = PyInt 0)) ∧
  (∀ i key, scenario_keys !! i = Some key →
     ∃ times, boxplot_series data !! i = Some times ∧ times ≠ [] ∧
       (get_entries data key = [] → times = [PyInt 0])).
Proof.
  split; [|split].
  - unfold grouped_bar_series. cbn [foldlM].
    destruct (mean_or_zero_total (map total_ms (get_entries data ("docker_" +:+ "full_cold"))))
      as (m1 & -> & Hm1).
    destruct (stdev_or_zero_total (map total_ms (get_entries data ("docker_" +:+ "full_cold"))))
      as (s1 & -> & Hs1).
    destruct (mean_or_zero_total (map total_ms (get_entries data ("wasmtime_" +:+ "full_cold"))))
      as (m2 & -> & Hm2).
    destruct (stdev_or_zero_total (map total_ms (get_entries data ("wasmtime_" +:+ "full_cold"))))
      as (s2 & -> & Hs2).
    rewrite !bind_Ok.
    destruct (mean_or_zero_total (map total_ms (get_entries data ("docker_" +:+ "runtime_cold"))))
      as (m3 & -> & Hm3).
    destruct (stdev_or_zero_total (map total_ms (get_entries data ("docker_" +:+ "runtime_cold"))))
      as (s3 & -> & Hs3).
    destruct (mean_or_zero_total (map total_ms (get_entries data ("wasmtime_" +:+ "runtime_cold"))))
      as (m4 & -> & Hm4).
    destruct (stdev_or_zero_total (map total_ms (get_entries data ("wasmtime_" +:+ "runtime_cold"))))
      as (s4 & -> & Hs4).
    rewrite !bind_Ok. eexists. split; [reflexivity|]. split; [reflexivity|].
    cbn [docker_means docker_stds wasmtime_means wasmtime_stds app].
    intros [|[|i]] start_type [= <-]; split; do 2 eexists;
      (split; [reflexivity|]); (split; [reflexivity|]);
      intros E; rewrite E in *; auto.
  - unfold stacked_breakdown_series. cbv zeta.
    destruct (stacked_fold data scenario_keys [] []) as (bs & ss & -> & H).
    by exists bs, ss.
  - unfold boxplot_series, scenario_keys. cbn [map].
    intros [|[|[|[|i]]]] key [= <-]; eexists; (split; [reflexivity|]);
      destruct (get_entries data _); done.
Qed.

End ColdStartCharts.

(** ** The HTTP hello scripts, end to end *)

Section HttpHelloScripts.
Import re http_hello.

Lemma for_each_Ok {A} (body : A → io unit) (l : list A) :
  (∀ x, x ∈ l → res (body x) = Ok ()) → res (for_each body l) = Ok ().
Proof.
  induction l as [|x l IH]; intros H; [done|].
  cbn [for_each]. erewrite io_bind_Ok by (apply H; by left). cbn [res].
  apply IH. intros y Hy. apply H. by right.
Qed.

Lemma for_each_out_length {A} (body : A → io unit) (l : list A) :
  (∀ x, x ∈ l → ∃ ln, body x = IO [ln] (Ok ())) → length (out (for_each body l)) = length l.
Proof.
  induction l as [|x l IH]; intros H; [done|].
  cbn [for_each]. destruct (H x) as [ln Hx]; [by left|].
  erewrite io_bind_Ok by (by rewrite Hx). rewrite Hx. cbn [out app length].
  rewrite IH; [done|]. intros y Hy. apply H. by right.
Qed.

Lemma mapM_Ok {A B} (f : A → result B) (l : list A) :
  (∀ x, x ∈ l → is_Ok (f x)) → is_Ok (mapM f l).
Proof.
  induction l as [|x l IH]; intros H; [by eexists|].
  rewrite mapM_cons. destruct (H x) as [y ->]; [by left|].
  destruct IH as [k ->]; [intros z Hz; apply H; by right|]. by eexists.
Qed.

(** What the collection loop keeps was loaded and is not empty. *)
Lemma collected_elem {S} (load : string → string → result S) (truthy : S → bool)
    (RUNTIMES : list (string * string)) (rt : string) (s : S) :
  (rt, s) ∈ flat_map (λ '(rt, path),
                        match load rt path with
                        | Ok s => if truthy s then [(rt, s)] else []
                        | Raise _ => []
                        end) RUNTIMES →
  ∃ path, (rt, path) ∈ RUNTIMES ∧ load rt path = Ok s ∧ truthy s = true.
Proof.
  intros H. apply list_elem_of_In, in_flat_map in H as ([rt' path] & Hin & H).
  apply list_elem_of_In in Hin. destruct (load rt' path) as [s'|] eqn:Hl; [|done].
  destruct (truthy s') eqn:Ht; [|done].
  destruct H as [[= -> ->]|[]]. by exists path.
Qed.

(** Parsing a run log never raises. *)
Lemma parse_run_log_total (log : file) :
  parse_run_log log = Ok (spec.run_record_of log).
Proof.
  unfold parse_run_log, spec.run_record_of.
  destruct (search RUN_LOG_PATTERN (name log)) as [m|]; [|done].
  destruct (scan_lines None [] (content log)) as [-> _]. rewrite bind_Ok. cbn [app].
  by destruct (spec.last_cold_start (content log)), (spec.ok_latencies (content log)).
Qed.

Lemma run_record_of_latencies (log : file) (r : run_record) :
  spec.run_record_of log = Some r → latencies_ms r ≠ [].
Proof.
  unfold spec.run_record_of.
  destruct (search RUN_LOG_PATTERN (name log)), (spec.last_cold_start (content log)),
    (spec.ok_latencies (content log)); try done. by intros [= <-].
Qed.

Lemma load_runtime_fold (runs : list run_record) (logs : list file) :
  foldlM (λ runs p,
            parsed ← parse_run_log p;
            match parsed with
            | Some r => Ok (runs ++ [r])
            | None => Ok runs
            end)
         runs logs = Ok (runs ++ omap spec.run_record_of logs).
Proof.
  revert runs. induction logs as [|log logs IH]; intros runs.
  - cbn. by rewrite app_nil_r.
  - cbn [foldlM omap list_omap]. rewrite parse_run_log_total, bind_Ok.
    destruct (spec.run_record_of log) as [r|]; rewrite bind_Ok, IH; [|done].
    by rewrite <- app_assoc.
Qed.

(** X9.  [load_runtime] never raises: it returns the records of the run
    logs of the directory that have one, in the order of the file names,
    and every record it returns holds at least one latency. *)
Theorem load_runtime_records (fs : filesystem) (runtime dir_path : string) :
  http_hello_all.load_runtime fs runtime dir_path =
    Ok (omap spec.run_record_of (sorted_glob fs dir_path "_run.log")) ∧
  ∀ runs r, http_hello_all.load_runtime fs runtime dir_path = Ok runs → r ∈ runs →
            latencies_ms r ≠ [].
Proof.
  assert (E : http_hello_all.load_runtime fs runtime dir_path =
              Ok (omap spec.run_record_of (sorted_glob fs dir_path "_run.log"))).
  { unfold http_hello_all.load_runtime. by rewrite load_runtime_fold. }
  split; [exact E|]. rewrite E. intros runs r [= <-] Hr.
  apply list_elem_of_omap in Hr as (log & _ & Hlog). by eapply run_record_of_latencies.
Qed.

Lemma concat_latencies_nonempty (r : run_record) (runs : list run_record) :
  latencies_ms r ≠ [] → concat (map latencies_ms (r :: runs)) ≠ [].
Proof. cbn. destruct (latencies_ms r); done. Qed.

Lemma agg_latencies_total (x : Q) (l : list Q) :
  ∃ m md mn mx, http_hello_all.agg_latencies (x :: l) =
    Ok (<["mean" := PyFloat m]> (<["median" := PyFloat md]>
        (<["min" := PyFloat mn]> (<["max" := PyFloat mx]> ∅)))).
Proof.
  unfold http_hello_all.agg_latencies. rewrite mean_nonempty.
  destruct (median_nonempty x l) as [md ->]. by do 4 eexists.
Qed.

Lemma summary_line_total (rt : string) (r : run_record) (runs : list run_record) :
  latencies_ms r ≠ [] →
  ∃ ln, http_hello_all.summary_line (rt, r :: runs) = IO [ln] (Ok ()).
Proof.
  intros Hr. unfold http_hello_all.summary_line.
  destruct (concat (map latencies_ms (r :: runs))) as [|x l] eqn:E.
  { by destruct (concat_latencies_nonempty r runs Hr). }
  destruct (agg_latencies_total x l) as (m & md & mn & mx & ->).
  rewrite lift_Ok_bind. cbn [map]. rewrite mean_nonempty, lift_Ok_bind.
  cbn [pymin pymax]. rewrite !lift_Ok_bind. by eexists.
Qed.

(** X10.  analyze_http_hello_all.py never raises while it parses and
    summarises, whatever the log directories hold: the loop keeps the
    runtimes that have a run record, every record has a latency, so the
    statistics of the text summary and of the charts are all defined; the
    script ends normally, and when some runtime has data it prints one
    summary line per runtime kept. *)
Theorem http_hello_all_never_raises (fs : filesystem) :
  ∃ o data,
    http_hello_all.collect fs = IO o (Ok data) ∧
    res (http_hello_all.script fs) = Ok () ∧
    (∀ rt runs, (rt, runs) ∈ data →
       runs ≠ [] ∧ (∀ r, r ∈ runs → latencies_ms r ≠ []) ∧
       ∃ ln, http_hello_all.summary_line (rt, runs) = IO [ln] (Ok ())) ∧
    (data ≠ [] →
       length (out (for_each http_hello_all.summary_line data)) = length data).
Proof.
  unfold http_hello_all.script, http_hello_all.main, http_hello_all.collect.
  destruct (collect_runtimes_spec (http_hello_all.load_runtime fs) nonempty (λ _ _, mret ())
              http_hello_all.no_runs_line http_hello_all.RUNTIMES) as (o & Ho & _ & _).
  { intros rt path _. destruct (load_runtime_records fs rt path) as [-> _]. by eexists. }
  rewrite Ho. set (data := flat_map _ _).
  assert (Hdata : ∀ rt runs, (rt, runs) ∈ data →
            runs ≠ [] ∧ (∀ r, r ∈ runs → latencies_ms r ≠ []) ∧
            ∃ ln, http_hello_all.summary_line (rt, runs) = IO [ln] (Ok ())).
  { intros rt runs Hin. apply collected_elem in Hin as (path & _ & Hload & Hne).
    destruct (load_runtime_records fs rt path) as [_ Hlat].
    destruct runs as [|r runs]; [done|]. split; [done|].
    split; [intros r0 Hr0; by eapply Hlat|].
    apply summary_line_total. eapply Hlat; [done|by left]. }
  exists o, data. split; [done|]. split; [|split; [exact Hdata|]].
  - erewrite io_bind_Ok by reflexivity. cbn [res].
    destruct data as [|d data'] eqn:Ed; [done|]. rewrite <- Ed in *.
    unfold http_hello_all.report. rewrite print_bind. cbn [res].
    assert (Hsum : res (for_each http_hello_all.summary_line data) = Ok ()).
    { apply for_each_Ok. intros [rt runs] Hin.
      destruct (Hdata rt runs Hin) as (_ & _ & ln & ->). done. }
    erewrite io_bind_Ok by exact Hsum. cbn [res].
    destruct (mapM_Ok http_hello_all.cold_start_bar data) as [bars ->].
    { intros [rt runs] Hin. destruct (Hdata rt runs Hin) as (Hne & _ & _).
      destruct runs as [|r runs]; [done|]. unfold http_hello_all.cold_start_bar.
      cbn [map]. rewrite mean_nonempty. by eexists. }
    by rewrite lift_Ok_bind.
  - intros _. apply for_each_out_length. intros [rt runs] Hin.
    by destruct (Hdata rt runs Hin) as (_ & _ & ?).
Qed.

End HttpHelloScripts.

(** ** The native HTTP hello script *)

Section NativeHttpHello.
Import re http_hello.

(** X11.  [parse_run_log] of analyze_native_http_hello.py returns what the
    parser of analyze_http_hello_all.py returns and never raises; it prints
    nothing for a file it accepts or whose name is not a run-log name, and
    exactly one warning for a file it skips: the missing cold start is
    reported first, missing latencies only when a cold start was found. *)
Theorem parse_run_log_native_warns (path : string) (log : file) :
  res (parse_run_log_native path log) = parse_run_log log ∧
  parse_run_log_native path log =
  IO (match search RUN_LOG_PATTERN (name log) with
      | None => []
      | Some _ =>
        match spec.last_cold_start (content log), spec.ok_latencies (content log) with
        | None, _ =>
          [[FStr "[WARN] No cold_start_ms found in "; FStr path; FStr "/"; FStr (name log)]]
        | Some _, [] =>
          [[FStr "[WARN] No latency lines found in "; FStr path; FStr "/"; FStr (name log)]]
        | Some _, _ :: _ => []
        end
      end)
     (Ok (spec.run_record_of log)).
Proof.
  rewrite parse_run_log_total.
  assert (E : parse_run_log_native path log = IO
      (match search RUN_LOG_PATTERN (name log) with
       | None => []
       | Some _ =>
         match spec.last_cold_start (content log), spec.ok_latencies (content log) with
         | None, _ =>
           [[FStr "[WARN] No cold_start_ms found in "; FStr path; FStr "/"; FStr (name log)]]
         | Some _, [] =>
           [[FStr "[WARN] No latency lines found in "; FStr path; FStr "/"; FStr (name log)]]
         | Some _, _ :: _ => []
         end
       end) (Ok (spec.run_record_of log))).
  { unfold parse_run_log_native, spec.run_record_of.
    destruct (search RUN_LOG_PATTERN (name log)) as [m|]; [|done].
    destruct (scan_lines None [] (content log)) as [E ->]. rewrite E, lift_Ok_bind. cbn [app].
    by destruct (spec.last_cold_start (content log)), (spec.ok_latencies (content log)). }
  by rewrite E.
Qed.

Lemma native_fold (runs : list run_record) (logs : list file) :
  ∃ warnings,
    foldlIO (λ runs p,
               parsed ← parse_run_log_native native_http_hello.RAW_DIR p;
               match parsed with
               | Some r => mret (runs ++ [r])
               | None => mret runs
               end)
            runs logs = IO warnings (Ok (runs ++ omap spec.run_record_of logs)).
Proof.
  revert runs. induction logs as [|log logs IH]; intros runs.
  - exists []. cbn. by rewrite app_nil_r.
  - cbn [foldlIO omap list_omap].
    destruct (parse_run_log_native_warns native_http_hello.RAW_DIR log) as [_ ->].
    set (w := match search _ _ with None => [] | Some _ => _ end).
    destruct (spec.run_record_of log) as [r|].
    + destruct (IH (runs ++ [r])) as [ws Hws]. exists (w ++ ws).
      erewrite io_bind_Ok by reflexivity. rewrite Hws. unfold mbind, io_bind.
      cbn [out res mret io_ret]. by rewrite ?app_nil_r, <- ?app_assoc.
    + destruct (IH runs) as [ws Hws]. exists (w ++ ws).
      erewrite io_bind_Ok by reflexivity. rewrite Hws. unfold mbind, io_bind.
      cbn [out res mret io_ret]. by rewrite ?app_nil_r.
Qed.

Lemma run_lines_total (i : nat) (runs : list run_record) :
  (∀ r, r ∈ runs → latencies_ms r ≠ []) →
  ∃ lines, native_http_hello.run_lines i runs = IO lines (Ok ()) ∧
           length lines = length runs.
Proof.
  revert i. induction runs as [|r runs IH]; intros i H; [by exists []|].
  cbn [native_http_hello.run_lines]. unfold native_http_hello.run_line.
  destruct (latencies_ms r) as [|x l] eqn:E; [by destruct (H r); [left|]|].
  rewrite mean_nonempty, lift_Ok_bind. destruct (median_nonempty x l) as [md ->].
  rewrite lift_Ok_bind. cbn [pymin pymax]. rewrite !lift_Ok_bind.
  destruct (IH (S i)) as (lines & -> & Hlen); [intros r' Hr'; apply H; by right|].
  rewrite print_bind. cbn [out res].
  eexists. split; [reflexivity|]. cbn [length]. by rewrite Hlen.
Qed.

(** X12.  analyze_native_http_hello.py never raises while it parses and
    summarises.  Without run logs it prints "No run logs found"; when no log
    gives a record it prints the warnings and "No valid runs parsed."; and
    otherwise, after the warnings, "Parsed runs:", one line per record and
    the three lines that name the figures. *)
Theorem native_http_hello_never_raises (fs : filesystem) :
  let logs := sorted_glob fs native_http_hello.RAW_DIR "_run.log" in
  let runs := omap spec.run_record_of logs in
  res (native_http_hello.script fs) = Ok () ∧
  (logs = [] →
   native_http_hello.script fs =
   IO [[FStr "No run logs found in "; FStr native_http_hello.RAW_DIR]] (Ok ())) ∧
  (logs ≠ [] → runs = [] →
   ∃ warnings, out (native_http_hello.script fs) =
               warnings ++ [[FStr "No valid runs parsed."]]) ∧
  (runs ≠ [] →
   ∃ warnings lines saved,
     out (native_http_hello.script fs) =
     warnings ++ [FStr "Parsed runs:"] :: lines ++ saved ∧
     length lines = length runs ∧ length saved = 3%nat).
Proof.
  cbn zeta. unfold native_http_hello.script, native_http_hello.main.
  destruct (sorted_glob fs native_http_hello.RAW_DIR "_run.log") as [|log logs] eqn:Hlogs.
  { split; [done|]. split; [done|]. split; [done|]. by intros []. }
  destruct (native_fold [] (log :: logs)) as [warnings ->]. cbn [app].
  erewrite io_bind_Ok by reflexivity. cbn [out res].
  destruct (omap spec.run_record_of (log :: logs)) as [|r runs] eqn:Hruns.
  { split; [done|]. split; [done|]. split; [by exists warnings|]. by intros []. }
  assert (Hlat : ∀ r', r' ∈ r :: runs → latencies_ms r' ≠ []).
  { intros r' Hr'. rewrite <- Hruns in Hr'.
    apply list_elem_of_omap in Hr' as (l' & _ & Hl'). by eapply run_record_of_latencies. }
  destruct (run_lines_total 1 (r :: runs) Hlat) as (lines & Hlines & Hlen).
  unfold native_http_hello.report. rewrite print_bind, Hlines. cbn [out res].
  split; [done|]. split; [done|]. split; [done|]. intros _.
  exists warnings, lines. eexists. split; [reflexivity|]. split; [exact Hlen|done].
Qed.

(** X13.  The run identifier of a record is the 20-character timestamp
    that stands immediately before [_run.log] at the end of the file name;
    a record always holds at least one latency. *)
Theorem run_id_is_timestamp (log : file) (r : run_record) :
  parse_run_log log = Ok (Some r) →
  ends_with "_run.log" (name log) = true →
  (∃ pre, name log = pre +:+ run_id r +:+ "_run.log") ∧
  String.length (run_id r) = 20%nat ∧ latencies_ms r ≠ [].
Proof.
  rewrite parse_run_log_total. intros [= Hr] Hend.
  split; [|split; [|by eapply run_record_of_latencies]].
  - unfold spec.run_record_of in Hr.
    destruct (search RUN_LOG_PATTERN (name log)) as [m|] eqn:Hm; [|done].
    destruct (spec.last_cold_start (content log)); [|done].
    destruct (spec.ok_latencies (content log)); [done|]. injection Hr as <-. cbn [run_id].
    apply search_sound in Hm as (pre & w & rest & Hname & Hm).
    unfold RUN_LOG_PATTERN in Hm.
    apply matches_seq_cons in Hm as (w1 & w2 & n1 & n2 & -> & -> & Hg & Hm).
    destruct Hg as (n' & -> & Hg).
    apply matches_seq_cons in Hm as (w3 & w4 & n3 & n4 & -> & -> & [-> ->] & Hm).
    apply matches_seq_cons in Hm as (w5 & w6 & n5 & n6 & -> & -> & (-> & -> & Hrest) & Hm).
    apply matches_seq_nil in Hm as [-> ->].
    assert (Hn' : n' = []).
    { clear -Hg. cbn [seq foldr Rep matches] in Hg. destruct_matches. done. }
    subst n'. cbn [app group Nat.eqb]. exists pre.
    rewrite !append_nil_l, !append_nil_r in *. destruct Hrest as [->| ->].
    + by rewrite Hname, append_nil_r.
    + exfalso. rewrite Hname in Hend. revert Hend. unfold ends_with.
      replace (pre +:+ (w1 +:+ "_run.log") +:+ nl)
        with ((pre +:+ w1 +:+ "_") +:+ ("run.log" +:+ nl))
        by (by rewrite !append_assoc).
      rewrite length_append.
      replace (String.length (pre +:+ w1 +:+ "_") + String.length ("run.log" +:+ nl)
               - String.length "_run.log")%nat
        with (String.length (pre +:+ w1 +:+ "_"))
        by (cbn [String.length]; rewrite !length_append; cbn; lia).
      change (String.length "_run.log") with (String.length ("run.log" +:+ nl)).
      rewrite substring_suffix. by rewrite andb_false_r.
  - unfold spec.run_record_of in Hr.
    destruct (search RUN_LOG_PATTERN (name log)) as [m|] eqn:Hm; [|done].
    destruct (spec.last_cold_start (content log)); [|done].
    destruct (spec.ok_latencies (content log)); [done|]. injection Hr as <-. cbn [run_id].
    apply search_sound in Hm as (pre & w & rest & Hname & Hm).
    unfold RUN_LOG_PATTERN in Hm.
    apply matches_seq_cons in Hm as (w1 & w2 & n1 & n2 & -> & -> & Hg & Hm).
    destruct Hg as (n' & -> & Hg).
    apply matches_seq_cons in Hm as (w3 & w4 & n3 & n4 & -> & -> & [-> ->] & Hm).
    apply matches_seq_cons in Hm as (w5 & w6 & n5 & n6 & -> & -> & (-> & -> & Hrest) & Hm).
    apply matches_seq_nil in Hm as [-> ->].
    clear -Hg. cbn [seq foldr Rep matches] in Hg. destruct_matches.
    cbn [app group Nat.eqb]. rewrite ?append_cons, ?append_nil_l, ?append_nil_r. done.
Qed.

Lemma run_id_is_timestamp_witness :
  ∃ pre, name fixtures.run_log = pre +:+ "2025-01-02T03-04-05Z" +:+ "_run.log".
Proof.
  destruct (run_id_is_timestamp fixtures.run_log (Run "2025-01-02T03-04-05Z" 12.5 [1.5; 2]))
    as [H _]; [reflexivity..|exact H].
Defined.

End NativeHttpHello.

(** ** The stateful-endpoint script *)

Section Stateful.
Import re http_hello_stateful.

Lemma calculate_overhead_pct_total (a b : Q) : is_Ok (calculate_overhead_pct a b).
Proof.
  unfold calculate_overhead_pct. destruct (decide (a == 0)); [by eexists|].
  rewrite truediv_Ok by done. by eexists.
Qed.

(** X14.  [calculate_overhead_pct] never raises: a stateless latency of 0
    gives the integer 0, and for a positive stateless latency the result is
    (stateful / stateless − 1) × 100, which is positive exactly when the
    stateful latency is the larger one (the bar is then red) and zero
    exactly when the two are equal. *)
Theorem calculate_overhead_pct_sign (stateless_latency stateful_latency : Q) :
  ∃ o, calculate_overhead_pct stateless_latency stateful_latency = Ok o ∧
    (stateless_latency == 0 → o = PyInt 0) ∧
    (0 < stateless_latency →
     ∃ q, o = PyFloat q ∧
       q == (stateful_latency / stateless_latency - 1) * 100 ∧
       (0 < q ↔ stateless_latency < stateful_latency) ∧
       (q == 0 ↔ stateful_latency == stateless_latency) ∧
       (positive o = true ↔ stateless_latency < stateful_latency)).
Proof.
  unfold calculate_overhead_pct.
  destruct (decide (stateless_latency == 0)) as [Hz|Hnz].
  - eexists. split; [reflexivity|]. split; [done|]. intros Hpos. rewrite Hz in Hpos.
    by apply Qlt_irrefl in Hpos.
  - rewrite truediv_Ok, bind_Ok by done. eexists. split; [reflexivity|].
    split; [done|]. intros Hpos. eexists. split; [reflexivity|].
    set (a := stateless_latency) in *. set (b := stateful_latency) in *.
    assert (E : (b - a) / a * 100 == (b / a - 1) * 100) by (field; exact Hnz).
    assert (Hsign : 0 < (b - a) / a * 100 ↔ a < b).
    { split.
      - intros H. destruct (Qlt_le_dec a b) as [|Hle]; [done|]. exfalso.
        assert ((b - a) / a <= 0).
        { apply Qle_shift_div_r; [done|]. lra. }
        lra.
      - intros H. assert (0 < (b - a) / a).
        { apply Qlt_shift_div_l; [done|]. lra. }
        lra. }
    split; [exact E|]. split; [exact Hsign|]. split.
    + split.
      * intros H. assert (Hq : (b - a) / a == 0) by lra.
        assert (Hm : (b - a) / a * a == 0) by (rewrite Hq; ring).
        rewrite Qmult_comm, Qmult_div_r in Hm by done. lra.
      * intros H. assert (Hba : b - a == 0) by lra. rewrite Hba.
        unfold Qdiv. ring.
    + cbn [positive]. by rewrite bool_decide_eq_true.
Qed.

Lemma calculate_overhead_pct_sign_witness :
  ∃ q, calculate_overhead_pct 2 3 = Ok (PyFloat q) ∧ q == 50.
Proof.
  destruct (calculate_overhead_pct_sign 2 3) as (o & Ho & _ & H).
  destruct H as (q & -> & Hq & _); [lra|].
  exists q. split; [exact Ho|]. rewrite Hq. reflexivity.
Defined.

Lemma foldlM_invariant {A B} (P : B → Prop) (f : B → A → result B) (l : list A) (b b' : B) :
  (∀ b x b', P b → f b x = Ok b' → P b') → P b → foldlM f b l = Ok b' → P b'.
Proof.
  intros Hstep. revert b. induction l as [|x l IH]; intros b Hb H.
  - by injection H as <-.
  - cbn [foldlM] in H. destruct (f b x) as [b1|] eqn:Hf; [|done].
    rewrite bind_Ok in H. eapply IH; [|exact H]. by eapply Hstep.
Qed.

Lemma foldlM_total {A B} (P : B → Prop) (f : B → A → result B) (l : list A) (b : B) :
  (∀ b x, x ∈ l → P b → ∃ b', f b x = Ok b' ∧ P b') → P b →
  ∃ b', foldlM f b l = Ok b' ∧ P b'.
Proof.
  revert b. induction l as [|x l IH]; intros b Hstep Hb; [by exists b|].
  cbn [foldlM]. destruct (Hstep b x) as (b1 & -> & Hb1); [by left|done|].
  rewrite bind_Ok. apply IH; [|done]. intros b2 y Hy. apply Hstep. by right.
Qed.

Lemma load_samples_by_path_invariant (fs : filesystem) (log_dir : string)
    (by_path : gmap string (list Q)) :
  load_samples_by_path fs log_dir = Ok by_path →
  ∀ path samples, by_path !! path = Some samples → samples ≠ [].
Proof.
  unfold load_samples_by_path.
  set (P := λ by_path : gmap string (list Q),
              ∀ path samples, by_path !! path = Some samples → samples ≠ []).
  apply (foldlM_invariant P); [|done].
  intros b log b'. apply (foldlM_invariant P). clear.
  intros b line b' Hb. destruct (search LAT_PATTERN line) as [m|]; [|by intros [= <-]].
  destruct (pyfloat (group m 2)) as [v|]; [|done]. rewrite bind_Ok. intros [= <-].
  intros path samples. unfold append_at.
  set (p := if String.eqb (group m 1) "" then "/" else group m 1).
  destruct (decide (p = path)) as [<-|Hne].
  - rewrite lookup_insert_eq. intros [= <-]. by destruct (default [] (b !! p)).
  - rewrite lookup_insert_ne by done. apply Hb.
Qed.

(** X15.  In what [load_samples_by_path] returns every path has at least
    one latency, and no path is the empty string: a latency line without a
    path field is counted under "/". *)
Theorem load_samples_by_path_nonempty (fs : filesystem) (log_dir : string)
    (by_path : gmap string (list Q)) :
  load_samples_by_path fs log_dir = Ok by_path →
  ∀ path samples, by_path !! path = Some samples → samples ≠ [] ∧ path ≠ "".
Proof.
  unfold load_samples_by_path.
  set (P := λ by_path : gmap string (list Q),
              ∀ path samples, by_path !! path = Some samples → samples ≠ [] ∧ path ≠ "").
  apply (foldlM_invariant P); [|done].
  intros b log b'. apply (foldlM_invariant P). clear.
  intros b line b' Hb. destruct (search LAT_PATTERN line) as [m|]; [|by intros [= <-]].
  destruct (pyfloat (group m 2)) as [v|]; [|done]. rewrite bind_Ok. intros [= <-].
  intros path samples. unfold append_at.
  set (p := if String.eqb (group m 1) "" then "/" else group m 1).
  assert (Hp : p ≠ "").
  { unfold p. destruct (String.eqb_spec (group m 1) ""); done. }
  destruct (decide (p = path)) as [<-|Hne].
  - rewrite lookup_insert_eq. intros [= <-]. split; [|done]. by destruct (default [] (b !! p)).
  - rewrite lookup_insert_ne by done. apply Hb.
Qed.

Lemma load_samples_by_path_nonempty_witness :
  ∃ by_path,
    load_samples_by_path fixtures.stateful_fs "results/raw/native/http-hello" = Ok by_path ∧
    by_path !! "/" = Some [1.5] ∧ by_path !! "/state" = Some [2.5] ∧
    ([2.5] ≠ ([] : list Q) ∧ "/state" ≠ "").
Proof.
  eexists. split; [reflexivity|]. split; [reflexivity|]. split; [reflexivity|].
  eapply (load_samples_by_path_nonempty fixtures.stateful_fs "results/raw/native/http-hello");
    reflexivity.
Defined.

Lemma item_elem {V} (d : list (string * V)) (k : string) :
  k ∈ d.*1 → ∃ v, item d k = Ok v ∧ (k, v) ∈ d.
Proof.
  intros Hk. unfold item.
  destruct (list_find (λ kv, kv.1 = k) d) as [[i [k' v]]|] eqn:Hf.
  - apply list_find_Some in Hf as (Hi & Hk' & _). cbn in Hk'. subst k'.
    exists v. split; [done|]. by eapply list_elem_of_lookup_2.
  - apply list_find_None in Hf. apply list_elem_of_fmap in Hk as ([k' v] & -> & Hin).
    rewrite Forall_forall in Hf. by destruct (Hf _ Hin).
Qed.

Lemma sorted_names_elem {V} (d : list (string * V)) (k : string) :
  k ∈ sorted_names d ↔ k ∈ d.*1.
Proof. unfold sorted_names. by rewrite merge_sort_Permutation. Qed.

Lemma res_print_bind {B} (l : line) (f : unit → io B) : res (print l ≫= f) = res (f ()).
Proof. reflexivity. Qed.

Lemma stdev_if_total (l : list Q) :
  is_Ok (if decide (1 < length l)%nat then statistics.stdev l else Ok (PyInt 0)).
Proof.
  destruct (decide _) as [Hlen|Hlen]; [|by eexists].
  destruct l as [|x [|y l]]; [cbn in Hlen; lia..|].
  destruct (stdev_two_or_more x y l) as (v & -> & _). by eexists.
Qed.

Section Script.
Variable paths_found : gmap string (list Q) → string.

(** The block of a runtime whose sample lists are not empty is printed
    without raising. *)
Lemma print_runtime_total (rt : string) (path_data : gmap string (list Q)) :
  (∀ path samples, path_data !! path = Some samples → samples ≠ []) →
  res (print_runtime paths_found (rt, path_data)) = Ok ().
Proof.
  intros Hne. unfold print_runtime. rewrite !res_print_bind.
  destruct (path_data !! "/") as [[|x l]|] eqn:H1.
  - by destruct (Hne _ _ H1).
  - destruct (path_data !! "/state") as [[|y k]|] eqn:H2.
    + by destruct (Hne _ _ H2).
    + rewrite (mean_nonempty x l), (mean_nonempty y k).
      destruct (median_nonempty x l) as [md1 ->]. destruct (median_nonempty y k) as [md2 ->].
      destruct (stdev_if_total (x :: l)) as [sd1 ->].
      destruct (stdev_if_total (y :: k)) as [sd2 ->].
      do 6 (rewrite lift_Ok_bind; cbv beta).
      destruct (calculate_overhead_pct_total (fsum (x :: l) / flen (x :: l))
                  (fsum (y :: k) / flen (y :: k))) as [o ->].
      by rewrite lift_Ok_bind.
    + by rewrite res_print_bind.
  - destruct (path_data !! "/state"); by rewrite res_print_bind.
Qed.

Lemma comparison_boxes_total (data : list (string * gmap string (list Q))) :
  is_Ok (comparison_boxes data).
Proof.
  unfold comparison_boxes.
  destruct (foldlM_total (λ _, True)
    (λ boxes rt,
       path_data ← item data rt;
       let boxes :=
         match path_data !! "/" with
         | Some samples => boxes ++ [(rt +:+ nl +:+ "(stateless)", samples)]
         | None => boxes
         end in
       Ok (match path_data !! "/state" with
           | Some samples => boxes ++ [(rt +:+ nl +:+ "(stateful)", samples)]
           | None => boxes
           end))
    (sorted_names data) []) as (b & Hb & _); [|done|by exists b].
  intros boxes rt Hrt _. apply sorted_names_elem in Hrt.
  destruct (item_elem data rt Hrt) as (v & -> & _). rewrite bind_Ok. by eexists.
Qed.

Lemma overhead_bars_total (data : list (string * gmap string (list Q))) :
  (∀ rt path_data, (rt, path_data) ∈ data →
     ∀ path samples, path_data !! path = Some samples → samples ≠ []) →
  is_Ok (overhead_bars data).
Proof.
  intros Hne. unfold overhead_bars.
  destruct (foldlM_total (λ _, True)
    (λ bars rt,
       path_data ← item data rt;
       match path_data !! "/", path_data !! "/state" with
       | Some stateless, Some stateful =>
         sl_mean ← statistics.mean stateless;
         st_mean ← statistics.mean stateful;
         overhead ← calculate_overhead_pct sl_mean st_mean;
         Ok (bars ++ [(rt, overhead, if positive overhead then "red" else "green")])
       | _, _ => Ok bars
       end)
    (sorted_names data) []) as (b & Hb & _); [|done|by exists b].
  intros bars rt Hrt _. apply sorted_names_elem in Hrt.
  destruct (item_elem data rt Hrt) as (v & -> & Hin). rewrite bind_Ok.
  destruct (v !! "/") as [[|x l]|] eqn:H1; [by destruct (Hne _ _ Hin _ _ H1)| |by eexists].
  destruct (v !! "/state") as [[|y k]|] eqn:H2;
    [by destruct (Hne _ _ Hin _ _ H2)| |by eexists].
  rewrite !mean_nonempty, !bind_Ok.
  destruct (calculate_overhead_pct_total (fsum (x :: l) / flen (x :: l))
              (fsum (y :: k) / flen (y :: k))) as [o ->].
  rewrite bind_Ok. by eexists.
Qed.

(** X16.  analyze_http_hello_stateful.py, when no latency text fails to
    convert: the loop keeps the runtimes that have samples; with none the
    script exits with status 1, and otherwise its summary and the series of
    its two figures are computed without raising and the script ends
    normally. *)
Theorem stateful_script_status (fs : filesystem) :
  (∀ rt path, (rt, path) ∈ RUNTIMES → is_Ok (load_samples_by_path fs path)) →
  ∃ o data,
    collect fs = IO o (Ok data) ∧
    (∀ rt path_data, (rt, path_data) ∈ data →
       path_data ≠ ∅ ∧ ∀ path samples, path_data !! path = Some samples → samples ≠ []) ∧
    res (script paths_found fs) =
      match data with [] => Raise (SystemExit 1) | _ => Ok () end.
Proof.
  intros Hload. unfold script, main, collect.
  destruct (collect_runtimes_spec (λ _, load_samples_by_path fs)
              (λ path_data, negb (bool_decide (path_data = ∅))) (λ _ _, mret ())
              no_samples_line RUNTIMES) as (o & Ho & _ & _).
  { intros rt path Hin. destruct (Hload rt path Hin) as [s ->]. by eexists. }
  rewrite Ho. set (data := flat_map _ _).
  assert (Hdata : ∀ rt path_data, (rt, path_data) ∈ data →
     path_data ≠ ∅ ∧ ∀ path samples, path_data !! path = Some samples → samples ≠ []).
  { intros rt path_data Hin. apply collected_elem in Hin as (path & _ & Hl & Ht). split.
    - apply negb_true_iff, bool_decide_eq_false in Ht. exact Ht.
    - intros p samples Hp.
      by apply (load_samples_by_path_invariant fs path path_data Hl p samples Hp). }
  exists o, data. split; [done|]. split; [exact Hdata|].
  erewrite io_bind_Ok by reflexivity. cbn [res].
  destruct data as [|d data'] eqn:Ed; [done|]. rewrite <- Ed in *.
  assert (Hsum : res (print_summary paths_found data) = Ok ()).
  { unfold print_summary. rewrite !print_bind. cbn [res]. apply for_each_Ok.
    intros [rt path_data] Hin. apply print_runtime_total. by apply (Hdata rt). }
  assert (Hbox : res (plot_comparison_boxplot data) = Ok ()).
  { unfold plot_comparison_boxplot. destruct (comparison_boxes_total data) as [b ->].
    by rewrite lift_Ok_bind. }
  assert (Hbar : res (plot_overhead_bar_chart data) = Ok ()).
  { unfold plot_overhead_bar_chart. destruct (overhead_bars_total data) as [b ->].
    - intros rt path_data Hin. by apply (Hdata rt).
    - rewrite lift_Ok_bind. by destruct b. }
  assert (Hrep : res (report paths_found data) = Ok ()).
  { unfold report. erewrite io_bind_Ok by exact Hsum. cbn [res].
    erewrite io_bind_Ok by exact Hbox. cbn [res]. exact Hbar. }
  destruct (existsb _ data).
  - rewrite mret_bind. erewrite io_bind_Ok by exact Hrep. reflexivity.
  - rewrite !io_bind_assoc. repeat (rewrite res_print_bind; cbv beta).
    erewrite io_bind_Ok by exact Hrep. reflexivity.
Qed.

End Script.

Lemma stateful_script_status_witness :
  res (script (λ _, "") fixtures.stateful_fs) = Ok ().
Proof.
  destruct (stateful_script_status (λ _, "") fixtures.stateful_fs) as (o & data & Hc & _ & ->).
  - intros rt path Hin. repeat (apply elem_of_cons in Hin as [[= -> ->]|Hin]);
      [by eexists..|by apply elem_of_nil in Hin].
  - assert (E : collect fixtures.stateful_fs = IO o (Ok data)) by exact Hc.
    vm_compute in E. by injection E as <- <-.
Defined.

End Stateful.

(** ** What the loaders return: signs, and lists that are never empty *)

Section LoadedSamples.
Import re.

Lemma digits_value_nonneg (s : string) (acc : Z) : (0 ≤ acc)%Z → (0 ≤ digits_value acc s)%Z.
Proof.
  revert acc. induction s as [|c s IH]; intros acc Hacc; [done|].
  cbn [digits_value]. apply IH. lia.
Qed.

Lemma pyint_nonneg (s : string) (v : Z) : pyint s = Ok v → (0 ≤ v)%Z.
Proof.
  unfold pyint. destruct (_ && _); [|done]. intros [= <-]. by apply digits_value_nonneg.
Qed.

Lemma pyfloat_nonneg (s : string) (v : Q) : pyfloat s = Ok v → 0 <= v.
Proof.
  unfold pyfloat. destruct (split_dot s) as [ip fp]. destruct (_ && _); [|done].
  intros [= <-]. unfold Qle. cbn [Qnum Qden]. rewrite Z.mul_1_r, Z.mul_0_l.
  by apply digits_value_nonneg.
Qed.

(** The loop of a loader that gathers a list keeps what holds of every
    converted value. *)
Lemma list_loader_invariant (P : Q → Prop) (pattern : regex) (convert : Q → Q)
    (lines : list string) (samples samples' : list Q) :
  (∀ s v, pyfloat s = Ok v → P (convert v)) →
  Forall P samples →
  foldlM (λ samples line,
            match search pattern line with
            | Some m => v ← pyfloat (group m 1); Ok (samples ++ [convert v])
            | None => Ok samples
            end)
         samples lines = Ok samples' →
  Forall P samples'.
Proof.
  intros Hconv. apply (foldlM_invariant (Forall P)).
  intros b line b' Hb. destruct (search pattern line) as [m|]; [|by intros [= <-]].
  destruct (pyfloat (group m 1)) as [v|] eqn:Hv; [|done]. rewrite bind_Ok. intros [= <-].
  apply Forall_app. split; [done|]. constructor; [by eapply Hconv|done].
Qed.

(** X17.  No loaded sample is negative: the patterns capture digits and
    dots only, so a minus sign in a log is never part of the number.  This
    holds for the samples of the cpu-hash comparison, of the hello-wasm
    comparison and of every benchmark of the summary generator (the memory
    conversion to MB included). *)
Theorem loaded_samples_nonneg (fs : filesystem) (path : string) (samples : list Q) :
  (cpu_hash_comparison.load_samples fs path = Ok samples → Forall (Qle 0) samples) ∧
  (wasm_hello_comparison.load_samples fs path = Ok samples → Forall (Qle 0) samples) ∧
  (∀ b, b ∈ generate_summary.BENCHMARKS →
        generate_summary.load_samples fs path (generate_summary.bench_pattern b)
          (generate_summary.bench_convert b) = Ok samples →
        Forall (Qle 0) samples).
Proof.
  split; [|split].
  - unfold cpu_hash_comparison.load_samples.
    apply (foldlM_invariant (Forall (Qle 0))); [|done].
    intros b log b' Hb. destruct (match_ _ _); [|by intros [= <-]].
    apply (list_loader_invariant (Qle 0) _ id); [|done]. intros s v. apply pyfloat_nonneg.
  - unfold wasm_hello_comparison.load_samples.
    apply (foldlM_invariant (Forall (Qle 0))); [|done].
    intros b log b' Hb. destruct (match_ _ _); [|by intros [= <-]].
    apply (list_loader_invariant (Qle 0) _ id); [|done]. intros s v. apply pyfloat_nonneg.
  - intros b Hb. unfold generate_summary.load_samples.
    destruct (negb _); [by intros [= <-]|].
    apply (foldlM_invariant (Forall (Qle 0))); [|done].
    intros acc log acc' Hacc.
    assert (Hconv : ∃ convert : Q → Q,
              (∀ v, match generate_summary.bench_convert b with
                    | Some f => f v
                    | None => v
                    end = convert v) ∧ ∀ v, 0 <= v → 0 <= convert v).
    { unfold generate_summary.BENCHMARKS in Hb.
      repeat (apply elem_of_cons in Hb as [->|Hb]); try (by apply elem_of_nil in Hb);
        cbn [generate_summary.bench_convert];
        first [ by exists id
              | exists (λ x, x / 1024); split; [done|];
                intros v Hv; apply Qle_shift_div_l; lra ]. }
    destruct Hconv as (convert & Hc & Hpos).
    revert Hacc. apply (foldlM_invariant (Forall (Qle 0))).
    intros acc2 line acc2' Hacc2.
    destruct (search _ line) as [m|]; [|by intros [= <-]].
    destruct (pyfloat (group m 1)) as [v|] eqn:Hv; [|done]. rewrite bind_Ok. intros [= <-].
    apply Forall_app. split; [done|]. constructor; [|done].
    rewrite Hc. apply Hpos. by eapply pyfloat_nonneg.
Qed.

Lemma loaded_samples_nonneg_witness :
  ∃ samples,
    cpu_hash_comparison.load_samples fixtures.cpu_hash_fs "results/raw/native/cpu-hash" =
      Ok samples ∧ length samples = 3%nat ∧ Forall (Qle 0) samples.
Proof.
  eexists. split; [reflexivity|]. split; [reflexivity|].
  apply (proj1 (loaded_samples_nonneg fixtures.cpu_hash_fs "results/raw/native/cpu-hash" _)).
  reflexivity.
Defined.

End LoadedSamples.

(** ** The cpu-hash scaling and hello-wasm scripts, end to end *)

Section ThroughputScripts.
Import re.

Lemma for_each_lines {A} (body : A → io unit) (l : list A) :
  (∀ x, x ∈ l → ∃ ln, body x = IO [ln] (Ok ())) →
  ∃ lines, for_each body l = IO lines (Ok ()) ∧ length lines = length l.
Proof.
  intros H. exists (out (for_each body l)). split.
  - rewrite <- (io_eta (for_each body l)) at 1. f_equal. apply for_each_Ok.
    intros x Hx. by destruct (H x Hx) as [ln ->].
  - by apply for_each_out_length.
Qed.

(** What [load_samples] of the cpu-hash scaling script keeps under every
    concurrency. *)
Lemma cpu_scaling_invariant (fs : filesystem) (path : string) (samples : gmap Z (list Q)) :
  cpu_hash_scaling.load_samples fs path = Ok samples →
  ∀ conc vals, samples !! conc = Some vals →
               vals ≠ [] ∧ (0 ≤ conc)%Z ∧ Forall (Qle 0) vals.
Proof.
  unfold cpu_hash_scaling.load_samples.
  set (P := λ samples : gmap Z (list Q),
              ∀ conc vals, samples !! conc = Some vals →
                           vals ≠ [] ∧ (0 ≤ conc)%Z ∧ Forall (Qle 0) vals).
  apply (foldlM_invariant P); [|done].
  intros b log b' Hb. destruct (match_ _ _); [|by intros [= <-]].
  revert Hb. apply (foldlM_invariant P). clear.
  intros b line b' Hb.
  destruct (search cpu_hash_scaling.SCALE_LINE_PATTERN line) as [m|]; [|by intros [= <-]].
  destruct (pyint (group m 1)) as [c|] eqn:Hc; [|done]. rewrite bind_Ok.
  destruct (pyfloat (group m 2)) as [v|] eqn:Hv; [|done]. rewrite bind_Ok. intros [= <-].
  intros conc vals. unfold cpu_hash_scaling.append_at.
  destruct (decide (c = conc)) as [<-|Hne].
  - rewrite lookup_insert_eq. intros [= <-]. split; [by destruct (default [] (b !! c))|].
    split; [by eapply pyint_nonneg|]. apply Forall_app. split.
    + destruct (b !! c) as [old|] eqn:Hold; [|done]. by destruct (Hb c old Hold) as (_ & _ & ?).
    + constructor; [by eapply pyfloat_nonneg|done].
  - rewrite lookup_insert_ne by done. apply Hb.
Qed.

Lemma cpu_scaling_summary_line (rt : string) (conc_map : gmap Z (list Q)) (conc : Z) :
  (∀ c vals, conc_map !! c = Some vals → vals ≠ []) →
  conc ∈ sorted_keys conc_map →
  ∃ ln, cpu_hash_scaling.summary_line rt conc_map conc = IO [ln] (Ok ()).
Proof.
  intros Hne [vals Hvals]%sorted_keys_elem. unfold cpu_hash_scaling.summary_line, getitem.
  rewrite Hvals, lift_Ok_bind. destruct vals as [|x l]; [by destruct (Hne _ _ Hvals)|].
  rewrite mean_nonempty, lift_Ok_bind. cbn [pymin pymax]. rewrite !lift_Ok_bind.
  by eexists.
Qed.

(** X18.  analyze_cpu_hash_scaling.py, when no captured text fails to
    convert: under every concurrency that [load_samples] returns there is
    at least one throughput, no concurrency and no throughput is negative,
    and the text summary and the points of the figure are computed without
    raising, so the script ends normally whatever the logs hold. *)
Theorem cpu_hash_scaling_script (fs : filesystem) :
  (∀ rt path, (rt, path) ∈ cpu_hash_scaling.RUNTIMES →
              is_Ok (cpu_hash_scaling.load_samples fs path)) →
  ∃ o data,
    cpu_hash_scaling.collect fs = IO o (Ok data) ∧
    (∀ rt conc_map, (rt, conc_map) ∈ data →
       conc_map ≠ ∅ ∧
       ∀ conc vals, conc_map !! conc = Some vals →
                    vals ≠ [] ∧ (0 ≤ conc)%Z ∧ Forall (Qle 0) vals) ∧
    res (cpu_hash_scaling.script fs) = Ok ().
Proof.
  intros Hload.
  unfold cpu_hash_scaling.script, cpu_hash_scaling.main, cpu_hash_scaling.collect.
  destruct (collect_runtimes_spec (λ _, cpu_hash_scaling.load_samples fs)
              (λ samples, negb (bool_decide (samples = ∅))) (λ _ _, mret ())
              cpu_hash_scaling.no_samples_line cpu_hash_scaling.RUNTIMES) as (o & Ho & _ & _).
  { intros rt path Hin. destruct (Hload rt path Hin) as [s ->]. by eexists. }
  rewrite Ho. set (data := flat_map _ _).
  assert (Hdata : ∀ rt conc_map, (rt, conc_map) ∈ data →
     conc_map ≠ ∅ ∧
     ∀ conc vals, conc_map !! conc = Some vals →
                  vals ≠ [] ∧ (0 ≤ conc)%Z ∧ Forall (Qle 0) vals).
  { intros rt conc_map Hin. apply collected_elem in Hin as (path & _ & Hl & Ht). split.
    - apply negb_true_iff, bool_decide_eq_false in Ht. exact Ht.
    - by apply (cpu_scaling_invariant fs path). }
  exists o, data. split; [done|]. split; [exact Hdata|].
  erewrite io_bind_Ok by reflexivity. cbn [res].
  destruct data as [|d data'] eqn:Ed; [done|]. rewrite <- Ed in *.
  unfold cpu_hash_scaling.report. rewrite res_print_bind.
  assert (Hsum : res (for_each (λ '(rt, conc_map),
                        for_each (cpu_hash_scaling.summary_line rt conc_map)
                                 (sorted_keys conc_map)) data) = Ok ()).
  { apply for_each_Ok. intros [rt conc_map] Hin. apply for_each_Ok. intros conc Hconc.
    destruct (cpu_scaling_summary_line rt conc_map conc) as [ln ->]; [|done..].
    intros c vals Hv. by destruct (proj2 (Hdata rt conc_map Hin) c vals Hv). }
  erewrite io_bind_Ok by exact Hsum. cbn [res].
  destruct (mapM_Ok (λ '(rt, conc_map), cpu_hash_scaling.throughput_means conc_map) data)
    as [pts ->]; [|by rewrite lift_Ok_bind].
  intros [rt conc_map] Hin. unfold cpu_hash_scaling.throughput_means. apply mapM_Ok.
  intros c [vals Hvals]%sorted_keys_elem. unfold getitem. rewrite Hvals, bind_Ok.
  destruct vals as [|x l]; [by destruct (proj2 (Hdata rt conc_map Hin) c [] Hvals)|].
  rewrite mean_nonempty. by eexists.
Qed.

Lemma cpu_hash_scaling_script_witness :
  res (cpu_hash_scaling.script fixtures.cpu_scaling_fs) = Ok () ∧
  ∃ o data, cpu_hash_scaling.collect fixtures.cpu_scaling_fs = IO o (Ok data) ∧
            length data = 1%nat.
Proof.
  destruct (cpu_hash_scaling_script fixtures.cpu_scaling_fs) as (o & data & Hc & _ & Hres).
  - intros rt path Hin. repeat (apply elem_of_cons in Hin as [[= -> ->]|Hin]);
      [by eexists..|by apply elem_of_nil in Hin].
  - split; [exact Hres|]. exists o, data. split; [exact Hc|].
    assert (E : cpu_hash_scaling.collect fixtures.cpu_scaling_fs = IO o (Ok data)) by exact Hc.
    vm_compute in E. by injection E as <- <-.
Defined.

Lemma wasm_summary_line (rt : string) (x : Q) (l : list Q) :
  ∃ ln, wasm_hello_comparison.summary_line (rt, x :: l) = IO [ln] (Ok ()).
Proof.
  unfold wasm_hello_comparison.summary_line. rewrite mean_nonempty, lift_Ok_bind.
  destruct (median_nonempty x l) as [md ->]. rewrite lift_Ok_bind.
  cbn [pymin pymax]. rewrite !lift_Ok_bind. by eexists.
Qed.

(** X19.  analyze_wasm_hello_comparison.py, when no captured text fails
    to convert, ends normally: after the warnings of its loop it prints
    either "No hello-wasm data found." or the heading, one summary line per
    runtime that has samples, and the two lines that name the figures. *)
Theorem wasm_hello_script (fs : filesystem) :
  (∀ rt path, (rt, path) ∈ wasm_hello_comparison.RUNTIMES →
              is_Ok (wasm_hello_comparison.load_samples fs path)) →
  ∃ o data,
    wasm_hello_comparison.collect fs = IO o (Ok data) ∧
    (∀ rt samples, (rt, samples) ∈ data → samples ≠ []) ∧
    match data with
    | [] =>
      wasm_hello_comparison.script fs = IO (o ++ [[FStr "No hello-wasm data found."]]) (Ok ())
    | _ =>
      ∃ lines,
        wasm_hello_comparison.script fs =
        IO (o ++ [FStr "hello-wasm summary (elapsed_ms):"] :: lines ++
              [[FStr "Saved boxplot to ";
                FStr "results/processed/hello_wasm_elapsed_ms_boxplot.png"];
               [FStr "Saved bar chart to ";
                FStr "results/processed/hello_wasm_elapsed_ms_bar.png"]])
           (Ok ()) ∧
        length lines = length data
    end.
Proof.
  intros Hload.
  unfold wasm_hello_comparison.script, wasm_hello_comparison.main,
    wasm_hello_comparison.collect.
  destruct (collect_runtimes_spec (λ _, wasm_hello_comparison.load_samples fs) nonempty
              (λ _ _, mret ()) wasm_hello_comparison.no_samples_line
              wasm_hello_comparison.RUNTIMES) as (o & Ho & _ & _).
  { intros rt path Hin. destruct (Hload rt path Hin) as [s ->]. by eexists. }
  rewrite Ho. set (data := flat_map _ _).
  assert (Hdata : ∀ rt samples, (rt, samples) ∈ data → samples ≠ []).
  { intros rt samples Hin. apply collected_elem in Hin as (path & _ & _ & Ht).
    by destruct samples. }
  exists o, data. split; [done|]. split; [exact Hdata|].
  erewrite io_bind_Ok by reflexivity. cbn [out res].
  destruct data as [|d data'] eqn:Ed; [done|]. rewrite <- Ed in *.
  destruct (for_each_lines wasm_hello_comparison.summary_line data) as (lines & Hlines & Hlen).
  { intros [rt samples] Hin. destruct samples as [|x l]; [by destruct (Hdata _ _ Hin)|].
    apply wasm_summary_line. }
  destruct (mapM_Ok (λ d : string * list Q, statistics.mean d.2) data) as [ms Hms].
  { intros [rt samples] Hin. destruct samples as [|x l]; [by destruct (Hdata _ _ Hin)|].
    by eexists. }
  exists lines. split; [|exact Hlen].
  unfold wasm_hello_comparison.report. rewrite Hlines, Hms.
  rewrite print_bind. cbn [out res].
  erewrite (io_bind_Ok (IO lines (Ok ()))) by reflexivity. cbn [out res].
  rewrite print_bind, lift_Ok_bind. cbn [out res print].
  reflexivity.
Qed.

Lemma wasm_hello_script_witness :
  ∃ o data, wasm_hello_comparison.collect fixtures.wasm_hello_fs = IO o (Ok data) ∧
            ∀ rt samples, (rt, samples) ∈ data → samples ≠ [].
Proof.
  destruct (wasm_hello_script fixtures.wasm_hello_fs) as (o & data & Hc & Hne & _).
  - intros rt path Hin. repeat (apply elem_of_cons in Hin as [[= -> ->]|Hin]);
      [by eexists..|by apply elem_of_nil in Hin].
  - by exists o, data.
Defined.

End ThroughputScripts.
